(** * DesignWare HDMI QP transmitter: a shallow embedding of dw-hdmi-qp.c

    The driver talks to the controller through a regmap, sleeps on a
    completion that the hard interrupt handler signals, and calls into
    the DRM core (SCDC helpers, delayed work, PHY operations).  The
    embedding keeps the driver's private data as a record, threads it
    through a state monad together with a trace of every call that leaves
    the driver, and lets an invalid pointer access abort the computation.

    What the hardware and the sink do is part of the state: the answer of
    the controller to each wait, the values registers read as, the SCDC
    bytes of the sink.  Every property below holds for all of them. *)

From Stdlib Require Import ZArith List Bool Lia.
Import ListNotations.
Open Scope Z_scope.

(** ** Constants that live in headers outside the translated sources *)

(** Register offsets and bit fields of "dw-hdmi-qp.h".  The header is not
    part of the translated sources, so every macro the driver uses is a
    field here and the development is parametric in their values. *)
Class dw_hdmi_qp_h : Type := {
  I2CM_CONTROL0 : Z;
  I2CM_INTERFACE_CONTROL0 : Z;
  I2CM_ADDR : Z;
  I2CM_SLVADDR : Z;
  I2CM_WR_MASK : Z;
  I2CM_EXT_READ : Z;
  I2CM_FM_READ : Z;
  I2CM_FM_WRITE : Z;
  I2CM_INTERFACE_CONTROL1 : Z;
  I2CM_SEG_PTR : Z;
  I2CM_SEG_ADDR : Z;
  I2CM_INTERFACE_WRDATA_0_3 : Z;
  I2CM_INTERFACE_RDDATA_0_3 : Z;
  MAINUNIT_1_INT_STATUS : Z;
  MAINUNIT_1_INT_MASK_N : Z;
  MAINUNIT_1_INT_CLEAR : Z;
  I2CM_NACK_RCVD_IRQ : Z;
  I2CM_READ_REQUEST_IRQ : Z;
  I2CM_OP_DONE_IRQ : Z;
  I2CM_NACK_RCVD_MASK_N : Z;
  I2CM_OP_DONE_MASK_N : Z;
  PKT_AVI_CONTENTS0 : Z;
  PKT_AVI_CONTENTS1 : Z;
  PKT_DRMI_CONTENTS0 : Z;
  PKT_DRMI_CONTENTS1 : Z;
  PKTSCHED_PKT_CONFIG1 : Z;
  PKTSCHED_AVI_FIELDRATE : Z;
  PKTSCHED_DRMI_FIELDRATE : Z;
  PKTSCHED_PKT_EN : Z;
  PKTSCHED_AVI_TX_EN : Z;
  PKTSCHED_GCP_TX_EN : Z;
  PKTSCHED_DRMI_TX_EN : Z;
  SCRAMB_CONFIG0 : Z;
  HDCP2LOGIC_CONFIG0 : Z;
  HDCP2_BYPASS : Z;
  LINK_CONFIG0 : Z;
  OPMODE_DVI : Z
}.

(** Constants of the generic kernel headers the driver includes
    (the tick rate, errno, <linux/i2c.h>, <linux/hdmi.h>,
    <drm/drm_edid.h>, <drm/display/drm_scdc.h>); parameters for the same
    reason. *)
Class linux_h : Type := {
  HZ : Z;
  EIO : Z;
  EAGAIN : Z;
  EINVAL : Z;
  EOPNOTSUPP : Z;
  I2C_M_RD : Z;
  DDC_ADDR : Z;
  HDMI_INFOFRAME_SIZE_AVI : Z;
  HDMI_INFOFRAME_SIZE_DRM : Z;
  SCDC_SINK_VERSION : Z;
  SCDC_SOURCE_VERSION : Z
}.

(** Macros defined at the top of dw-hdmi-qp.c itself. *)
Definition DDC_CI_ADDR : Z := 0x37.
Definition DDC_SEGMENT_ADDR : Z := 0x30.
Definition SCDC_MIN_SOURCE_VERSION : Z := 0x1.
Definition HDMI14_MAX_TMDSCLK : Z := 340000000.
Definition HDMI20_MAX_TMDSRATE : Z := 600000000.
Definition SCRAMB_POLL_DELAY_MS : Z := 3000.

(** ** Machine integers *)

Definition u8 (x : Z) : Z := x mod 2 ^ 8.
Definition u32 (x : Z) : Z := x mod 2 ^ 32.

(** Little-endian value of a byte string. *)
Fixpoint le_word (bs : list Z) : Z :=
  match bs with
  | [] => 0
  | b :: rest => b + 256 * le_word rest
  end.

(** A [u8 *] is modelled by the bytes found at each offset from the
    pointer; a load truncates to the width of the pointee. *)
Definition bytes := Z -> Z.

Definition load (buf : bytes) (i : Z) : Z := u8 (buf i).

Definition store (buf : bytes) (i v : Z) : bytes :=
  fun j => if j =? i then u8 v else buf j.

(** Concrete buffers for examples: the listed bytes, zero afterwards. *)
Definition bytes_of (l : list Z) : bytes :=
  fun i => if i <? 0 then 0 else nth (Z.to_nat i) l 0.

(** ** Enumerations *)

Inductive irqreturn_t := IRQ_NONE | IRQ_HANDLED.

Inductive drm_mode_status := MODE_OK | MODE_CLOCK_HIGH.

Inductive drm_connector_status :=
| connector_status_connected
| connector_status_disconnected
| connector_status_unknown.

Definition drm_connector_status_eqb (a b : drm_connector_status) : bool :=
  match a, b with
  | connector_status_connected, connector_status_connected => true
  | connector_status_disconnected, connector_status_disconnected => true
  | connector_status_unknown, connector_status_unknown => true
  | _, _ => false
  end.

(** ** Driver data *)

(** [struct dw_hdmi_qp_i2c]; the completion is its [done] counter, the
    mutex is left out (one transfer runs at a time in the model). *)
Record dw_hdmi_qp_i2c := mk_i2c {
  cmp_done : Z;
  stat : Z;
  slave_reg : Z;
  is_regaddr : bool;
  is_segment : bool
}.

(** The fields of [struct drm_connector] the driver reads. *)
Record drm_connector := mk_connector {
  is_hdmi : bool;
  scdc_supported : bool;
  scrambling_supported : bool;
  status : drm_connector_status
}.

(** The field of [struct drm_connector_state] the driver reads. *)
Record drm_connector_state := mk_conn_state {
  tmds_char_rate : Z
}.

(** What the workqueue knows of a [struct delayed_work]: whether it is
    queued behind its timer, and whether its function has been started
    and has not returned yet. *)
Record delayed_work := mk_work {
  work_pending : bool;
  work_running : bool
}.

(** [struct dw_hdmi_qp]. *)
Record dw_hdmi_qp := mk_hdmi {
  i2c : dw_hdmi_qp_i2c;
  connector : option drm_connector;
  scramb_work : delayed_work;
  scramb_enabled : bool
}.

(** [struct i2c_msg]. *)
Record i2c_msg := mk_msg {
  addr : Z;
  flags : Z;
  len : Z;
  buf : bytes
}.

(** ** The world outside the driver *)

(** Every call that leaves the driver is recorded, with its arguments
    and, where there is one, its result.  [WaitForCompletion] carries the
    timeout in jiffies, the value returned, and [i2c->stat] as the woken
    caller finds it; [ScheduleDelayedWork] carries its delay in
    milliseconds. *)
Inductive event :=
| RegmapWrite (reg val : Z)
| RegmapUpdateBits (reg mask val : Z)
| RegmapRead (reg val : Z)
| Complete
| WaitForCompletion (timeout remaining latched : Z)
| ScdcReadb (offset val : Z)
| ScdcWriteb (offset val : Z)
| ScdcSetHighTmdsClockRatio (set : bool)
| ScdcSetScrambling (enable : bool)
| ScdcGetScramblingStatus (active : bool)
| ScheduleDelayedWork (delay_ms : Z)
| CancelDelayedWorkSync
| PhyInit
| PhyDisable
| UpdateInfoframes.

(** What the controller does while the driver sleeps on the completion:
    nothing before the timeout expires, or it raises the interrupt with
    the given main-unit status and read-data register contents. *)
Inductive hw_response :=
| HwSilent
| HwIrq (int_status rddata : Z).

Record world := mk_world {
  hdmi : dw_hdmi_qp;
  (** value a register read returns, per offset *)
  hw : Z -> Z;
  (** controller behaviour during the successive waits *)
  irqs : list hw_response;
  (** byte the sink leaves in the output of [drm_scdc_readb] *)
  sink_scdc : Z -> Z;
  (** answer of [drm_scdc_get_scrambling_status] *)
  sink_scrambling : bool;
  (** calls made so far, oldest first *)
  log : list event;
  (** offsets loaded from an infoframe buffer so far, oldest first *)
  loads : list Z
}.

(** ** The monad: state over [world], [None] for an invalid access
    (a NULL [hdmi->connector] handed to a helper, [msgs[0]] of an empty
    array) *)

Definition M (A : Type) : Type := world -> option (A * world).

Definition ret {A} (a : A) : M A := fun w => Some (a, w).

Definition bind {A B} (m : M A) (k : A -> M B) : M B :=
  fun w => match m w with
           | Some (a, w') => k a w'
           | None => None
           end.

Definition oops {A} : M A := fun _ => None.

Declare Scope drv_scope.
Delimit Scope drv_scope with drv.
Notation "x <- m ;; k" := (bind m (fun x => k))
  (at level 61, m at next level, right associativity) : drv_scope.
Notation "m ;; k" := (bind m (fun _ => k))
  (at level 61, right associativity) : drv_scope.
Notation "'when' c 'then' m" := (if c then m else ret tt)
  (at level 60, c at level 9) : drv_scope.
Open Scope drv_scope.

Definition gets {A} (f : world -> A) : M A := fun w => Some (f w, w).

Definition emit (e : event) : M unit :=
  fun w => Some (tt, mk_world (hdmi w) (hw w) (irqs w) (sink_scdc w)
                              (sink_scrambling w) (log w ++ [e]) (loads w)).

Definition set_hdmi (f : dw_hdmi_qp -> dw_hdmi_qp) : M unit :=
  fun w => Some (tt, mk_world (f (hdmi w)) (hw w) (irqs w) (sink_scdc w)
                              (sink_scrambling w) (log w) (loads w)).

Definition set_i2c (f : dw_hdmi_qp_i2c -> dw_hdmi_qp_i2c) : M unit :=
  set_hdmi (fun d => mk_hdmi (f (i2c d)) (connector d)
                             (scramb_work d) (scramb_enabled d)).

Definition with_cmp_done (v : Z) (c : dw_hdmi_qp_i2c) :=
  mk_i2c v (stat c) (slave_reg c) (is_regaddr c) (is_segment c).
Definition with_stat (v : Z) (c : dw_hdmi_qp_i2c) :=
  mk_i2c (cmp_done c) v (slave_reg c) (is_regaddr c) (is_segment c).
Definition with_slave_reg (v : Z) (c : dw_hdmi_qp_i2c) :=
  mk_i2c (cmp_done c) (stat c) v (is_regaddr c) (is_segment c).
Definition with_is_regaddr (v : bool) (c : dw_hdmi_qp_i2c) :=
  mk_i2c (cmp_done c) (stat c) (slave_reg c) v (is_segment c).
Definition with_is_segment (v : bool) (c : dw_hdmi_qp_i2c) :=
  mk_i2c (cmp_done c) (stat c) (slave_reg c) (is_regaddr c) v.

Definition with_connector (v : option drm_connector) (d : dw_hdmi_qp) :=
  mk_hdmi (i2c d) v (scramb_work d) (scramb_enabled d).
Definition with_scramb_work (v : delayed_work) (d : dw_hdmi_qp) :=
  mk_hdmi (i2c d) (connector d) v (scramb_enabled d).
Definition with_scramb_enabled (v : bool) (d : dw_hdmi_qp) :=
  mk_hdmi (i2c d) (connector d) (scramb_work d) v.

(** The controller changes what its registers read as. *)
Definition hw_set (reg v : Z) : M unit :=
  fun w => Some (tt, mk_world (hdmi w)
                              (fun r => if r =? reg then v else hw w r)
                              (irqs w) (sink_scdc w) (sink_scrambling w)
                              (log w) (loads w)).

Definition next_irq : M hw_response :=
  fun w => match irqs w with
           | [] => Some (HwSilent, w)
           | r :: rest =>
               Some (r, mk_world (hdmi w) (hw w) rest (sink_scdc w)
                                 (sink_scrambling w) (log w) (loads w))
           end.

(** [buffer[i]] on an infoframe buffer: the load is recorded. *)
Definition load_logged (buffer : bytes) (i : Z) : M Z :=
  fun w => Some (load buffer i,
                 mk_world (hdmi w) (hw w) (irqs w) (sink_scdc w)
                          (sink_scrambling w) (log w) (loads w ++ [i])).

Section Driver.
Context {regs : dw_hdmi_qp_h} {linux : linux_h}.

(** ** Register access layer *)

Definition dw_hdmi_qp_write (val offset : Z) : M unit :=
  emit (RegmapWrite offset (u32 val)).

Definition dw_hdmi_qp_read (offset : Z) : M Z :=
  val <- gets (fun w => u32 (hw w offset)) ;;
  emit (RegmapRead offset val) ;;
  ret val.

Definition dw_hdmi_qp_mod (data mask reg : Z) : M unit :=
  emit (RegmapUpdateBits reg (u32 mask) (u32 data)).

(** ** Completion *)

(** Modelled from the spec: <linux/completion.h> is not among the
    sources.  The completion is the single-slot signal of the I2C
    transaction context, kept as its [done] counter: re-initialising
    empties it. *)
Definition reinit_completion : M unit := set_i2c (with_cmp_done 0).

(** Modelled from the spec: [complete] of <linux/completion.h>, the
    signal from the interrupt handler to the waiting transaction. *)
Definition complete : M unit :=
  set_i2c (fun c => with_cmp_done (cmp_done c + 1) c) ;;
  emit Complete.

(** ** Interrupt dispatcher *)

Definition dw_hdmi_qp_main_hardirq : M irqreturn_t :=
  stat0 <- dw_hdmi_qp_read MAINUNIT_1_INT_STATUS ;;
  set_i2c (with_stat
             (u8 (Z.land stat0
                    (Z.lor (Z.lor I2CM_OP_DONE_IRQ I2CM_READ_REQUEST_IRQ)
                           I2CM_NACK_RCVD_IRQ)))) ;;
  st <- gets (fun w => stat (i2c (hdmi w))) ;;
  (when (negb (st =? 0)) then
     (dw_hdmi_qp_write st MAINUNIT_1_INT_CLEAR ;; complete)) ;;
  if negb (stat0 =? 0) then ret IRQ_HANDLED else ret IRQ_NONE.

(** Modelled from the spec: [wait_for_completion_timeout] of
    <linux/completion.h>, the blocking wait with a fixed timeout that the
    interrupt handler ends.  [timeout] is in jiffies.  The controller
    reacts (or not), the handler runs if the interrupt is raised, and the
    sleeper is woken exactly when the completion was signalled.  The
    result is 0 on timeout and the remaining time, at least 1, otherwise.
    The trace records the call with its result and the status latched by
    then. *)
Definition wait_for_completion_timeout (timeout : Z) : M Z :=
  r <- next_irq ;;
  (match r with
   | HwSilent => ret tt
   | HwIrq int_status rddata =>
       hw_set MAINUNIT_1_INT_STATUS int_status ;;
       hw_set I2CM_INTERFACE_RDDATA_0_3 rddata ;;
       _ <- dw_hdmi_qp_main_hardirq ;;
       ret tt
   end) ;;
  done <- gets (fun w => cmp_done (i2c (hdmi w))) ;;
  latched <- gets (fun w => stat (i2c (hdmi w))) ;;
  if 0 <? done then
    set_i2c (with_cmp_done (done - 1)) ;;
    emit (WaitForCompletion timeout 1 latched) ;;
    ret 1
  else
    emit (WaitForCompletion timeout 0 latched) ;;
    ret 0.

(** ** I2C-over-DDC adapter *)

(** [i2c->slave_reg++] on a [u8] field. *)
Definition slave_reg_postinc : M Z :=
  r <- gets (fun w => slave_reg (i2c (hdmi w))) ;;
  set_i2c (with_slave_reg (u8 (r + 1))) ;;
  ret r.

(** Body of the [while (length--)] loop of [dw_hdmi_qp_i2c_read], with
    the caller's buffer as the body leaves it: [Some r] when the body
    executes [return r], [None] when it falls through to the next
    iteration having stored a byte at [pos]. *)
Definition i2c_read_body (buf : bytes) (pos : Z) : M (option Z * bytes) :=
  reinit_completion ;;
  r <- slave_reg_postinc ;;
  dw_hdmi_qp_mod (Z.shiftl r 12) I2CM_ADDR I2CM_INTERFACE_CONTROL0 ;;
  seg <- gets (fun w => is_segment (i2c (hdmi w))) ;;
  (if seg
   then dw_hdmi_qp_mod I2CM_EXT_READ I2CM_WR_MASK I2CM_INTERFACE_CONTROL0
   else dw_hdmi_qp_mod I2CM_FM_READ I2CM_WR_MASK I2CM_INTERFACE_CONTROL0) ;;
  stat0 <- wait_for_completion_timeout (HZ / 10) ;;
  if stat0 =? 0 then
    dw_hdmi_qp_write 0x01 I2CM_CONTROL0 ;;
    ret (Some (- EAGAIN), buf)
  else
    st <- gets (fun w => stat (i2c (hdmi w))) ;;
    if negb (Z.land st I2CM_NACK_RCVD_IRQ =? 0) then
      dw_hdmi_qp_write 0x01 I2CM_CONTROL0 ;;
      ret (Some (- EIO), buf)
    else
      v <- dw_hdmi_qp_read I2CM_INTERFACE_RDDATA_0_3 ;;
      dw_hdmi_qp_mod 0 I2CM_WR_MASK I2CM_INTERFACE_CONTROL0 ;;
      ret (None, store buf pos (Z.land v 0xff)).

Fixpoint i2c_read_loop (n : nat) (buf : bytes) (pos : Z)
  : M (option Z * bytes) :=
  match n with
  | O => ret (None, buf)
  | S n' =>
      r <- i2c_read_body buf pos ;;
      match fst r with
      | Some e => ret (Some e, snd r)
      | None => i2c_read_loop n' (snd r) (pos + 1)
      end
  end.

(** Returns the [int] result and the caller's buffer as it is left. *)
Definition dw_hdmi_qp_i2c_read (buf : bytes) (length : Z) : M (Z * bytes) :=
  regaddr <- gets (fun w => is_regaddr (i2c (hdmi w))) ;;
  (when (negb regaddr) then
     (set_i2c (with_slave_reg 0x00) ;;
      set_i2c (with_is_regaddr true))) ;;
  r <- i2c_read_loop (Z.to_nat length) buf 0 ;;
  match fst r with
  | Some e => ret (e, snd r)
  | None =>
      set_i2c (with_is_segment false) ;;
      ret (0, snd r)
  end.

(** Body of the [while (length--)] loop of [dw_hdmi_qp_i2c_write]:
    [Some r] when the body executes [return r]. *)
Definition i2c_write_body (buf : bytes) (pos : Z) : M (option Z) :=
  reinit_completion ;;
  dw_hdmi_qp_write (load buf pos) I2CM_INTERFACE_WRDATA_0_3 ;;
  r <- slave_reg_postinc ;;
  dw_hdmi_qp_mod (Z.shiftl r 12) I2CM_ADDR I2CM_INTERFACE_CONTROL0 ;;
  dw_hdmi_qp_mod I2CM_FM_WRITE I2CM_WR_MASK I2CM_INTERFACE_CONTROL0 ;;
  stat0 <- wait_for_completion_timeout (HZ / 10) ;;
  if stat0 =? 0 then
    dw_hdmi_qp_write 0x01 I2CM_CONTROL0 ;;
    ret (Some (- EAGAIN))
  else
    st <- gets (fun w => stat (i2c (hdmi w))) ;;
    if negb (Z.land st I2CM_NACK_RCVD_IRQ =? 0) then
      dw_hdmi_qp_write 0x01 I2CM_CONTROL0 ;;
      ret (Some (- EIO))
    else
      dw_hdmi_qp_mod 0 I2CM_WR_MASK I2CM_INTERFACE_CONTROL0 ;;
      ret None.

Fixpoint i2c_write_loop (n : nat) (buf : bytes) (pos : Z) : M Z :=
  match n with
  | O => ret 0
  | S n' =>
      r <- i2c_write_body buf pos ;;
      match r with
      | Some e => ret e
      | None => i2c_write_loop n' buf (pos + 1)
      end
  end.

Definition dw_hdmi_qp_i2c_write (buf : bytes) (length : Z) : M Z :=
  regaddr <- gets (fun w => is_regaddr (i2c (hdmi w))) ;;
  if negb regaddr then
    (* Use the first write byte as register address *)
    set_i2c (with_slave_reg (load buf 0)) ;;
    set_i2c (with_is_regaddr true) ;;
    i2c_write_loop (Z.to_nat (u32 (length - 1))) buf 1
  else
    i2c_write_loop (Z.to_nat length) buf 0.

(** Body of the message loop of [dw_hdmi_qp_i2c_xfer] up to the test
    [if (ret < 0)]; [r] is the local [ret] on entry.  Returns the new
    [ret] and the message with its buffer as a read left it. *)
Definition xfer_msg (m : i2c_msg) (r : Z) : M (Z * i2c_msg) :=
  if (addr m =? DDC_SEGMENT_ADDR) && (len m =? 1) then
    set_i2c (with_is_segment true) ;;
    dw_hdmi_qp_mod DDC_SEGMENT_ADDR I2CM_SEG_ADDR I2CM_INTERFACE_CONTROL1 ;;
    dw_hdmi_qp_mod (Z.shiftl (load (buf m) 0) 7) I2CM_SEG_PTR
                   I2CM_INTERFACE_CONTROL1 ;;
    ret (r, m)
  else if negb (Z.land (flags m) I2C_M_RD =? 0) then
    rb <- dw_hdmi_qp_i2c_read (buf m) (len m) ;;
    ret (fst rb, mk_msg (addr m) (flags m) (len m) (snd rb))
  else
    r' <- dw_hdmi_qp_i2c_write (buf m) (len m) ;;
    ret (r', m).

(** The message loop: [ret] at loop exit and the messages as left. *)
Fixpoint xfer_msgs (msgs : list i2c_msg) (r : Z) : M (Z * list i2c_msg) :=
  match msgs with
  | [] => ret (r, [])
  | m :: rest =>
      rm <- xfer_msg m r ;;
      if fst rm <? 0 then ret (fst rm, snd rm :: rest)
      else
        rr <- xfer_msgs rest (fst rm) ;;
        ret (fst rr, snd rm :: snd rr)
  end.

(** [num] is the length of [msgs]; an empty array makes [msgs[0]] an
    invalid access. *)
Definition dw_hdmi_qp_i2c_xfer (msgs : list i2c_msg)
  : M (Z * list i2c_msg) :=
  match msgs with
  | [] => oops
  | m0 :: _ =>
      let num := Z.of_nat (length msgs) in
      let addr0 := u8 (addr m0) in
      if addr0 =? DDC_CI_ADDR then ret (- EOPNOTSUPP, msgs)
      else if existsb (fun m => len m =? 0) msgs
      then ret (- EOPNOTSUPP, msgs)
      else
        (* Unmute DONE and ERROR interrupts *)
        dw_hdmi_qp_mod (Z.lor I2CM_NACK_RCVD_MASK_N I2CM_OP_DONE_MASK_N)
                       (Z.lor I2CM_NACK_RCVD_MASK_N I2CM_OP_DONE_MASK_N)
                       MAINUNIT_1_INT_MASK_N ;;
        let addr1 := if (addr0 =? DDC_SEGMENT_ADDR) && (len m0 =? 1)
                     then DDC_ADDR else addr0 in
        dw_hdmi_qp_mod (Z.shiftl addr1 5) I2CM_SLVADDR
                       I2CM_INTERFACE_CONTROL0 ;;
        set_i2c (with_is_regaddr false) ;;
        set_i2c (with_is_segment false) ;;
        rr <- xfer_msgs msgs 0 ;;
        let r := if fst rr =? 0 then num else fst rr in
        (* Mute DONE and ERROR interrupts *)
        dw_hdmi_qp_mod 0 (Z.lor I2CM_OP_DONE_MASK_N I2CM_NACK_RCVD_MASK_N)
                       MAINUNIT_1_INT_MASK_N ;;
        ret (r, snd rr)
  end.

(** ** Infoframe encoder *)

(** Inner [for (j = 0; j < 4; j++)] of the AVI packing, [n] iterations
    left; returns [val]. *)
Fixpoint avi_pack_word (n : nat) (buffer : bytes) (i j val : Z) : M Z :=
  match n with
  | O => ret val
  | S n' =>
      if 14 <=? i * 4 + j then ret val
      else
        val1 <- (if j =? 0 then load_logged buffer (i * 4 + j + 3)
                 else ret val) ;;
        b <- load_logged buffer (i * 4 + j + 3) ;;
        avi_pack_word n' buffer i (j + 1)
                      (u32 (Z.lor val1 (Z.shiftl b (8 * j))))
  end.

(** Outer [for (i = 0; i < 4; i++)], [n] iterations left. *)
Fixpoint avi_pack (n : nat) (buffer : bytes) (i val : Z) : M unit :=
  match n with
  | O => ret tt
  | S n' =>
      val' <- avi_pack_word 4 buffer i 0 val ;;
      dw_hdmi_qp_write val' (PKT_AVI_CONTENTS1 + i * 4) ;;
      avi_pack n' buffer (i + 1) val'
  end.

Definition dw_hdmi_qp_config_avi_infoframe (buffer : bytes) (len : Z)
  : M Z :=
  if negb (len =? HDMI_INFOFRAME_SIZE_AVI) then ret (- EINVAL)
  else
    b1 <- load_logged buffer 1 ;;
    b2 <- load_logged buffer 2 ;;
    let val := u32 (Z.lor (Z.shiftl b1 8) (Z.shiftl b2 16)) in
    dw_hdmi_qp_write val PKT_AVI_CONTENTS0 ;;
    avi_pack 4 buffer 0 val ;;
    dw_hdmi_qp_mod 0 PKTSCHED_AVI_FIELDRATE PKTSCHED_PKT_CONFIG1 ;;
    dw_hdmi_qp_mod (Z.lor PKTSCHED_AVI_TX_EN PKTSCHED_GCP_TX_EN)
                   (Z.lor PKTSCHED_AVI_TX_EN PKTSCHED_GCP_TX_EN)
                   PKTSCHED_PKT_EN ;;
    ret 0.

(** [for (i = 0; i <= buffer[2]; i++)] of the DRM packing.  [i] is a
    [u32] and [buffer[2]] a byte, so the condition fails after at most
    256 iterations; [fuel] bounds the number of condition checks. *)
Fixpoint drm_pack (fuel : nat) (buffer : bytes) (i val : Z) : M unit :=
  match fuel with
  | O => ret tt
  | S fuel' =>
      n <- load_logged buffer 2 ;;
      if i <=? n then
        val1 <- (if i mod 4 =? 0 then load_logged buffer (3 + i)
                 else ret val) ;;
        b <- load_logged buffer (3 + i) ;;
        let val2 := u32 (Z.lor val1 (Z.shiftl b ((i mod 4) * 8))) in
        flush <- (if i mod 4 =? 3 then ret true
                  else n' <- load_logged buffer 2 ;; ret (i =? n')) ;;
        (when flush then
           dw_hdmi_qp_write val2 (PKT_DRMI_CONTENTS1 + (i / 4) * 4)) ;;
        drm_pack fuel' buffer (i + 1) val2
      else ret tt
  end.

Definition dw_hdmi_qp_config_drm_infoframe (buffer : bytes) (len : Z)
  : M Z :=
  if negb (len =? HDMI_INFOFRAME_SIZE_DRM) then ret (- EINVAL)
  else
    dw_hdmi_qp_mod 0 PKTSCHED_DRMI_TX_EN PKTSCHED_PKT_EN ;;
    b1 <- load_logged buffer 1 ;;
    b2 <- load_logged buffer 2 ;;
    let val := u32 (Z.lor (Z.shiftl b1 8) (Z.shiftl b2 16)) in
    dw_hdmi_qp_write val PKT_DRMI_CONTENTS0 ;;
    drm_pack 257 buffer 0 val ;;
    dw_hdmi_qp_mod 0 PKTSCHED_DRMI_FIELDRATE PKTSCHED_PKT_CONFIG1 ;;
    dw_hdmi_qp_mod PKTSCHED_DRMI_TX_EN PKTSCHED_DRMI_TX_EN
                   PKTSCHED_PKT_EN ;;
    ret 0.

(** ** DRM core calls made on [hdmi->connector] *)

(** Modelled from the spec: the SCDC helpers of the DRM core
    (<drm/display/drm_scdc_helper.h>) are not among the sources.  Each
    call is recorded in the trace; what the sink answers is read from the
    world.  The helpers that take the connector dereference it.  In the
    kernel they reach the sink over the DDC adapter of the bridge, which
    is the adapter of this driver: the transfers that a helper asks of
    [dw_hdmi_qp_i2c_xfer], and what these leave in the state of the
    adapter, are not part of a call here. *)
Definition the_connector : M drm_connector :=
  c <- gets (fun w => connector (hdmi w)) ;;
  match c with
  | Some c => ret c
  | None => oops
  end.

Definition drm_scdc_readb (offset : Z) : M Z :=
  v <- gets (fun w => u8 (sink_scdc w offset)) ;;
  emit (ScdcReadb offset v) ;;
  ret v.

Definition drm_scdc_writeb (offset val : Z) : M unit :=
  emit (ScdcWriteb offset val).

Definition drm_scdc_set_high_tmds_clock_ratio (set : bool) : M unit :=
  _ <- the_connector ;;
  emit (ScdcSetHighTmdsClockRatio set).

Definition drm_scdc_set_scrambling (enable : bool) : M unit :=
  _ <- the_connector ;;
  emit (ScdcSetScrambling enable).

Definition drm_scdc_get_scrambling_status : M bool :=
  _ <- the_connector ;;
  b <- gets sink_scrambling ;;
  emit (ScdcGetScramblingStatus b) ;;
  ret b.

(** Modelled from the spec: [schedule_delayed_work] of
    <linux/workqueue.h>, the arming of the periodic recheck; called as
    [schedule_delayed_work(&hdmi->scramb_work, msecs_to_jiffies(ms))]. *)
Definition schedule_delayed_work (ms : Z) : M unit :=
  set_hdmi (fun d => with_scramb_work
                       (mk_work true (work_running (scramb_work d))) d) ;;
  emit (ScheduleDelayedWork ms).

(** Modelled from the spec: [cancel_delayed_work_sync] of
    <linux/workqueue.h>, the synchronous cancel that waits for any
    in-flight execution to finish before proceeding; [work_fn] is the
    function the work was initialised with.  The call returns only when
    the work is neither queued nor executing: an execution in flight
    runs to its end first, and what it queues is dropped. *)
Definition cancel_delayed_work_sync (work_fn : M unit) : M unit :=
  wk <- gets (fun w => scramb_work (hdmi w)) ;;
  (when (work_running wk) then work_fn) ;;
  set_hdmi (with_scramb_work (mk_work false false)) ;;
  emit CancelDelayedWorkSync.

(** ** Link / scrambling state machine *)

Definition dw_hdmi_qp_supports_scrambling : M bool :=
  display <- the_connector ;;
  if negb (is_hdmi display) then ret false
  else if negb (scdc_supported display)
          || negb (scrambling_supported display)
  then ret false
  else ret true.

Definition dw_hdmi_qp_set_scramb : M unit :=
  drm_scdc_set_high_tmds_clock_ratio true ;;
  drm_scdc_set_scrambling true ;;
  schedule_delayed_work SCRAMB_POLL_DELAY_MS.

Definition dw_hdmi_qp_scramb_work : M unit :=
  active <- drm_scdc_get_scrambling_status ;;
  when (negb active) then dw_hdmi_qp_set_scramb.

(** Modelled from the spec: the workqueue side of the periodic recheck.
    When the timer of [scramb_work] expires the work function runs if
    and only if the work is still pending. *)
Definition scramb_work_timer_expires : M unit :=
  wk <- gets (fun w => scramb_work (hdmi w)) ;;
  when (work_pending wk) then
    (set_hdmi (with_scramb_work (mk_work false true)) ;;
     dw_hdmi_qp_scramb_work ;;
     set_hdmi (fun d => with_scramb_work
                          (mk_work (work_pending (scramb_work d)) false) d)).

Definition dw_hdmi_qp_enable_scramb : M unit :=
  ok <- dw_hdmi_qp_supports_scrambling ;;
  if negb ok then ret tt
  else
    ver <- drm_scdc_readb SCDC_SINK_VERSION ;;
    drm_scdc_writeb SCDC_SOURCE_VERSION
                    (Z.min (u8 ver) (u8 SCDC_MIN_SOURCE_VERSION)) ;;
    dw_hdmi_qp_set_scramb ;;
    dw_hdmi_qp_write 1 SCRAMB_CONFIG0 ;;
    set_hdmi (with_scramb_enabled true).

Definition dw_hdmi_qp_disable_scramb : M unit :=
  enabled <- gets (fun w => scramb_enabled (hdmi w)) ;;
  if negb enabled then ret tt
  else
    set_hdmi (with_scramb_enabled false) ;;
    cancel_delayed_work_sync dw_hdmi_qp_scramb_work ;;
    dw_hdmi_qp_write 0 SCRAMB_CONFIG0 ;;
    c <- the_connector ;;
    when (negb (drm_connector_status_eqb (status c)
                                         connector_status_disconnected)) then
      (drm_scdc_set_scrambling false ;;
       drm_scdc_set_high_tmds_clock_ratio false).

(** [new_connector] and [conn_state] are what
    [drm_atomic_get_new_connector_for_encoder] and
    [drm_atomic_get_new_connector_state] return, [None] for NULL. *)
Definition dw_hdmi_qp_bridge_atomic_enable
    (new_connector : option drm_connector)
    (conn_state : option drm_connector_state) : M unit :=
  set_hdmi (with_connector new_connector) ;;
  match new_connector with
  | None => ret tt
  | Some _ =>
      match conn_state with
      | None => ret tt
      | Some cs =>
          c <- the_connector ;;
          op_mode <- (if is_hdmi c then
                        (when (HDMI14_MAX_TMDSCLK <? tmds_char_rate cs) then
                           dw_hdmi_qp_enable_scramb) ;;
                        ret 0
                      else ret OPMODE_DVI) ;;
          emit PhyInit ;;
          dw_hdmi_qp_mod HDCP2_BYPASS HDCP2_BYPASS HDCP2LOGIC_CONFIG0 ;;
          dw_hdmi_qp_mod op_mode OPMODE_DVI LINK_CONFIG0 ;;
          emit UpdateInfoframes
      end
  end.

Definition dw_hdmi_qp_bridge_atomic_disable : M unit :=
  dw_hdmi_qp_disable_scramb ;;
  set_hdmi (with_connector None) ;;
  emit PhyDisable.

(** ** Rate validity *)

Definition dw_hdmi_qp_bridge_tmds_char_rate_valid
    (d : dw_hdmi_qp) (rate : Z) : drm_mode_status :=
  if HDMI20_MAX_TMDSRATE <? rate then MODE_CLOCK_HIGH else MODE_OK.

(** ** Shapes of the call trace *)

(** The controller soft reset and the clearing of the strobe field. *)
Definition soft_reset : event := RegmapWrite I2CM_CONTROL0 1.

Definition clear_strobe : event :=
  RegmapUpdateBits I2CM_INTERFACE_CONTROL0 (u32 I2CM_WR_MASK) 0.

Definition mute_irqs : event :=
  RegmapUpdateBits MAINUNIT_1_INT_MASK_N
                   (u32 (Z.lor I2CM_OP_DONE_MASK_N I2CM_NACK_RCVD_MASK_N)) 0.

Definition is_wait (e : event) : bool :=
  match e with
  | WaitForCompletion _ _ _ => true
  | _ => false
  end.

(** What follows the wait of a byte operation that went through: for a
    read the data register is fetched first. *)
Definition strobe_cleared_next (post : list event) : Prop :=
  exists post',
    post = clear_strobe :: post' \/
    exists v,
      post = RegmapRead I2CM_INTERFACE_RDDATA_0_3 v :: clear_strobe :: post'.

(** Every wait recorded in [L] had a tenth of a second to complete, was
    signalled without NACK and is followed by the clearing of the strobe
    field. *)
Definition all_waits_ok (L : list event) : Prop :=
  forall pre timeout remaining latched post,
    L = pre ++ WaitForCompletion timeout remaining latched :: post ->
    timeout = HZ / 10 /\
    remaining <> 0 /\
    Z.land latched I2CM_NACK_RCVD_IRQ = 0 /\
    strobe_cleared_next post.

(** [L] ends with a wait that timed out or latched NACK, followed by the
    soft reset; [e] is the matching error. *)
Definition ends_in_failure (e : Z) (L : list event) : Prop :=
  exists L0 remaining latched,
    L = L0 ++ [WaitForCompletion (HZ / 10) remaining latched; soft_reset] /\
    all_waits_ok L0 /\
    ((remaining = 0 /\ e = - EAGAIN) \/
     (remaining <> 0 /\ Z.land latched I2CM_NACK_RCVD_IRQ <> 0 /\
      e = - EIO)).

(** The data bytes handed to the write-data register, in order. *)
Fixpoint wrdata_writes (L : list event) : list Z :=
  match L with
  | [] => []
  | RegmapWrite reg v :: L' =>
      if reg =? I2CM_INTERFACE_WRDATA_0_3 then v :: wrdata_writes L'
      else wrdata_writes L'
  | _ :: L' => wrdata_writes L'
  end.

(** The calls of one execution of the recheck when the sink reports
    scrambling status [active]. *)
Definition recheck_trace (active : bool) : list event :=
  ScdcGetScramblingStatus active
    :: (if active then []
        else [ScdcSetHighTmdsClockRatio true;
              ScdcSetScrambling true;
              ScheduleDelayedWork SCRAMB_POLL_DELAY_MS]).

(** Events of the DRM infoframe path. *)
Definition drmi_tx_disable : event :=
  RegmapUpdateBits PKTSCHED_PKT_EN (u32 PKTSCHED_DRMI_TX_EN) 0.

Definition drmi_tx_enable : event :=
  RegmapUpdateBits PKTSCHED_PKT_EN (u32 PKTSCHED_DRMI_TX_EN)
                   (u32 PKTSCHED_DRMI_TX_EN).

Definition drmi_fieldrate_clear : event :=
  RegmapUpdateBits PKTSCHED_PKT_CONFIG1 (u32 PKTSCHED_DRMI_FIELDRATE) 0.

(** Write of body word [fst kv] with value [snd kv]. *)
Definition drmi_content_write (kv : nat * Z) : event :=
  RegmapWrite (PKT_DRMI_CONTENTS1 + Z.of_nat (fst kv) * 4) (snd kv).

(** The whole trace of a DRM infoframe encode with control word [ctrl]
    and body words [vals]. *)
Definition drmi_trace (ctrl : Z) (vals : list Z) : list event :=
  drmi_tx_disable
    :: RegmapWrite PKT_DRMI_CONTENTS0 ctrl
    :: map drmi_content_write (combine (seq 0 (length vals)) vals)
    ++ [drmi_fieldrate_clear; drmi_tx_enable].

(** The trace of an AVI infoframe encode of a buffer with bytes [b]. *)
Definition avi_trace (b : Z -> Z) : list event :=
  [RegmapWrite PKT_AVI_CONTENTS0 (le_word [0; b 1; b 2]);
   RegmapWrite (PKT_AVI_CONTENTS1 + 0 * 4) (le_word [b 3; b 4; b 5; b 6]);
   RegmapWrite (PKT_AVI_CONTENTS1 + 1 * 4) (le_word [b 7; b 8; b 9; b 10]);
   RegmapWrite (PKT_AVI_CONTENTS1 + 2 * 4)
               (le_word [b 11; b 12; b 13; b 14]);
   RegmapWrite (PKT_AVI_CONTENTS1 + 3 * 4) (le_word [b 15; b 16]);
   RegmapUpdateBits PKTSCHED_PKT_CONFIG1 (u32 PKTSCHED_AVI_FIELDRATE) 0;
   RegmapUpdateBits PKTSCHED_PKT_EN
                    (u32 (Z.lor PKTSCHED_AVI_TX_EN PKTSCHED_GCP_TX_EN))
                    (u32 (Z.lor PKTSCHED_AVI_TX_EN PKTSCHED_GCP_TX_EN))].

End Driver.

(** The three interrupt sources the handler looks at. *)
Definition i2c_irq_mask {regs : dw_hdmi_qp_h} : Z :=
  Z.lor (Z.lor I2CM_OP_DONE_IRQ I2CM_READ_REQUEST_IRQ) I2CM_NACK_RCVD_IRQ.

(** [m] started in [w] returns [a] in [w'], having appended [L] to the
    trace. *)
Definition runs {A} (m : M A) (w : world) (a : A) (w' : world)
    (L : list event) : Prop :=
  m w = Some (a, w') /\ log w' = log w ++ L.

Definition no_wait (L : list event) : Prop :=
  Forall (fun e => is_wait e = false) L.

(** The control flow of [drm_pack] alone, for a body length [n] read
    from [buffer[2]]: the content words flushed, as indices from
    [PKT_DRMI_CONTENTS1], and the buffer offsets loaded. *)
Fixpoint drm_flush_indices (fuel : nat) (n i : Z) : list Z :=
  match fuel with
  | O => []
  | S fuel' =>
      if i <=? n then
        (if (i mod 4 =? 3) || (i =? n) then [i / 4] else [])
          ++ drm_flush_indices fuel' n (i + 1)
      else []
  end.

Fixpoint drm_loads (fuel : nat) (n i : Z) : list Z :=
  match fuel with
  | O => []
  | S fuel' =>
      2 :: (if i <=? n then
              (if i mod 4 =? 0 then [3 + i] else [])
                ++ [3 + i]
                ++ (if i mod 4 =? 3 then [] else [2])
                ++ drm_loads fuel' n (i + 1)
            else [])
  end.

(** Modelled from the spec: the regmap is not among the sources; it is
    the read/modify-write layer over an addressed register space.  For
    plain read/write registers, the effect of one call, and of a trace,
    on the stored values. *)
Definition regmap_apply (file : Z -> Z) (e : event) : Z -> Z :=
  match e with
  | RegmapWrite reg val => fun r => if r =? reg then val else file r
  | RegmapUpdateBits reg mask val =>
      fun r => if r =? reg
               then Z.lor (Z.land (file reg) (Z.lnot mask)) (Z.land val mask)
               else file r
  | _ => file
  end.

Definition regmap_replay (file : Z -> Z) (L : list event) : Z -> Z :=
  fold_left regmap_apply L file.

(** Checks over the 256 values a byte can take. *)
Definition all_bytes (p : Z -> bool) : bool :=
  forallb p (map Z.of_nat (seq 0 256)).

Definition list_Z_eqb (a b : list Z) : bool :=
  if list_eq_dec Z.eq_dec a b then true else false.

(** The shape expected of [drm_pack] for a body length [n], as a check:
    words 0 to n/4 are flushed, in order. *)
Definition drm_flush_ok (n : Z) : bool :=
  list_Z_eqb (drm_flush_indices 257 n 0)
             (map Z.of_nat (seq 0 (Z.to_nat (n / 4) + 1))).

(** ** Concrete inputs *)

(** A register layout and header values on which the model can be run. *)
Definition sample_regs : dw_hdmi_qp_h := {|
  I2CM_CONTROL0 := 0xec;
  I2CM_INTERFACE_CONTROL0 := 0xf4;
  I2CM_ADDR := 0xff000;
  I2CM_SLVADDR := 0xfe0;
  I2CM_WR_MASK := 0x1e;
  I2CM_EXT_READ := 0x10;
  I2CM_FM_READ := 0x4;
  I2CM_FM_WRITE := 0x2;
  I2CM_INTERFACE_CONTROL1 := 0xf8;
  I2CM_SEG_PTR := 0x7f80;
  I2CM_SEG_ADDR := 0x7f;
  I2CM_INTERFACE_WRDATA_0_3 := 0xfc;
  I2CM_INTERFACE_RDDATA_0_3 := 0x10c;
  MAINUNIT_1_INT_STATUS := 0x3020;
  MAINUNIT_1_INT_MASK_N := 0x3024;
  MAINUNIT_1_INT_CLEAR := 0x3028;
  I2CM_NACK_RCVD_IRQ := 0x4;
  I2CM_READ_REQUEST_IRQ := 0x2;
  I2CM_OP_DONE_IRQ := 0x1;
  I2CM_NACK_RCVD_MASK_N := 0x4;
  I2CM_OP_DONE_MASK_N := 0x1;
  PKT_AVI_CONTENTS0 := 0xb68;
  PKT_AVI_CONTENTS1 := 0xb6c;
  PKT_DRMI_CONTENTS0 := 0xbf0;
  PKT_DRMI_CONTENTS1 := 0xbf4;
  PKTSCHED_PKT_CONFIG1 := 0xa98;
  PKTSCHED_AVI_FIELDRATE := 0x1000;
  PKTSCHED_DRMI_FIELDRATE := 0x2000;
  PKTSCHED_PKT_EN := 0xaa8;
  PKTSCHED_AVI_TX_EN := 0x2000;
  PKTSCHED_GCP_TX_EN := 0x8;
  PKTSCHED_DRMI_TX_EN := 0x20000;
  SCRAMB_CONFIG0 := 0x960;
  HDCP2LOGIC_CONFIG0 := 0xe00;
  HDCP2_BYPASS := 0x1;
  LINK_CONFIG0 := 0x968;
  OPMODE_DVI := 0x1
|}.

Definition sample_linux : linux_h := {|
  HZ := 250;
  EIO := 5;
  EAGAIN := 11;
  EINVAL := 22;
  EOPNOTSUPP := 95;
  I2C_M_RD := 0x1;
  DDC_ADDR := 0x50;
  HDMI_INFOFRAME_SIZE_AVI := 17;
  HDMI_INFOFRAME_SIZE_DRM := 30;
  SCDC_SINK_VERSION := 0x1;
  SCDC_SOURCE_VERSION := 0x2
|}.

Definition idle_i2c : dw_hdmi_qp_i2c := mk_i2c 0 0 0 false false.

Definition unbound_hdmi : dw_hdmi_qp :=
  mk_hdmi idle_i2c None (mk_work false false) false.

(** A world in which the controller answers the waits as [rs]. *)
Definition world_of (d : dw_hdmi_qp) (rs : list hw_response) : world :=
  mk_world d (fun _ => 0) rs (fun _ => 0) false [] [].

(** What a run leaves to look at: the value returned and the trace. *)
Definition observe {A} (o : option (A * world)) : option (A * list event) :=
  match o with
  | Some (a, w) => Some (a, log w)
  | None => None
  end.

(** For a transfer: the value returned, the first two bytes of every
    message buffer, and the trace. *)
Definition observe_xfer (o : option ((Z * list i2c_msg) * world))
  : option (Z * list (list Z) * list event) :=
  match o with
  | Some ((r, ms), w) =>
      Some (r, map (fun m => map (buf m) [0; 1]) ms, log w)
  | None => None
  end.

(** A write of the register address 0x10 followed by a two-byte read, as
    an EDID access does, and other messages. *)
Definition edid_batch : list i2c_msg :=
  [mk_msg 0x50 0 1 (bytes_of [0x10]); mk_msg 0x50 1 2 (bytes_of [])].

Definition ddc_ci_msg : i2c_msg := mk_msg 0x37 0 1 (bytes_of [0x51]).

Definition segment_msg : i2c_msg := mk_msg 0x30 0 1 (bytes_of [0x01]).

Definition scdc_write_msg : i2c_msg :=
  mk_msg 0x54 0 3 (bytes_of [0x20; 0x03; 0x07]).

Definition one_byte_msg : i2c_msg := mk_msg 0x50 0 1 (bytes_of [0x10]).

(** A sink with SCDC and scrambling, and one without. *)
Definition hdmi20_sink : drm_connector :=
  mk_connector true true true connector_status_connected.

Definition hdmi14_sink : drm_connector :=
  mk_connector true false false connector_status_connected.

(** A controller with scrambling on towards [hdmi20_sink], the recheck
    queued and one execution of it in flight. *)
Definition scrambling_hdmi : dw_hdmi_qp :=
  mk_hdmi idle_i2c (Some hdmi20_sink) (mk_work true true) true.

(** Infoframes as [hdmi_infoframe_pack] lays them out: type, version,
    length, checksum, then the body. *)
Definition avi_buffer : bytes :=
  bytes_of [0x82; 0x02; 0x0d; 0x48; 0x12; 0x28; 0x04; 0x5f; 0x00;
            0x11; 0x22; 0x33; 0x44; 0x55; 0x66; 0x77; 0x88].

Definition drm_buffer : bytes :=
  bytes_of [0x87; 0x01; 0x1a; 0x3b; 0x02; 0x00; 0x01; 0x02; 0x03; 0x04;
            0x05; 0x06; 0x07; 0x08; 0x09; 0x0a; 0x0b; 0x0c; 0x0d; 0x0e;
            0x0f; 0x10; 0x11; 0x12; 0x13; 0x14; 0x15; 0x16; 0x17; 0x18].

(** The same header with 255 in the length byte. *)
Definition drm_buffer_long : bytes := bytes_of [0x87; 0x01; 0xff].

(** * More of the driver: shapes of successful I2C operations *)

Section TransferShapes.
Context {regs : dw_hdmi_qp_h} {linux : linux_h}.

(** The first two calls of an accepted transfer: the DONE and NACK
    interrupts are unmuted and the slave address of the first message is
    programmed, the EDID address standing in for the segment address. *)
Definition unmute_irqs : event :=
  RegmapUpdateBits MAINUNIT_1_INT_MASK_N
                   (u32 (Z.lor I2CM_NACK_RCVD_MASK_N I2CM_OP_DONE_MASK_N))
                   (u32 (Z.lor I2CM_NACK_RCVD_MASK_N I2CM_OP_DONE_MASK_N)).

Definition slave_addr_update (m0 : i2c_msg) : event :=
  RegmapUpdateBits I2CM_INTERFACE_CONTROL0 (u32 I2CM_SLVADDR)
    (u32 (Z.shiftl (if (u8 (addr m0) =? DDC_SEGMENT_ADDR) && (len m0 =? 1)
                    then DDC_ADDR else u8 (addr m0)) 5)).

(** What the handler latches in [i2c->stat] from a raw status. *)
Definition latch (int_status : Z) : Z :=
  u8 (Z.land (u32 int_status) i2c_irq_mask).

(** The controller raises the interrupt with one of the three I2C bits
    and without NACK. *)
Definition irq_done (r : hw_response) : bool :=
  match r with
  | HwSilent => false
  | HwIrq int_status _ =>
      negb (latch int_status =? 0)
      && (Z.land (latch int_status) I2CM_NACK_RCVD_IRQ =? 0)
  end.

(** The byte a read takes from the data register after [r]. *)
Definition rx_byte (r : hw_response) : Z :=
  match r with
  | HwSilent => 0
  | HwIrq _ rddata => Z.land (u32 rddata) 0xff
  end.

(** The calls from the interrupt to the return of the wait. *)
Definition irq_events (r : hw_response) : list event :=
  match r with
  | HwSilent => []
  | HwIrq int_status _ =>
      [RegmapRead MAINUNIT_1_INT_STATUS (u32 int_status);
       RegmapWrite MAINUNIT_1_INT_CLEAR (latch int_status);
       Complete;
       WaitForCompletion (HZ / 10) 1 (latch int_status)]
  end.

(** One byte read from slave register [reg], in extended mode or not. *)
Definition read_byte_trace (ext : bool) (reg : Z) (r : hw_response)
  : list event :=
  [RegmapUpdateBits I2CM_INTERFACE_CONTROL0 (u32 I2CM_ADDR)
                    (u32 (Z.shiftl reg 12));
   RegmapUpdateBits I2CM_INTERFACE_CONTROL0 (u32 I2CM_WR_MASK)
                    (u32 (if ext then I2CM_EXT_READ else I2CM_FM_READ))]
    ++ irq_events r
    ++ [RegmapRead I2CM_INTERFACE_RDDATA_0_3 (u32 (match r with
                                                   | HwIrq _ d => d
                                                   | HwSilent => 0
                                                   end));
        clear_strobe].

Fixpoint read_trace (ext : bool) (reg : Z) (rs : list hw_response)
  : list event :=
  match rs with
  | [] => []
  | r :: rs' => read_byte_trace ext reg r ++ read_trace ext (u8 (reg + 1)) rs'
  end.

(** One byte [b] written to slave register [reg]. *)
Definition write_byte_trace (reg b : Z) (r : hw_response) : list event :=
  [RegmapWrite I2CM_INTERFACE_WRDATA_0_3 (u32 b);
   RegmapUpdateBits I2CM_INTERFACE_CONTROL0 (u32 I2CM_ADDR)
                    (u32 (Z.shiftl reg 12));
   RegmapUpdateBits I2CM_INTERFACE_CONTROL0 (u32 I2CM_WR_MASK)
                    (u32 I2CM_FM_WRITE)]
    ++ irq_events r
    ++ [clear_strobe].

Fixpoint write_trace (buf : bytes) (pos reg : Z) (rs : list hw_response)
  : list event :=
  match rs with
  | [] => []
  | r :: rs' =>
      write_byte_trace reg (load buf pos) r
        ++ write_trace buf (pos + 1) (u8 (reg + 1)) rs'
  end.

(** Bytes [ds] stored from offset [pos] on. *)
Fixpoint store_all (buf : bytes) (pos : Z) (ds : list Z) : bytes :=
  match ds with
  | [] => buf
  | d :: ds' => store_all (store buf pos d) (pos + 1) ds'
  end.

(** ** Byte operations that fail *)

(** The calls of a byte operation up to its wait: for a read of slave
    register [reg], in extended mode or not, the register address and
    the read command; for a write of [b], the data byte first. *)
Definition read_request (ext : bool) (reg : Z) : list event :=
  [RegmapUpdateBits I2CM_INTERFACE_CONTROL0 (u32 I2CM_ADDR)
                    (u32 (Z.shiftl reg 12));
   RegmapUpdateBits I2CM_INTERFACE_CONTROL0 (u32 I2CM_WR_MASK)
                    (u32 (if ext then I2CM_EXT_READ else I2CM_FM_READ))].

Definition write_request (reg b : Z) : list event :=
  [RegmapWrite I2CM_INTERFACE_WRDATA_0_3 (u32 b);
   RegmapUpdateBits I2CM_INTERFACE_CONTROL0 (u32 I2CM_ADDR)
                    (u32 (Z.shiftl reg 12));
   RegmapUpdateBits I2CM_INTERFACE_CONTROL0 (u32 I2CM_WR_MASK)
                    (u32 I2CM_FM_WRITE)].

(** The calls from the request to the return of a wait that the
    controller does not complete without NACK.  The controller stays
    silent, and the wait times out with the status that an earlier
    interrupt left, [stale]; or it raises the interrupt with none of the
    three I2C bits, the handler latches 0 and signals nothing, and the
    wait times out; or it raises it with NACK among the bits, and the
    sleeper wakes. *)
Definition failed_wait (stale : Z) (r : hw_response) : list event :=
  match r with
  | HwSilent => [WaitForCompletion (HZ / 10) 0 stale]
  | HwIrq int_status _ =>
      if latch int_status =? 0
      then [RegmapRead MAINUNIT_1_INT_STATUS (u32 int_status);
            WaitForCompletion (HZ / 10) 0 0]
      else irq_events r
  end.

(** What the operation returns then: -EAGAIN after a timeout, -EIO after
    a NACK. *)
Definition byte_error (r : hw_response) : Z :=
  match r with
  | HwSilent => - EAGAIN
  | HwIrq int_status _ =>
      if latch int_status =? 0 then - EAGAIN else - EIO
  end.

(** The bytes [rs] read, then one more operation, which fails on [f]. *)
Fixpoint read_trace_failed (ext : bool) (reg : Z) (rs : list hw_response)
    (stale : Z) (f : hw_response) : list event :=
  match rs with
  | [] => read_request ext reg ++ failed_wait stale f ++ [soft_reset]
  | r :: rs' =>
      read_byte_trace ext reg r
        ++ read_trace_failed ext (u8 (reg + 1)) rs' stale f
  end.

(** The same for a write of the bytes of [buf] from offset [pos] on. *)
Fixpoint write_trace_failed (buf : bytes) (pos reg : Z)
    (rs : list hw_response) (stale : Z) (f : hw_response) : list event :=
  match rs with
  | [] =>
      write_request reg (load buf pos) ++ failed_wait stale f ++ [soft_reset]
  | r :: rs' =>
      write_byte_trace reg (load buf pos) r
        ++ write_trace_failed buf (pos + 1) (u8 (reg + 1)) rs' stale f
  end.

(** Where a read starts: at the register pointer if one is set, at
    register 0 otherwise. *)
Definition read_start (w : world) : Z :=
  if is_regaddr (i2c (hdmi w)) then slave_reg (i2c (hdmi w)) else 0.

(** A write with no register pointer set takes the pointer from the
    first byte of its buffer and transmits the bytes after it, one fewer
    than its length, counted on 32 bits; with a pointer set it transmits
    all of them. *)
Definition write_start (buf : bytes) (w : world) : Z :=
  if is_regaddr (i2c (hdmi w)) then slave_reg (i2c (hdmi w))
  else load buf 0.

Definition write_skip (w : world) : Z :=
  if is_regaddr (i2c (hdmi w)) then 0 else 1.

Definition write_count (length : Z) (w : world) : nat :=
  if is_regaddr (i2c (hdmi w)) then Z.to_nat length
  else Z.to_nat (u32 (length - 1)).

(** The world in which the messages of an accepted batch are gone
    through: the interrupts are unmuted, the slave address of the first
    message [m0] is programmed and the two flags of the transfer are
    reset. *)
Definition xfer_start (m0 : i2c_msg) (w : world) : world :=
  mk_world (mk_hdmi (mk_i2c (cmp_done (i2c (hdmi w))) (stat (i2c (hdmi w)))
                            (slave_reg (i2c (hdmi w))) false false)
                    (connector (hdmi w)) (scramb_work (hdmi w))
                    (scramb_enabled (hdmi w)))
           (hw w) (irqs w) (sink_scdc w) (sink_scrambling w)
           (log w ++ [unmute_irqs; slave_addr_update m0]) (loads w).

End TransferShapes.

(** * More of the driver: enable/disable cycles of the link *)

Section LinkCycles.
Context {regs : dw_hdmi_qp_h} {linux : linux_h}.

(** The tests a connector and its state pass on the way from
    [dw_hdmi_qp_bridge_atomic_enable] to the scrambling setup of
    [dw_hdmi_qp_enable_scramb]. *)
Definition wants_scrambling (c : drm_connector) (cs : drm_connector_state)
  : bool :=
  is_hdmi c && (HDMI14_MAX_TMDSCLK <? tmds_char_rate cs)
  && scdc_supported c && scrambling_supported c.

(** The calls of the scrambling setup, [ver] being the sink version. *)
Definition scramb_setup (ver : Z) : list event :=
  [ScdcReadb SCDC_SINK_VERSION ver;
   ScdcWriteb SCDC_SOURCE_VERSION (Z.min ver 1);
   ScdcSetHighTmdsClockRatio true;
   ScdcSetScrambling true;
   ScheduleDelayedWork SCRAMB_POLL_DELAY_MS;
   RegmapWrite SCRAMB_CONFIG0 1].

(** The calls that end every enable that got a connector and a state. *)
Definition link_setup (c : drm_connector) : list event :=
  [PhyInit;
   RegmapUpdateBits HDCP2LOGIC_CONFIG0 (u32 HDCP2_BYPASS) (u32 HDCP2_BYPASS);
   RegmapUpdateBits LINK_CONFIG0 (u32 OPMODE_DVI)
                    (u32 (if is_hdmi c then 0 else OPMODE_DVI));
   UpdateInfoframes].

Definition enable_trace (nc : option drm_connector)
    (cs : option drm_connector_state) (ver : Z) : list event :=
  match nc, cs with
  | Some c, Some s =>
      (if wants_scrambling c s then scramb_setup ver else []) ++ link_setup c
  | _, _ => []
  end.

(** The sink changes what it reports as its scrambling status. *)
Definition sink_reports (active : bool) : M unit :=
  fun w => Some (tt, mk_world (hdmi w) (hw w) (irqs w) (sink_scdc w) active
                              (log w) (loads w)).

(** Expiries of the recheck timer, the sink reporting [bs] in turn. *)
Fixpoint rechecks (bs : list bool) : M unit :=
  match bs with
  | [] => ret tt
  | b :: bs' =>
      sink_reports b ;; scramb_work_timer_expires ;; rechecks bs'
  end.

(** One cycle as the atomic commit machinery drives the bridge: enable
    with what the commit holds, the timer expiries until the next
    commit, disable. *)
Record link_cycle := mk_cycle {
  cyc_connector : option drm_connector;
  cyc_conn_state : option drm_connector_state;
  cyc_rechecks : list bool
}.

Definition run_cycle (c : link_cycle) : M unit :=
  dw_hdmi_qp_bridge_atomic_enable (cyc_connector c) (cyc_conn_state c) ;;
  rechecks (cyc_rechecks c) ;;
  dw_hdmi_qp_bridge_atomic_disable.

Fixpoint run_cycles (cs : list link_cycle) : M unit :=
  match cs with
  | [] => ret tt
  | c :: cs' => run_cycle c ;; run_cycles cs'
  end.

(** Scrambling off and the recheck neither queued nor running, as after
    [dw_hdmi_qp_bind] and after every disable. *)
Definition link_off (d : dw_hdmi_qp) : bool :=
  negb (scramb_enabled d)
  && negb (work_pending (scramb_work d))
  && negb (work_running (scramb_work d)).

End LinkCycles.

(** * More of the driver: the link between an enable and its disable *)

Section LinkInvariant.
Context {regs : dw_hdmi_qp_h} {linux : linux_h}.

(** What holds of the private data whenever no bridge callback and no
    work function is executing: with scrambling on a connector is bound,
    and the recheck is queued only with scrambling on. *)
Definition link_on (d : dw_hdmi_qp) : bool :=
  negb (work_running (scramb_work d))
  && (negb (scramb_enabled d)
      || match connector d with Some _ => true | None => false end)
  && (negb (work_pending (scramb_work d)) || scramb_enabled d).

(** The scrambling register, as the calls made so far leave it on a file
    that started as [file], holds the scrambling-enabled flag. *)
Definition scrambler_mirrors (file : Z -> Z) (w : world) : bool :=
  regmap_replay file (log w) SCRAMB_CONFIG0
  =? (if scramb_enabled (hdmi w) then 1 else 0).

End LinkInvariant.

(** * More of the driver: the infoframe callbacks of the bridge *)

(** The infoframe type codes of <linux/hdmi.h> that the callbacks switch
    on; parameters like the other header constants.  Being labels of one
    [switch], the two are distinct. *)
Class linux_hdmi_h : Type := {
  HDMI_INFOFRAME_TYPE_AVI : Z;
  HDMI_INFOFRAME_TYPE_DRM : Z
}.

Section InfoframeCallbacks.
Context {regs : dw_hdmi_qp_h} {linux : linux_h} {hdmi_h : linux_hdmi_h}.

Definition dw_hdmi_qp_bridge_clear_infoframe (type : Z) : M Z :=
  (if type =? HDMI_INFOFRAME_TYPE_AVI then
     dw_hdmi_qp_mod 0 (Z.lor PKTSCHED_AVI_TX_EN PKTSCHED_GCP_TX_EN)
                    PKTSCHED_PKT_EN
   else if type =? HDMI_INFOFRAME_TYPE_DRM then
     dw_hdmi_qp_mod 0 PKTSCHED_DRMI_TX_EN PKTSCHED_PKT_EN
   else ret tt) ;;
  ret 0.

Definition dw_hdmi_qp_bridge_write_infoframe (type : Z) (buffer : bytes)
    (len : Z) : M Z :=
  _ <- dw_hdmi_qp_bridge_clear_infoframe type ;;
  if type =? HDMI_INFOFRAME_TYPE_AVI then
    dw_hdmi_qp_config_avi_infoframe buffer len
  else if type =? HDMI_INFOFRAME_TYPE_DRM then
    dw_hdmi_qp_config_drm_infoframe buffer len
  else ret 0.

(** The transmit-enable bits of an infoframe type in [PKTSCHED_PKT_EN],
    none for a type the driver does not know. *)
Definition tx_en_bits (type : Z) : Z :=
  if type =? HDMI_INFOFRAME_TYPE_AVI
  then u32 (Z.lor PKTSCHED_AVI_TX_EN PKTSCHED_GCP_TX_EN)
  else if type =? HDMI_INFOFRAME_TYPE_DRM then u32 PKTSCHED_DRMI_TX_EN
  else 0.

Definition clear_trace (type : Z) : list event :=
  if (type =? HDMI_INFOFRAME_TYPE_AVI) || (type =? HDMI_INFOFRAME_TYPE_DRM)
  then [RegmapUpdateBits PKTSCHED_PKT_EN (tx_en_bits type) 0]
  else [].

(** The buffer offsets an AVI encode loads from, in order. *)
Definition avi_loads : list Z :=
  [1; 2; 3; 3; 4; 5; 6; 7; 7; 8; 9; 10; 11; 11; 12; 13; 14; 15; 15; 16].

(** The content words of a DRM infoframe with the 26-byte body of the
    wire format: checksum and body little-endian, four bytes a word, the
    last word holding three. *)
Definition drm_words (b : Z -> Z) : list Z :=
  [le_word [b 3; b 4; b 5; b 6];
   le_word [b 7; b 8; b 9; b 10];
   le_word [b 11; b 12; b 13; b 14];
   le_word [b 15; b 16; b 17; b 18];
   le_word [b 19; b 20; b 21; b 22];
   le_word [b 23; b 24; b 25; b 26];
   le_word [b 27; b 28; b 29]].

End InfoframeCallbacks.

(** The register writes of [drm_pack] as a function of the buffer
    bytes [b] and of the body length [n] read from [buffer[2]]. *)
Fixpoint drm_writes {regs : dw_hdmi_qp_h} (fuel : nat) (b : Z -> Z)
    (n i val : Z) : list event :=
  match fuel with
  | O => []
  | S fuel' =>
      if i <=? n then
        let val1 := if i mod 4 =? 0 then b (3 + i) else val in
        let val2 := u32 (Z.lor val1 (Z.shiftl (b (3 + i)) ((i mod 4) * 8))) in
        (if (i mod 4 =? 3) || (i =? n)
         then [RegmapWrite (PKT_DRMI_CONTENTS1 + (i / 4) * 4) val2]
         else [])
          ++ drm_writes fuel' b n (i + 1) val2
      else []
  end.

Definition sample_hdmi_h : linux_hdmi_h := {|
  HDMI_INFOFRAME_TYPE_AVI := 0x82;
  HDMI_INFOFRAME_TYPE_DRM := 0x87
|}.

(** * More of the driver: the register footprint of a transfer *)

Section TransferFootprint.
Context {regs : dw_hdmi_qp_h} {linux : linux_h}.

(** The registers a byte operation writes or updates. *)
Definition i2c_byte_regs : list Z :=
  [I2CM_CONTROL0; I2CM_INTERFACE_CONTROL0; I2CM_INTERFACE_CONTROL1;
   I2CM_INTERFACE_WRDATA_0_3; MAINUNIT_1_INT_CLEAR].

(** The register a call modifies, if any. *)
Definition reg_of (e : event) : option Z :=
  match e with
  | RegmapWrite r _ => Some r
  | RegmapUpdateBits r _ _ => Some r
  | _ => None
  end.

(** The calls a byte operation may make: writes and updates of the
    registers above, reads of the interrupt status and of the data
    register, the completion; nothing else. *)
Definition i2c_event (e : event) : bool :=
  match e with
  | RegmapWrite r _ => existsb (Z.eqb r) i2c_byte_regs
  | RegmapUpdateBits r _ _ => existsb (Z.eqb r) i2c_byte_regs
  | RegmapRead r _ =>
      (r =? MAINUNIT_1_INT_STATUS) || (r =? I2CM_INTERFACE_RDDATA_0_3)
  | Complete => true
  | WaitForCompletion _ _ _ => true
  | _ => false
  end.

(** [m] appends only calls of a byte operation to the trace. *)
Definition stays_i2c {A} (m : M A) : Prop :=
  forall w a w',
    m w = Some (a, w') ->
    exists L, log w' = log w ++ L /\ forallb i2c_event L = true.

End TransferFootprint.

(** * More of the driver: the bridge between platform and DRM core

    The initialisation of the hardware, binding, hot-plug detection and
    the link reset call into the platform glue and into parts of the
    kernel that the core model above has no part in.  They are embedded
    over a second state that wraps the first: it adds what the driver
    holds of the platform, what the environment answers to each call
    that can fail, and one trace of all calls, those of the core model
    included, in the order in which they are made. *)

(** Register offsets and bits of "dw-hdmi-qp.h" that only the hardware
    initialisation uses. *)
Class dw_hdmi_qp_init_h : Type := {
  MAINUNIT_0_INT_MASK_N : Z;
  TIMER_BASE_CONFIG0 : Z;
  I2CM_FM_SCL_CONFIG0 : Z;
  I2CM_FM_EN : Z;
  I2CM_OP_DONE_CLEAR : Z;
  I2CM_NACK_RCVD_CLEAR : Z
}.

(** More of errno. *)
Class linux_errno_h : Type := {
  ENODEV : Z;
  ENOMEM : Z;
  EDEADLK : Z
}.

(** [struct dw_hdmi_qp_phy_ops]: for each operation, whether the
    platform provides it (the pointer is not NULL). *)
Record dw_hdmi_qp_phy_ops := mk_phy_ops {
  init : bool;
  disable : bool;
  read_hpd : bool;
  setup_hpd : bool
}.

(** What a call that can fail comes back with: for a function that
    returns [int], 0 or the error; for one that returns a pointer, a
    valid pointer or, depending on the function, NULL or [ERR_PTR(err)]. *)
Inductive answer := Success | Failure (err : Z).

Definition int_of (a : answer) : Z :=
  match a with
  | Success => 0
  | Failure err => err
  end.

Definition succeeded (a : answer) : bool :=
  match a with
  | Success => true
  | Failure _ => false
  end.

(** A pointer returned to the caller of [dw_hdmi_qp_bind] or of
    [dw_hdmi_qp_i2c_adapter]. *)
Inductive ptr := Valid | ErrPtr (err : Z).

(** The calls that leave the driver. *)
Inductive call :=
| Core (e : event)
| PhySetupHpd
| PhyReadHpd (status : drm_connector_status)
| DrmEdidReadDdc (found : bool)
| DrmEdidConnectorUpdate (found : bool)
| DrmEdidFree
| DrmModesetLockConnection (r : Z)
| DrmModesetLockCrtc (r : Z)
| TryWaitForCompletion (done : bool)
| DrmAtomicStateAlloc (ok : bool)
| DrmAtomicGetCrtcState (r : Z)
| SetConnectorsChanged
| DrmAtomicCommit (r : Z)
| DrmAtomicStateClear
| DrmModesetBackoff
| DrmAtomicStatePut
| DevmKzallocHdmi (ok : bool)
| InitDelayedWork
| DevmPlatformIoremapResource (r : Z)
| DevmRegmapInitMmio (r : Z)
| DevmRequestThreadedIrq (r : Z)
| DevmKzallocI2c (ok : bool)
| MutexInit
| InitCompletion
| DevmI2cAddAdapter (r : Z)
| DevmKfreeI2c
| DevmDrmBridgeAdd (r : Z)
| DrmBridgeAttach (r : Z).

Record platform := mk_platform {
  (** the driver's private data, the controller and the sink *)
  core : world;
  (** [hdmi->phy.ops], NULL until binding stores it *)
  phy_ops : option dw_hdmi_qp_phy_ops;
  (** whether [hdmi->i2c] points to an adapter context *)
  i2c_ptr : bool;
  (** what the PHY reports of the hot-plug line *)
  hpd : drm_connector_status;
  (** the display information in the EDID of the sink, if one can be
      read *)
  sink_edid : option drm_connector;
  (** [conn->state->crtc]: NULL, or a CRTC and whether its state is
      active *)
  conn_crtc : option bool;
  (** [conn->state->commit]: NULL, or a commit and whether its [hw_done]
      is completed *)
  conn_commit : option bool;
  (** what the environment answers to the calls that can fail, in the
      order of the calls; when the list is used up they succeed *)
  answers : list answer;
  (** all calls so far, oldest first *)
  calls : list call
}.

Definition K (A : Type) : Type := platform -> option (A * platform).

Definition kret {A} (a : A) : K A := fun p => Some (a, p).

Definition kbind {A B} (m : K A) (k : A -> K B) : K B :=
  fun p => match m p with
           | Some (a, p') => k a p'
           | None => None
           end.

Definition koops {A} : K A := fun _ => None.

Declare Scope plat_scope.
Delimit Scope plat_scope with plat.
Notation "x <- m ;; k" := (kbind m (fun x => k))
  (at level 61, m at next level, right associativity) : plat_scope.
Notation "m ;; k" := (kbind m (fun _ => k))
  (at level 61, right associativity) : plat_scope.
Notation "'when' c 'then' m" := (if c then m else kret tt)
  (at level 60, c at level 9) : plat_scope.

Definition kgets {A} (f : platform -> A) : K A := fun p => Some (f p, p).

Definition klog (c : call) : K unit :=
  fun p => Some (tt, mk_platform (core p) (phy_ops p) (i2c_ptr p) (hpd p)
                                 (sink_edid p) (conn_crtc p) (conn_commit p)
                                 (answers p) (calls p ++ [c])).

Definition set_phy_ops (o : option dw_hdmi_qp_phy_ops) : K unit :=
  fun p => Some (tt, mk_platform (core p) o (i2c_ptr p) (hpd p)
                                 (sink_edid p) (conn_crtc p) (conn_commit p)
                                 (answers p) (calls p)).

Definition set_i2c_ptr (b : bool) : K unit :=
  fun p => Some (tt, mk_platform (core p) (phy_ops p) b (hpd p)
                                 (sink_edid p) (conn_crtc p) (conn_commit p)
                                 (answers p) (calls p)).

Definition next_answer : K answer :=
  fun p => match answers p with
           | [] => Some (Success, p)
           | a :: rest =>
               Some (a, mk_platform (core p) (phy_ops p) (i2c_ptr p) (hpd p)
                                    (sink_edid p) (conn_crtc p)
                                    (conn_commit p) rest (calls p))
           end.

(** A computation of the core model run from here: its calls join the
    trace ([m] never looks at the trace it appends to). *)
Definition core_call {A} (m : M A) : K A :=
  fun p =>
    let w := core p in
    match m (mk_world (hdmi w) (hw w) (irqs w) (sink_scdc w)
                      (sink_scrambling w) [] (loads w)) with
    | Some (a, w') =>
        Some (a, mk_platform
                   (mk_world (hdmi w') (hw w') (irqs w') (sink_scdc w')
                             (sink_scrambling w') (log w ++ log w')
                             (loads w'))
                   (phy_ops p) (i2c_ptr p) (hpd p) (sink_edid p)
                   (conn_crtc p) (conn_commit p) (answers p)
                   (calls p ++ map Core (log w')))
    | None => None
    end.

(** Applied to a state, the operations of the monad unfold. *)
Arguments kret {A} a p /.
Arguments kbind {A B} m k p /.
Arguments koops {A} p /.
Arguments kgets {A} f p /.
Arguments klog c p /.
Arguments set_phy_ops o p /.
Arguments set_i2c_ptr b p /.
Arguments next_answer p /.
Arguments core_call {A} m p /.

Section Platform.
Context {regs : dw_hdmi_qp_h} {linux : linux_h}
        {init_h : dw_hdmi_qp_init_h} {errno : linux_errno_h}.
Open Scope plat_scope.

(** [hdmi->phy.ops->...]: the table must be there. *)
Definition the_phy_ops : K dw_hdmi_qp_phy_ops :=
  o <- kgets phy_ops ;;
  match o with
  | Some o => kret o
  | None => koops
  end.

(** ** Hardware initialisation *)

Definition dw_hdmi_qp_init_hw : K unit :=
  core_call (dw_hdmi_qp_write 0 MAINUNIT_0_INT_MASK_N) ;;
  core_call (dw_hdmi_qp_write 0 MAINUNIT_1_INT_MASK_N) ;;
  core_call (dw_hdmi_qp_write 428571429 TIMER_BASE_CONFIG0) ;;
  (* Software reset *)
  core_call (dw_hdmi_qp_write 0x01 I2CM_CONTROL0) ;;
  core_call (dw_hdmi_qp_write 0x085c085c I2CM_FM_SCL_CONFIG0) ;;
  core_call (dw_hdmi_qp_mod 0 I2CM_FM_EN I2CM_INTERFACE_CONTROL0) ;;
  (* Clear DONE and ERROR interrupts *)
  core_call (dw_hdmi_qp_write (Z.lor I2CM_OP_DONE_CLEAR I2CM_NACK_RCVD_CLEAR)
                              MAINUNIT_1_INT_CLEAR) ;;
  ops <- the_phy_ops ;;
  when (setup_hpd ops) then klog PhySetupHpd.

Definition dw_hdmi_qp_resume : K unit := dw_hdmi_qp_init_hw.

(** ** The interrupt handler as the interrupt core enters it

    [dw_hdmi_qp_main_hardirq] takes [hdmi->i2c] and stores the status in
    it after having read the status register: with [hdmi->i2c] not yet
    assigned the store is an invalid access. *)
Definition hardirq_entry : K irqreturn_t :=
  assigned <- kgets i2c_ptr ;;
  if assigned then core_call dw_hdmi_qp_main_hardirq
  else
    core_call (dw_hdmi_qp_read MAINUNIT_1_INT_STATUS) ;;
    koops.

(** ** Binding *)

Definition dw_hdmi_qp_i2c_adapter : K ptr :=
  a <- next_answer ;;
  klog (DevmKzallocI2c (succeeded a)) ;;
  if negb (succeeded a) then kret (ErrPtr (- ENOMEM))
  else
    klog MutexInit ;;
    klog InitCompletion ;;
    r <- next_answer ;;
    klog (DevmI2cAddAdapter (int_of r)) ;;
    if negb (int_of r =? 0) then
      klog DevmKfreeI2c ;;
      kret (ErrPtr (int_of r))
    else
      core_call (set_i2c (fun _ => mk_i2c 0 0 0 false false)) ;;
      set_i2c_ptr true ;;
      kret Valid.

(** The zeroed [struct dw_hdmi_qp] that [devm_kzalloc] returns. *)
Definition zeroed_hdmi : dw_hdmi_qp :=
  mk_hdmi (mk_i2c 0 0 0 false false) None (mk_work false false) false.

(** [dw_hdmi_qp_bind] up to and including the registration of the
    interrupt handler: [Some p] when it returns [p] from there, [None]
    when it goes on.  [plat_ops] is [plat_data->phy_ops]. *)
Definition bind_to_irq (plat_ops : option dw_hdmi_qp_phy_ops)
  : K (option ptr) :=
  if match plat_ops with
     | None => true
     | Some o => negb (init o) || negb (disable o) || negb (read_hpd o)
     end
  then kret (Some (ErrPtr (- ENODEV)))
  else
    a <- next_answer ;;
    klog (DevmKzallocHdmi (succeeded a)) ;;
    if negb (succeeded a) then kret (Some (ErrPtr (- ENOMEM)))
    else
      core_call (set_hdmi (fun _ => zeroed_hdmi)) ;;
      set_phy_ops None ;;
      set_i2c_ptr false ;;
      klog InitDelayedWork ;;
      r <- next_answer ;;
      klog (DevmPlatformIoremapResource (int_of r)) ;;
      if negb (succeeded r) then kret (Some (ErrPtr (int_of r)))
      else
        r <- next_answer ;;
        klog (DevmRegmapInitMmio (int_of r)) ;;
        if negb (succeeded r) then kret (Some (ErrPtr (int_of r)))
        else
          set_phy_ops plat_ops ;;
          dw_hdmi_qp_init_hw ;;
          r <- next_answer ;;
          klog (DevmRequestThreadedIrq (int_of r)) ;;
          if negb (int_of r =? 0) then kret (Some (ErrPtr (int_of r)))
          else kret None.

(** ... and from there to the end. *)
Definition bind_from_irq : K ptr :=
  ddc <- dw_hdmi_qp_i2c_adapter ;;
  match ddc with
  | ErrPtr e => kret (ErrPtr e)
  | Valid =>
      r <- next_answer ;;
      klog (DevmDrmBridgeAdd (int_of r)) ;;
      if negb (int_of r =? 0) then kret (ErrPtr (int_of r))
      else
        r <- next_answer ;;
        klog (DrmBridgeAttach (int_of r)) ;;
        if negb (int_of r =? 0) then kret (ErrPtr (int_of r))
        else kret Valid
  end.

Definition dw_hdmi_qp_bind (plat_ops : option dw_hdmi_qp_phy_ops) : K ptr :=
  r <- bind_to_irq plat_ops ;;
  match r with
  | Some p => kret p
  | None => bind_from_irq
  end.

(** ** Link reset *)

(** From the label [retry] to the end of [dw_hdmi_qp_reset_link]: one
    attempt and, when it ends in -EDEADLK, the back-off and the jump
    back.  [fuel] bounds the attempts; [None] when it is used up. *)
Fixpoint reset_link_retry (fuel : nat) : K (option Z) :=
  match fuel with
  | O => kret None
  | S fuel' =>
      a <- next_answer ;;
      klog (DrmAtomicGetCrtcState (int_of a)) ;;
      r <- (if negb (succeeded a) then kret (int_of a)
            else
              klog SetConnectorsChanged ;;
              c <- next_answer ;;
              klog (DrmAtomicCommit (int_of c)) ;;
              kret (int_of c)) ;;
      if r =? - EDEADLK then
        klog DrmAtomicStateClear ;;
        klog DrmModesetBackoff ;;
        reset_link_retry fuel'
      else
        klog DrmAtomicStatePut ;;
        kret (Some r)
  end.

(** Every attempt asks the environment at least once, and an
    environment that has run out of answers lets the commit succeed: one
    attempt more than there are answers left is all the loop can make.
    [drm_atomic_commit] is what the environment answers and no more: the
    display pipeline, which is outside the driver, answers a commit that
    goes through by calling the disable and the enable callback of the
    bridge, and these calls are not made here.  What is proved of the
    link reset is proved of its calls, not of the private data it
    leaves. *)
Definition dw_hdmi_qp_reset_link : K (option Z) :=
  a <- next_answer ;;
  klog (DrmModesetLockConnection (int_of a)) ;;
  if negb (int_of a =? 0) then kret (Some (int_of a))
  else
    crtc <- kgets conn_crtc ;;
    match crtc with
    | None => kret (Some 0)
    | Some active =>
        b <- next_answer ;;
        klog (DrmModesetLockCrtc (int_of b)) ;;
        if negb (int_of b =? 0) then kret (Some (int_of b))
        else if negb active then kret (Some 0)
        else
          commit <- kgets conn_commit ;;
          unfinished <- match commit with
                        | None => kret false
                        | Some done =>
                            klog (TryWaitForCompletion done) ;;
                            kret (negb done)
                        end ;;
          if unfinished then kret (Some 0)
          else
            s <- next_answer ;;
            klog (DrmAtomicStateAlloc (succeeded s)) ;;
            if negb (succeeded s) then kret (Some (- ENOMEM))
            else
              n <- kgets (fun p => length (answers p)) ;;
              reset_link_retry (S n)
    end.

(** ** Hot-plug detection *)

(** Modelled from the spec: [drm_edid_read_ddc], which reads the EDID of
    the sink over the DDC adapter of the bridge and returns NULL when it
    gets none.  The transfers it asks of the adapter are not part of the
    trace here. *)
Definition drm_edid_read_ddc : K (option drm_connector) :=
  e <- kgets sink_edid ;;
  klog (DrmEdidReadDdc (match e with Some _ => true | None => false end)) ;;
  kret e.

(** Modelled from the spec: [drm_edid_connector_update], which pushes
    the EDID to the display layer: the display information of the
    connector is reset and, with an EDID, filled from it. *)
Definition drm_edid_connector_update (e : option drm_connector) : K unit :=
  c <- core_call the_connector ;;
  core_call
    (set_hdmi
       (with_connector
          (Some (match e with
                 | Some info =>
                     mk_connector (is_hdmi info) (scdc_supported info)
                                  (scrambling_supported info) (status c)
                 | None => mk_connector false false false (status c)
                 end)))) ;;
  klog (DrmEdidConnectorUpdate
          (match e with Some _ => true | None => false end)).

Definition dw_hdmi_qp_bridge_detect : K drm_connector_status :=
  ops <- the_phy_ops ;;
  (if read_hpd ops then kret tt else koops) ;;
  st <- kgets hpd ;;
  klog (PhyReadHpd st) ;;
  enabled <- core_call (gets (fun w => scramb_enabled (hdmi w))) ;;
  (when enabled then
     core_call (cancel_delayed_work_sync dw_hdmi_qp_scramb_work)) ;;
  c <- core_call (gets (fun w => connector (hdmi w))) ;;
  if drm_connector_status_eqb st connector_status_disconnected
     || match c with Some _ => false | None => true end
  then kret st
  else
    drm_edid <- drm_edid_read_ddc ;;
    drm_edid_connector_update drm_edid ;;
    match drm_edid with
    | None => kret st
    | Some _ =>
        klog DrmEdidFree ;;
        enabled <- core_call (gets (fun w => scramb_enabled (hdmi w))) ;;
        if negb enabled then kret st
        else
          ok <- core_call dw_hdmi_qp_supports_scrambling ;;
          if negb ok then kret st
          else
            active <- core_call drm_scdc_get_scrambling_status ;;
            if active then kret st
            else
              _ <- dw_hdmi_qp_reset_link ;;
              kret st
    end.

Definition dw_hdmi_qp_bridge_edid_read : K (option drm_connector) :=
  drm_edid_read_ddc.

End Platform.

(** The register accesses of [dw_hdmi_qp_init_hw], in order. *)
Definition init_hw_writes {regs : dw_hdmi_qp_h} {init_h : dw_hdmi_qp_init_h}
  : list event :=
  [RegmapWrite MAINUNIT_0_INT_MASK_N 0;
   RegmapWrite MAINUNIT_1_INT_MASK_N 0;
   RegmapWrite TIMER_BASE_CONFIG0 428571429;
   RegmapWrite I2CM_CONTROL0 1;
   RegmapWrite I2CM_FM_SCL_CONFIG0 0x085c085c;
   RegmapUpdateBits I2CM_INTERFACE_CONTROL0 (u32 I2CM_FM_EN) 0;
   RegmapWrite MAINUNIT_1_INT_CLEAR
               (u32 (Z.lor I2CM_OP_DONE_CLEAR I2CM_NACK_RCVD_CLEAR))].

(** The registers it writes or updates. *)
Definition init_hw_regs {regs : dw_hdmi_qp_h} {init_h : dw_hdmi_qp_init_h}
  : list Z :=
  [MAINUNIT_0_INT_MASK_N; MAINUNIT_1_INT_MASK_N; TIMER_BASE_CONFIG0;
   I2CM_CONTROL0; I2CM_FM_SCL_CONFIG0; I2CM_INTERFACE_CONTROL0;
   MAINUNIT_1_INT_CLEAR].

(** Concrete values for the constants of the second layer, and a
    platform to start from: the driver data not yet allocated. *)
Definition sample_init_h : dw_hdmi_qp_init_h := {|
  MAINUNIT_0_INT_MASK_N := 0x3010;
  TIMER_BASE_CONFIG0 := 0x80;
  I2CM_FM_SCL_CONFIG0 := 0xe4;
  I2CM_FM_EN := 0x10;
  I2CM_OP_DONE_CLEAR := 0x1;
  I2CM_NACK_RCVD_CLEAR := 0x4
|}.

Definition sample_errno : linux_errno_h := {|
  ENODEV := 19;
  ENOMEM := 12;
  EDEADLK := 35
|}.

Definition full_phy_ops : dw_hdmi_qp_phy_ops := mk_phy_ops true true true true.

Definition platform_of (w : world) (ops : option dw_hdmi_qp_phy_ops)
    (assigned : bool) (answers : list answer) : platform :=
  mk_platform w ops assigned connector_status_connected None None None
              answers [].

(** Calls to count in the trace of a link reset. *)
Definition is_state_alloc (c : call) : bool :=
  match c with
  | DrmAtomicStateAlloc true => true
  | _ => false
  end.

Definition is_state_put (c : call) : bool :=
  match c with
  | DrmAtomicStatePut => true
  | _ => false
  end.

Definition is_attempt (c : call) : bool :=
  match c with
  | DrmAtomicGetCrtcState _ => true
  | _ => false
  end.

Definition is_backoff (c : call) : bool :=
  match c with
  | DrmModesetBackoff => true
  | _ => false
  end.

Definition is_lock (c : call) : bool :=
  match c with
  | DrmModesetLockConnection _ => true
  | _ => false
  end.

Definition is_edid_read (c : call) : bool :=
  match c with
  | DrmEdidReadDdc _ => true
  | _ => false
  end.

(** Whether [dw_hdmi_qp_bridge_detect] goes as far as the link reset:
    the sink is there, a connector is bound, scrambling is on, an EDID
    was read that announces an HDMI sink with SCDC and scrambling, and
    the sink reports that it is not scrambling. *)
Definition reset_wanted (p : platform) : bool :=
  negb (drm_connector_status_eqb (hpd p) connector_status_disconnected)
  && match connector (hdmi (core p)) with Some _ => true | None => false end
  && scramb_enabled (hdmi (core p))
  && match sink_edid p with
     | Some info =>
         is_hdmi info && scdc_supported info && scrambling_supported info
     | None => false
     end
  && negb (sink_scrambling (core p)).

(** The three operations [dw_hdmi_qp_bind] insists on. *)
Definition required_ops (o : dw_hdmi_qp_phy_ops) : bool :=
  init o && disable o && read_hpd o.

(** The calls of [dw_hdmi_qp_bind] that can fail, in order: allocation
    of the private data (0), mapping of the registers (1), creation of
    the regmap (2), registration of the interrupt handler (3),
    allocation of the adapter context (4), registration of the adapter
    (5), of the bridge (6), attachment of the bridge (7).  The error
    returned when call [k] fails with [err]: the allocations fail with
    NULL and -ENOMEM is made of it. *)
Definition bind_error {errno : linux_errno_h} (k : nat) (err : Z) : Z :=
  if (k =? 0)%nat || (k =? 4)%nat then - ENOMEM else err.

(** The calls of a binding that succeeds, but for those of the hardware
    initialisation in the middle. *)
Definition bind_calls_before_init : list call :=
  [DevmKzallocHdmi true; InitDelayedWork; DevmPlatformIoremapResource 0;
   DevmRegmapInitMmio 0].

Definition bind_calls_after_init : list call :=
  [DevmRequestThreadedIrq 0; DevmKzallocI2c true; MutexInit; InitCompletion;
   DevmI2cAddAdapter 0; DevmDrmBridgeAdd 0; DrmBridgeAttach 0].

(** * The power sequencer of the AP6275P module

    [drivers/power/sequencing/pwrseq-ap6275p.c]: the driver of the power
    management unit of the module.  Its probe function collects two
    regulators, two clocks and two optional GPIO lines in a context and
    registers a sequencer over it; the sequencing core, which is not
    part of this file, then calls back into the units below.  The
    functions of the kernel that the driver calls are the environment:
    what they return is given, and each call joins a trace. *)

From Stdlib Require String.

Module Ap6275p.
Import String.
Local Open Scope string_scope.

(** The line feed that ends the messages of the driver. *)
Definition LF : string :=
  String (Ascii.Ascii false true false true false false false false)
         EmptyString.

Definition AP6275P_NUM_SUPPLIES : Z := 2.
Definition ap6275p_supplies : list string := ["vbat"; "vddio"].

Definition AP6275P_NUM_CLOCKS : Z := 2.
Definition ap6275p_clocks : list string := ["ref"; "rtc"].

(** A pointer handed out by the kernel: NULL, an object, or an error in
    the place of one ([ERR_PTR]). *)
Inductive pointer := Null | Obj (id : nat) | Err (err : Z).

Definition IS_ERR (p : pointer) : bool :=
  match p with
  | Err _ => true
  | _ => false
  end.

(** [struct fwnode_handle *]: NULL or a node of the firmware
    description. *)
Definition fwnode_handle : Type := option nat.

Definition fwnode_eqb (a b : fwnode_handle) : bool :=
  match a, b with
  | None, None => true
  | Some x, Some y => (x =? y)%nat
  | _, _ => false
  end.

(** What the driver reads of a [struct device]. *)
Record device := mk_device {
  fwnode : fwnode_handle
}.

(** The field of [struct regulator_bulk_data] that the driver fills. *)
Record regulator_bulk_data := mk_regulator {
  supply : option string
}.

(** The field of [struct clk_bulk_data] that the driver fills. *)
Record clk_bulk_data := mk_clk {
  id : option string
}.

Record ap6275p_ctx := mk_ctx {
  pwrseq : pointer;
  dev : option device;
  supplies : list regulator_bulk_data;
  clocks : list clk_bulk_data;
  bt_gpio : pointer;
  wlan_gpio : pointer
}.

(** The functions of this file that the sequencing core calls through
    pointers. *)
Inductive callback :=
| Pwup_delay
| Vregs_enable
| Vregs_disable
| Clk_enable
| Clk_disable
| Bt_enable
| Bt_disable
| Wlan_enable
| Wlan_disable.

Inductive match_callback := Match.

(** [struct pwrseq_unit_data]; [deps] without its closing NULL. *)
#[local] Unset Elimination Schemes.
Inductive pwrseq_unit_data := mk_unit {
  name : string;
  deps : list pwrseq_unit_data;
  enable : option callback;
  disable : option callback
}.
#[local] Set Elimination Schemes.

(** [struct pwrseq_target_data], its fields [name] and [unit] under
    names of their own. *)
Record pwrseq_target_data := mk_target {
  target_name : string;
  target_unit : pwrseq_unit_data;
  post_enable : option callback
}.

(** [struct pwrseq_config] but for the owning module; [drvdata] is the
    context as it is when the configuration is handed over. *)
Record pwrseq_config := mk_config {
  parent : option device;
  drvdata : option ap6275p_ctx;
  config_match : option match_callback;
  targets : list pwrseq_target_data
}.

Inductive gpiod_flags := GPIOD_OUT_LOW.

(** The calls that leave the driver, with what they were given and what
    they returned. *)
Inductive call :=
| DevmKzalloc (ok : bool)
| DevmRegulatorBulkGet (n : Z) (s : list regulator_bulk_data) (r : Z)
| DevmClkBulkGet (n : Z) (c : list clk_bulk_data) (r : Z)
| DevmGpiodGetOptional (con_id : string) (flags : gpiod_flags) (r : pointer)
| DevmPwrseqDeviceRegister (config : pwrseq_config) (r : pointer)
| DevErrProbe (err : Z) (msg : string)
| RegulatorBulkEnable (n : Z) (s : list regulator_bulk_data) (r : Z)
| RegulatorBulkDisable (n : Z) (s : list regulator_bulk_data) (r : Z)
| ClkBulkPrepareEnable (n : Z) (c : list clk_bulk_data) (r : Z)
| ClkBulkDisableUnprepare (n : Z) (c : list clk_bulk_data)
| GpiodSetValueCansleep (desc : pointer) (value : Z)
| Msleep (ms : Z)
| Fsleep (us : Z)
| FwnodePropertyGetReferenceArgs (fw : fwnode_handle) (prop : string) (r : Z)
| FwnodeGetNextParent (fw : fwnode_handle)
| FwnodeHandlePut (fw : fwnode_handle).

(** What the kernel returns to the driver: for the functions that
    return [int] the value, for those that return a pointer the pointer.
    The lookup of a reference returns its result and the node it stores
    in [ref.fwnode]. *)
Record environment := mk_env {
  devm_kzalloc : bool;
  devm_regulator_bulk_get : Z;
  devm_clk_bulk_get : Z;
  devm_gpiod_get_optional : string -> pointer;
  devm_pwrseq_device_register : pointer;
  regulator_bulk_enable : Z;
  regulator_bulk_disable : Z;
  clk_bulk_prepare_enable : Z;
  fwnode_property_get_reference_args :
    fwnode_handle -> string -> Z * fwnode_handle;
  fwnode_get_next_parent : fwnode_handle -> fwnode_handle
}.

(** The memory of the driver, which is its context once it is
    allocated, and the trace of its calls, oldest first. *)
Record state := mk_state {
  mem : option ap6275p_ctx;
  trace : list call
}.

(** State passing; [None] is an access through an invalid pointer. *)
Definition P (A : Type) : Type := state -> option (A * state).

Definition pret {A} (a : A) : P A := fun st => Some (a, st).

Definition pbind {A B} (m : P A) (k : A -> P B) : P B :=
  fun st => match m st with
            | Some (a, st') => k a st'
            | None => None
            end.

Definition poops {A} : P A := fun _ => None.

Declare Scope pwrseq_scope.
Delimit Scope pwrseq_scope with pwrseq.
Notation "x <- m ;; k" := (pbind m (fun x => k))
  (at level 61, m at next level, right associativity) : pwrseq_scope.
Notation "m ;; k" := (pbind m (fun _ => k))
  (at level 61, right associativity) : pwrseq_scope.

Definition plog (c : call) : P unit :=
  fun st => Some (tt, mk_state (mem st) (trace st ++ [c])).

(** [ctx = devm_kzalloc(...)], when it succeeds: zeroed memory. *)
Definition zeroed_ctx : ap6275p_ctx :=
  mk_ctx Null None
         (repeat (mk_regulator None) (Z.to_nat AP6275P_NUM_SUPPLIES))
         (repeat (mk_clk None) (Z.to_nat AP6275P_NUM_CLOCKS))
         Null Null.

Definition allocate (c : ap6275p_ctx) : P unit :=
  fun st => Some (tt, mk_state (Some c) (trace st)).

(** A read through [ctx]. *)
Definition the_ctx : P ap6275p_ctx :=
  fun st => match mem st with
            | Some c => Some (c, st)
            | None => None
            end.

(** A write through [ctx]. *)
Definition with_ctx (f : ap6275p_ctx -> ap6275p_ctx) : P unit :=
  fun st => match mem st with
            | Some c => Some (tt, mk_state (Some (f c)) (trace st))
            | None => None
            end.

Arguments pret {A} a st /.
Arguments pbind {A B} m k st /.
Arguments poops {A} st /.
Arguments plog c st /.
Arguments allocate c st /.
Arguments the_ctx st /.
Arguments with_ctx f st /.

(** [l[i] = x]; nothing when [i] is out of range. *)
Fixpoint store {A} (l : list A) (i : nat) (x : A) : option (list A) :=
  match l, i with
  | [], _ => None
  | _ :: t, O => Some (x :: t)
  | h :: t, S j => option_map (cons h) (store t j x)
  end.

(** [for (i = 0; i < n; i++) body(i)], from [i] on, [n - i] rounds. *)
Fixpoint for_loop (i rounds : nat) (body : nat -> P unit) : P unit :=
  match rounds with
  | O => pret tt
  | S rounds' => pbind (body i) (fun _ => for_loop (S i) rounds' body)
  end.

Section Callbacks.
Context {errno : linux_errno_h} (env : environment).
Open Scope pwrseq_scope.

(** [pwrseq_device_get_drvdata(pwrseq)]: the sequencer that the core
    passes to a callback is the one of this driver, and its driver data
    is the context that the probe function put into the
    configuration. *)
Definition pwrseq_device_get_drvdata : P ap6275p_ctx := the_ctx.

(** [dev_err_probe] is not part of this file: it reports the error and
    hands it back. *)
Definition dev_err_probe (err : Z) (msg : string) : P Z :=
  plog (DevErrProbe err msg) ;;
  pret err.

(** ** The callbacks of the units *)

Definition pwrseq_ap6275p_pwup_delay : P Z :=
  plog (Msleep 50) ;;
  pret 0.

Definition pwrseq_ap6275p_vregs_enable : P Z :=
  ctx <- pwrseq_device_get_drvdata ;;
  let r := regulator_bulk_enable env in
  plog (RegulatorBulkEnable AP6275P_NUM_SUPPLIES (supplies ctx) r) ;;
  plog (Fsleep 100) ;;
  pret r.

Definition pwrseq_ap6275p_vregs_disable : P Z :=
  ctx <- pwrseq_device_get_drvdata ;;
  let r := regulator_bulk_disable env in
  plog (RegulatorBulkDisable AP6275P_NUM_SUPPLIES (supplies ctx) r) ;;
  pret r.

Definition pwrseq_ap6275p_clk_enable : P Z :=
  ctx <- pwrseq_device_get_drvdata ;;
  let r := clk_bulk_prepare_enable env in
  plog (ClkBulkPrepareEnable AP6275P_NUM_CLOCKS (clocks ctx) r) ;;
  pret r.

Definition pwrseq_ap6275p_clk_disable : P Z :=
  ctx <- pwrseq_device_get_drvdata ;;
  plog (ClkBulkDisableUnprepare AP6275P_NUM_CLOCKS (clocks ctx)) ;;
  pret 0.

Definition pwrseq_ap6275p_bt_enable : P Z :=
  ctx <- pwrseq_device_get_drvdata ;;
  plog (GpiodSetValueCansleep (bt_gpio ctx) 1) ;;
  pret 0.

Definition pwrseq_ap6275p_bt_disable : P Z :=
  ctx <- pwrseq_device_get_drvdata ;;
  plog (GpiodSetValueCansleep (bt_gpio ctx) 0) ;;
  pret 0.

Definition pwrseq_ap6275p_wlan_enable : P Z :=
  ctx <- pwrseq_device_get_drvdata ;;
  plog (GpiodSetValueCansleep (wlan_gpio ctx) 1) ;;
  pret 0.

Definition pwrseq_ap6275p_wlan_disable : P Z :=
  ctx <- pwrseq_device_get_drvdata ;;
  plog (GpiodSetValueCansleep (wlan_gpio ctx) 0) ;;
  pret 0.

(** A call through one of the function pointers. *)
Definition run_callback (f : callback) : P Z :=
  match f with
  | Pwup_delay => pwrseq_ap6275p_pwup_delay
  | Vregs_enable => pwrseq_ap6275p_vregs_enable
  | Vregs_disable => pwrseq_ap6275p_vregs_disable
  | Clk_enable => pwrseq_ap6275p_clk_enable
  | Clk_disable => pwrseq_ap6275p_clk_disable
  | Bt_enable => pwrseq_ap6275p_bt_enable
  | Bt_disable => pwrseq_ap6275p_bt_disable
  | Wlan_enable => pwrseq_ap6275p_wlan_enable
  | Wlan_disable => pwrseq_ap6275p_wlan_disable
  end.

(** ** Matching a consumer *)

Definition pwrseq_ap6275p_match (consumer : device) : P Z :=
  ctx <- pwrseq_device_get_drvdata ;;
  let (r, ref) :=
    fwnode_property_get_reference_args env (fwnode consumer) "vdd-supply" in
  plog (FwnodePropertyGetReferenceArgs (fwnode consumer) "vdd-supply" r) ;;
  if negb (r =? 0)%Z then pret 0
  else
    plog (FwnodeGetNextParent ref) ;;
    let fw := fwnode_get_next_parent env ref in
    plog (FwnodeGetNextParent fw) ;;
    let fw := fwnode_get_next_parent env fw in
    match dev ctx with
    | None => poops
    | Some d =>
        let r := if fwnode_eqb fw (fwnode d) then 1 else 0 in
        plog (FwnodeHandlePut fw) ;;
        pret r
    end.

End Callbacks.

(** ** The units and the targets *)

Definition pwrseq_ap6275p_vregs_unit_data : pwrseq_unit_data :=
  mk_unit "regulators-enable" [] (Some Vregs_enable) (Some Vregs_disable).

Definition pwrseq_ap6275p_clk_unit_data : pwrseq_unit_data :=
  mk_unit "clock-enable" [] (Some Clk_enable) (Some Clk_disable).

Definition pwrseq_ap6275p_unit_deps : list pwrseq_unit_data :=
  [pwrseq_ap6275p_clk_unit_data; pwrseq_ap6275p_vregs_unit_data].

Definition pwrseq_ap6275p_bt_unit_data : pwrseq_unit_data :=
  mk_unit "bluetooth-enable" pwrseq_ap6275p_unit_deps
          (Some Bt_enable) (Some Bt_disable).

Definition pwrseq_ap6275p_wlan_unit_data : pwrseq_unit_data :=
  mk_unit "wlan-enable" pwrseq_ap6275p_unit_deps
          (Some Wlan_enable) (Some Wlan_disable).

Definition pwrseq_ap6275p_bt_target_data : pwrseq_target_data :=
  mk_target "bluetooth" pwrseq_ap6275p_bt_unit_data (Some Pwup_delay).

Definition pwrseq_ap6275p_wlan_target_data : pwrseq_target_data :=
  mk_target "wlan" pwrseq_ap6275p_wlan_unit_data (Some Pwup_delay).

Definition pwrseq_ap6275p_targets : list pwrseq_target_data :=
  [pwrseq_ap6275p_bt_target_data; pwrseq_ap6275p_wlan_target_data].

(** ** Probing *)

Section Probe.
Context {errno : linux_errno_h} (env : environment).
Open Scope pwrseq_scope.

(** [ctx->supplies[i].supply = ap6275p_supplies[i]] *)
Definition set_supply (i : nat) : P unit :=
  ctx <- the_ctx ;;
  match nth_error ap6275p_supplies i with
  | None => poops
  | Some s =>
      match store (supplies ctx) i (mk_regulator (Some s)) with
      | None => poops
      | Some l =>
          with_ctx (fun c => mk_ctx (pwrseq c) (dev c) l (clocks c)
                                    (bt_gpio c) (wlan_gpio c))
      end
  end.

(** [ctx->clocks[i].id = ap6275p_clocks[i]] *)
Definition set_clock (i : nat) : P unit :=
  ctx <- the_ctx ;;
  match nth_error ap6275p_clocks i with
  | None => poops
  | Some s =>
      match store (clocks ctx) i (mk_clk (Some s)) with
      | None => poops
      | Some l =>
          with_ctx (fun c => mk_ctx (pwrseq c) (dev c) (supplies c) l
                                    (bt_gpio c) (wlan_gpio c))
      end
  end.

Definition pwrseq_ap6275p_probe (pdev : device) : P Z :=
  let ok := devm_kzalloc env in
  plog (DevmKzalloc ok) ;;
  if negb ok then pret (- ENOMEM)
  else
    allocate zeroed_ctx ;;
    with_ctx (fun c => mk_ctx (pwrseq c) (Some pdev) (supplies c) (clocks c)
                              (bt_gpio c) (wlan_gpio c)) ;;
    for_loop 0 (Z.to_nat AP6275P_NUM_SUPPLIES) set_supply ;;
    for_loop 0 (Z.to_nat AP6275P_NUM_CLOCKS) set_clock ;;
    ctx <- the_ctx ;;
    let r := devm_regulator_bulk_get env in
    plog (DevmRegulatorBulkGet AP6275P_NUM_SUPPLIES (supplies ctx) r) ;;
    if (r <? 0)%Z then dev_err_probe r ("Failed to get regulators" ++ LF)
    else
      let r := devm_clk_bulk_get env in
      plog (DevmClkBulkGet AP6275P_NUM_CLOCKS (clocks ctx) r) ;;
      if (r <? 0)%Z then dev_err_probe r ("Failed to get clocks" ++ LF)
      else
        let g := devm_gpiod_get_optional env "bt-enable" in
        plog (DevmGpiodGetOptional "bt-enable" GPIOD_OUT_LOW g) ;;
        with_ctx (fun c => mk_ctx (pwrseq c) (dev c) (supplies c) (clocks c)
                                  g (wlan_gpio c)) ;;
        match g with
        | Err e =>
            dev_err_probe e
              ("Failed to get the Bluetooth enable GPIO" ++ LF)
        | _ =>
            let g := devm_gpiod_get_optional env "wlan-enable" in
            plog (DevmGpiodGetOptional "wlan-enable" GPIOD_OUT_LOW g) ;;
            with_ctx (fun c => mk_ctx (pwrseq c) (dev c) (supplies c)
                                      (clocks c) (bt_gpio c) g) ;;
            match g with
            | Err e =>
                dev_err_probe e
                  ("Failed to get the WLAN enable GPIO" ++ LF)
            | _ =>
                ctx <- the_ctx ;;
                let config :=
                  mk_config (Some pdev) (Some ctx) (Some Match)
                            pwrseq_ap6275p_targets in
                let s := devm_pwrseq_device_register env in
                plog (DevmPwrseqDeviceRegister config s) ;;
                with_ctx (fun c => mk_ctx s (dev c) (supplies c) (clocks c)
                                          (bt_gpio c) (wlan_gpio c)) ;;
                match s with
                | Err e =>
                    dev_err_probe e
                      ("Failed to register the power sequencer" ++ LF)
                | _ => pret 0
                end
            end
        end.

End Probe.

(** ** What the properties speak of *)

(** The first negative number of a list, 0 when it has none. *)
Fixpoint first_negative (l : list Z) : Z :=
  match l with
  | [] => 0
  | x :: rest => if (x <? 0)%Z then x else first_negative rest
  end.

(** How many numbers of a list come before its first negative one. *)
Fixpoint leading_successes (l : list Z) : nat :=
  match l with
  | [] => O
  | x :: rest => if (x <? 0)%Z then O else S (leading_successes rest)
  end.

(** The error that a pointer carries, 0 when it carries none. *)
Definition error_of (p : pointer) : Z :=
  match p with
  | Err e => e
  | _ => 0
  end.

(** The results of the six steps of [pwrseq_ap6275p_probe] that can
    fail, in the order of the steps: the allocation, which fails with
    NULL and of which -ENOMEM is made, the regulators, the clocks, the
    two GPIO lines and the registration. *)
Definition probe_steps {errno : linux_errno_h} (env : environment)
  : list Z :=
  [if devm_kzalloc env then 0 else - ENOMEM;
   devm_regulator_bulk_get env;
   devm_clk_bulk_get env;
   error_of (devm_gpiod_get_optional env "bt-enable");
   error_of (devm_gpiod_get_optional env "wlan-enable");
   error_of (devm_pwrseq_device_register env)].

(** The pointers of the environment that carry an error carry a
    negative one, as [ERR_PTR] makes them. *)
Definition errors_are_negative (env : environment) : Prop :=
  Forall (fun p => IS_ERR p = true -> error_of p < 0)
         [devm_gpiod_get_optional env "bt-enable";
          devm_gpiod_get_optional env "wlan-enable";
          devm_pwrseq_device_register env].

Definition is_step (c : call) : bool :=
  match c with
  | DevmKzalloc _ | DevmRegulatorBulkGet _ _ _ | DevmClkBulkGet _ _ _
  | DevmGpiodGetOptional _ _ _ | DevmPwrseqDeviceRegister _ _ => true
  | _ => false
  end.

Definition is_report (c : call) : bool :=
  match c with
  | DevErrProbe _ _ => true
  | _ => false
  end.

(** The context that a probe which goes through leaves behind. *)
Definition probed_ctx (env : environment) (pdev : device) : ap6275p_ctx :=
  mk_ctx (devm_pwrseq_device_register env) (Some pdev)
         (map (fun s => mk_regulator (Some s)) ap6275p_supplies)
         (map (fun s => mk_clk (Some s)) ap6275p_clocks)
         (devm_gpiod_get_optional env "bt-enable")
         (devm_gpiod_get_optional env "wlan-enable").

(** The configuration that such a probe registers: the context is
    complete but for the sequencer itself. *)
Definition probed_config (env : environment) (pdev : device)
  : pwrseq_config :=
  mk_config (Some pdev)
            (Some (mk_ctx Null (Some pdev)
                          (supplies (probed_ctx env pdev))
                          (clocks (probed_ctx env pdev))
                          (bt_gpio (probed_ctx env pdev))
                          (wlan_gpio (probed_ctx env pdev))))
            (Some Match) pwrseq_ap6275p_targets.

(** The calls of such a probe. *)
Definition probed_calls (env : environment) (pdev : device) : list call :=
  [DevmKzalloc true;
   DevmRegulatorBulkGet AP6275P_NUM_SUPPLIES (supplies (probed_ctx env pdev))
                        (devm_regulator_bulk_get env);
   DevmClkBulkGet AP6275P_NUM_CLOCKS (clocks (probed_ctx env pdev))
                  (devm_clk_bulk_get env);
   DevmGpiodGetOptional "bt-enable" GPIOD_OUT_LOW
                        (bt_gpio (probed_ctx env pdev));
   DevmGpiodGetOptional "wlan-enable" GPIOD_OUT_LOW
                        (wlan_gpio (probed_ctx env pdev));
   DevmPwrseqDeviceRegister (probed_config env pdev)
                            (devm_pwrseq_device_register env)].

(** What a call acts on: a set of regulators, a set of clocks or a GPIO
    line; nothing for the calls that act on none of these. *)
Inductive resource :=
| Regulators (n : Z) (s : list regulator_bulk_data)
| Clocks (n : Z) (c : list clk_bulk_data)
| Line (desc : pointer).

Definition resource_of (c : call) : option resource :=
  match c with
  | RegulatorBulkEnable n s _ | RegulatorBulkDisable n s _ =>
      Some (Regulators n s)
  | ClkBulkPrepareEnable n c _ | ClkBulkDisableUnprepare n c =>
      Some (Clocks n c)
  | GpiodSetValueCansleep d _ => Some (Line d)
  | _ => None
  end.

Fixpoint resources (T : list call) : list resource :=
  match T with
  | [] => []
  | c :: rest =>
      match resource_of c with
      | Some r => r :: resources rest
      | None => resources rest
      end
  end.

(** The units that a target stands on: those its own unit depends on,
    then that unit. *)
Definition units_of (t : pwrseq_target_data) : list pwrseq_unit_data :=
  deps (target_unit t) ++ [target_unit t].

(** What the lookup of the [vdd-supply] of a consumer returns: the
    result and the node of the supply. *)
Definition vdd_supply (env : environment) (consumer : device)
  : Z * fwnode_handle :=
  fwnode_property_get_reference_args env (fwnode consumer) "vdd-supply".

(** The parent of the parent of a node. *)
Definition grandparent (env : environment) (fw : fwnode_handle)
  : fwnode_handle :=
  fwnode_get_next_parent env (fwnode_get_next_parent env fw).

Definition is_handle_put (c : call) : bool :=
  match c with
  | FwnodeHandlePut _ => true
  | _ => false
  end.

(** A firmware description with a power management unit (node 5), its
    regulators below it (node 6, with the regulator 7), and one consumer
    (node 10) whose [vdd-supply] is that regulator; every call of the
    kernel succeeds. *)
Definition sample_env : environment :=
  mk_env true 0 0
         (fun con_id => if String.eqb con_id "bt-enable" then Obj 1
                        else if String.eqb con_id "wlan-enable" then Obj 2
                        else Null)
         (Obj 3) 0 0 0
         (fun fw prop =>
            if fwnode_eqb fw (Some 10%nat) && String.eqb prop "vdd-supply"
            then (0, Some 7%nat) else (-2, None))
         (fun fw => match fw with
                    | Some 7%nat => Some 6%nat
                    | Some 6%nat => Some 5%nat
                    | _ => None
                    end).

Definition sample_pmu : device := mk_device (Some 5%nat).

End Ap6275p.

(** * Properties *)

(** Unfolds the monad and the register access layer and projects the
    records, so that a straight-line piece of driver code becomes the
    world it yields. *)
Ltac run :=
  cbv [bind ret gets emit set_hdmi set_i2c hw_set next_irq load_logged
       dw_hdmi_qp_write dw_hdmi_qp_read dw_hdmi_qp_mod reinit_completion
       complete oops with_cmp_done with_stat with_slave_reg with_is_regaddr
       with_is_segment with_connector with_scramb_work
       with_scramb_enabled];
  cbn [hdmi hw irqs sink_scdc sink_scrambling log loads fst snd
       i2c connector scramb_work scramb_enabled work_pending work_running
       cmp_done stat slave_reg is_regaddr is_segment].

(** The same through the link and scrambling functions. *)
Ltac run_link :=
  cbv [dw_hdmi_qp_bridge_atomic_enable dw_hdmi_qp_bridge_atomic_disable
       dw_hdmi_qp_enable_scramb dw_hdmi_qp_disable_scramb
       dw_hdmi_qp_supports_scrambling dw_hdmi_qp_set_scramb
       dw_hdmi_qp_scramb_work scramb_work_timer_expires
       drm_scdc_readb drm_scdc_writeb drm_scdc_set_high_tmds_clock_ratio
       drm_scdc_set_scrambling drm_scdc_get_scrambling_status
       schedule_delayed_work cancel_delayed_work_sync the_connector];
  run.

(** Closes the side conditions of the wait and interrupt lemmas. *)
Ltac wait_facts :=
  repeat match goal with |- _ /\ _ => split end;
  try reflexivity;
  try (repeat rewrite <- app_assoc; reflexivity);
  try (left; reflexivity); try (right; reflexivity);
  try match goal with |- no_wait _ => repeat constructor end.

Section Properties.
Context {regs : dw_hdmi_qp_h} {linux : linux_h}.

(** ** Machine integer facts *)

Lemma u8_range x : 0 <= u8 x < 256.
Proof. unfold u8. change (2 ^ 8) with 256. apply Z.mod_pos_bound. lia. Qed.

Lemma u32_range x : 0 <= u32 x < 2 ^ 32.
Proof. unfold u32. apply Z.mod_pos_bound. lia. Qed.

Lemma u32_small x : 0 <= x < 2 ^ 32 -> u32 x = x.
Proof. intros. unfold u32. apply Z.mod_small; assumption. Qed.

Lemma land_low_byte s m : 0 <= m < 256 -> u8 (Z.land s m) = Z.land s m.
Proof.
  intros Hm. unfold u8.
  rewrite <- Z.land_ones by lia.
  rewrite <- Z.land_assoc. f_equal.
  rewrite Z.land_ones by lia. apply Z.mod_small.
  change (2 ^ 8) with 256. lia.
Qed.

Lemma land_low_byte_range s m : 0 <= m < 256 -> 0 <= Z.land s m < 256.
Proof. intros Hm. rewrite <- (land_low_byte s m Hm). apply u8_range. Qed.

(** ** Running computations *)

Lemma runs_ret {A} (a : A) w : runs (ret a) w a w [].
Proof. split; [reflexivity | now rewrite app_nil_r]. Qed.

Lemma runs_bind {A B} (m : M A) (k : A -> M B) w a w1 L1 b w2 L2 :
  runs m w a w1 L1 -> runs (k a) w1 b w2 L2 ->
  runs (bind m k) w b w2 (L1 ++ L2).
Proof.
  intros [Hm Hl1] [Hk Hl2]. split.
  - unfold bind. rewrite Hm. exact Hk.
  - rewrite Hl2, Hl1. now rewrite app_assoc.
Qed.

Lemma runs_set_hdmi f w :
  exists w', runs (set_hdmi f) w tt w' [] /\ hdmi w' = f (hdmi w) /\
             irqs w' = irqs w /\ hw w' = hw w.
Proof.
  eexists. repeat split. cbn. now rewrite app_nil_r.
Qed.

(** ** Trace shapes *)

Lemma no_wait_app L1 L2 : no_wait L1 -> no_wait L2 -> no_wait (L1 ++ L2).
Proof. intros H1 H2. apply Forall_app. split; assumption. Qed.

Lemma no_wait_all_ok L : no_wait L -> all_waits_ok L.
Proof.
  intros Hn pre tmo rem st post HL. exfalso.
  unfold no_wait in Hn. rewrite Forall_forall in Hn.
  specialize (Hn (WaitForCompletion tmo rem st)).
  assert (Hin : In (WaitForCompletion tmo rem st) L)
    by (rewrite HL; apply in_elt).
  specialize (Hn Hin). discriminate.
Qed.

Lemma strobe_cleared_next_app post L :
  strobe_cleared_next post -> strobe_cleared_next (post ++ L).
Proof.
  intros [post' [H | [v H]]]; rewrite H; exists (post' ++ L).
  - left. reflexivity.
  - right. exists v. reflexivity.
Qed.

Lemma all_waits_ok_app L1 L2 :
  all_waits_ok L1 -> all_waits_ok L2 -> all_waits_ok (L1 ++ L2).
Proof.
  intros H1 H2 pre tmo rem st post HL.
  symmetry in HL. apply app_eq_app in HL.
  destruct HL as [l [[Hpre Hpost] | [HL1 HL2]]].
  - apply (H2 l tmo rem st post). exact Hpost.
  - destruct l as [| x l'].
    + cbn in HL2. rewrite app_nil_r in HL1. subst pre.
      apply (H2 [] tmo rem st post). symmetry. exact HL2.
    + cbn in HL2. injection HL2 as Hx Hpost. subst x post.
      destruct (H1 pre tmo rem st l' HL1) as (Ht & Hr & Hn & Hs).
      repeat split; try assumption.
      apply strobe_cleared_next_app. exact Hs.
Qed.

Lemma no_wait_no_split L pre tmo rem st post :
  no_wait L -> L <> pre ++ WaitForCompletion tmo rem st :: post.
Proof.
  intros Hn HL. unfold no_wait in Hn. rewrite Forall_forall in Hn.
  specialize (Hn (WaitForCompletion tmo rem st)).
  assert (Hin : In (WaitForCompletion tmo rem st) L)
    by (rewrite HL; apply in_elt).
  specialize (Hn Hin). discriminate.
Qed.

Lemma all_waits_ok_one A rem st B :
  no_wait A -> no_wait B -> rem <> 0 ->
  Z.land st I2CM_NACK_RCVD_IRQ = 0 -> strobe_cleared_next B ->
  all_waits_ok (A ++ WaitForCompletion (HZ / 10) rem st :: B).
Proof.
  intros HA HB Hrem Hst Hnext.
  apply all_waits_ok_app; [apply no_wait_all_ok; exact HA |].
  intros pre tmo' rem' st' post HL.
  destruct pre as [| x pre'].
  - cbn in HL. injection HL as -> -> -> ->. repeat split; assumption.
  - cbn in HL. injection HL as _ HB'. exfalso.
    exact (no_wait_no_split _ _ _ _ _ _ HB HB').
Qed.

Lemma ends_in_failure_app e L1 L2 :
  all_waits_ok L1 -> ends_in_failure e L2 -> ends_in_failure e (L1 ++ L2).
Proof.
  intros H1 (L0 & rem & st & HL & Hok & He).
  exists (L1 ++ L0), rem, st. split; [| split].
  - rewrite HL. now rewrite app_assoc.
  - apply all_waits_ok_app; assumption.
  - exact He.
Qed.

Lemma ends_in_failure_one A rem st e :
  no_wait A ->
  (rem = 0 /\ e = - EAGAIN) \/
  (rem <> 0 /\ Z.land st I2CM_NACK_RCVD_IRQ <> 0 /\ e = - EIO) ->
  ends_in_failure e (A ++ [WaitForCompletion (HZ / 10) rem st; soft_reset]).
Proof.
  intros HA He. exists A, rem, st. split; [reflexivity | split].
  - apply no_wait_all_ok. exact HA.
  - exact He.
Qed.

Lemma ends_in_failure_negative e L :
  0 < EAGAIN -> 0 < EIO -> ends_in_failure e L -> e < 0.
Proof.
  intros Ha Hi (L0 & rem & st & _ & _ & [[_ He] | (_ & _ & He)]); lia.
Qed.


(** ** The wait and the byte operations *)

Lemma dw_hdmi_qp_main_hardirq_spec w :
  exists r w' L,
    runs dw_hdmi_qp_main_hardirq w r w' L /\
    no_wait L /\
    slave_reg (i2c (hdmi w')) = slave_reg (i2c (hdmi w)) /\
    is_regaddr (i2c (hdmi w')) = is_regaddr (i2c (hdmi w)) /\
    is_segment (i2c (hdmi w')) = is_segment (i2c (hdmi w)) /\
    irqs w' = irqs w /\
    (MAINUNIT_1_INT_CLEAR <> I2CM_INTERFACE_WRDATA_0_3 ->
     wrdata_writes L = []).
Proof.
  unfold runs, dw_hdmi_qp_main_hardirq. run.
  set (status := u32 (hw w MAINUNIT_1_INT_STATUS)).
  set (st := u8 (Z.land status _)).
  destruct (Z.eqb_spec st 0) as [Hst | Hst]; cbn [negb]; run;
    destruct (Z.eqb_spec status 0) as [Hs | Hs]; cbn [negb];
    eexists; eexists; eexists; cbn; wait_facts;
    intros Hne; apply Z.eqb_neq in Hne; cbn; rewrite ?Hne; reflexivity.
Qed.

Lemma wait_for_completion_timeout_spec tmo w :
  exists rem w' L0,
    runs (wait_for_completion_timeout tmo) w rem w'
         (L0 ++ [WaitForCompletion tmo rem (stat (i2c (hdmi w')))]) /\
    no_wait L0 /\ (rem = 0 \/ rem = 1) /\
    slave_reg (i2c (hdmi w')) = slave_reg (i2c (hdmi w)) /\
    is_regaddr (i2c (hdmi w')) = is_regaddr (i2c (hdmi w)) /\
    is_segment (i2c (hdmi w')) = is_segment (i2c (hdmi w)) /\
    (MAINUNIT_1_INT_CLEAR <> I2CM_INTERFACE_WRDATA_0_3 ->
     wrdata_writes L0 = []).
Proof.
  unfold runs, wait_for_completion_timeout.
  cbv [bind next_irq hw_set ret gets].
  destruct (irqs w) as [| [| int_status rddata] rest];
    cbn [hdmi hw irqs sink_scdc sink_scrambling log loads].
  1, 2: destruct (0 <? cmp_done (i2c (hdmi w))); run;
    eexists; eexists; exists []; cbn; wait_facts.
  match goal with
  | |- context [dw_hdmi_qp_main_hardirq ?w0] =>
      destruct (dw_hdmi_qp_main_hardirq_spec w0)
        as (r & w1 & L & [Hrun Hlog] & Hnw & Hsr & Hra & Hsg & _ & Hwr);
      rewrite Hrun
  end.
  cbn [hdmi hw irqs sink_scdc sink_scrambling log loads] in *.
  destruct (0 <? cmp_done (i2c (hdmi w1))); run;
    eexists; eexists; exists L; cbn; rewrite Hlog; wait_facts; assumption.
Qed.

Lemma wrdata_writes_app L1 L2 :
  wrdata_writes (L1 ++ L2) = wrdata_writes L1 ++ wrdata_writes L2.
Proof.
  induction L1 as [| e L1 IH]; [reflexivity |].
  destruct e; cbn; try exact IH.
  destruct (reg =? I2CM_INTERFACE_WRDATA_0_3); cbn; now rewrite IH.
Qed.

Lemma i2c_write_body_spec buf pos w :
  exists r w' L,
    runs (i2c_write_body buf pos) w r w' L /\
    match r with
    | Some e => ends_in_failure e L
    | None => all_waits_ok L
    end /\
    slave_reg (i2c (hdmi w')) = u8 (slave_reg (i2c (hdmi w)) + 1) /\
    is_regaddr (i2c (hdmi w')) = is_regaddr (i2c (hdmi w)) /\
    is_segment (i2c (hdmi w')) = is_segment (i2c (hdmi w)) /\
    (MAINUNIT_1_INT_CLEAR <> I2CM_INTERFACE_WRDATA_0_3 ->
     I2CM_CONTROL0 <> I2CM_INTERFACE_WRDATA_0_3 ->
     wrdata_writes L = [load buf pos]).
Proof.
  unfold runs, i2c_write_body, slave_reg_postinc. run.
  match goal with
  | |- context [wait_for_completion_timeout ?t ?w0] =>
      destruct (wait_for_completion_timeout_spec t w0)
        as (rem & w1 & L0 & [Hrun Hlog] & Hnw & Hrem & Hsr & Hra & Hsg & Hwr);
      rewrite Hrun
  end.
  cbn [hdmi hw irqs sink_scdc sink_scrambling log loads
       i2c slave_reg is_regaddr is_segment] in *.
  set (st := stat (i2c (hdmi w1))) in *.
  match type of Hlog with
  | _ = (((_ ++ [?a]) ++ [?b]) ++ [?c]) ++ _ =>
      set (e1 := a) in *; set (e2 := b) in *; set (e3 := c) in *
  end.
  assert (Hlog' : log w1 = log w ++ ([e1; e2; e3] ++ L0)
                                 ++ [WaitForCompletion (HZ / 10) rem st])
    by (rewrite Hlog; repeat rewrite <- app_assoc; reflexivity).
  assert (Hpre : no_wait ([e1; e2; e3] ++ L0))
    by (apply no_wait_app; [repeat constructor | exact Hnw]).
  assert (Hdata : MAINUNIT_1_INT_CLEAR <> I2CM_INTERFACE_WRDATA_0_3 ->
                  wrdata_writes ([e1; e2; e3] ++ L0) = [load buf pos]).
  { intros Hne. rewrite wrdata_writes_app, (Hwr Hne). cbn.
    rewrite Z.eqb_refl, u32_small; [reflexivity |].
    pose proof (u8_range (buf pos)). unfold load. lia. }
  change (u32 1) with 1. change (u32 0) with 0.
  destruct Hrem as [-> | ->]; cbn [Z.eqb].
  - exists (Some (- EAGAIN)), (mk_world (hdmi w1) (hw w1) (irqs w1)
             (sink_scdc w1) (sink_scrambling w1) (log w1 ++ [soft_reset])
             (loads w1)),
      (([e1; e2; e3] ++ L0) ++ [WaitForCompletion (HZ / 10) 0 st; soft_reset]).
    split; [split; [reflexivity |] |].
    { cbn [log]. rewrite Hlog'. repeat rewrite <- app_assoc. reflexivity. }
    split; [apply ends_in_failure_one; auto |].
    repeat split; try assumption.
    intros H1 H2. rewrite wrdata_writes_app, (Hdata H1). cbn.
    apply Z.eqb_neq in H2. now rewrite H2.
  - cbv beta. fold st.
    destruct (Z.eqb_spec (Z.land st I2CM_NACK_RCVD_IRQ) 0) as [Hn | Hn];
      cbn [negb].
    + exists None, (mk_world (hdmi w1) (hw w1) (irqs w1)
             (sink_scdc w1) (sink_scrambling w1) (log w1 ++ [clear_strobe])
             (loads w1)),
        (([e1; e2; e3] ++ L0) ++ WaitForCompletion (HZ / 10) 1 st :: [clear_strobe]).
      split; [split; [reflexivity |] |].
      { cbn [log]. rewrite Hlog'. repeat rewrite <- app_assoc. reflexivity. }
      split.
      { apply all_waits_ok_one; auto; try lia.
        - repeat constructor.
        - exists []. left. reflexivity. }
      repeat split; try assumption.
      intros H1 H2. rewrite wrdata_writes_app, (Hdata H1). reflexivity.
    + exists (Some (- EIO)), (mk_world (hdmi w1) (hw w1) (irqs w1)
             (sink_scdc w1) (sink_scrambling w1) (log w1 ++ [soft_reset])
             (loads w1)),
        (([e1; e2; e3] ++ L0) ++ [WaitForCompletion (HZ / 10) 1 st; soft_reset]).
      split; [split; [reflexivity |] |].
      { cbn [log]. rewrite Hlog'. repeat rewrite <- app_assoc. reflexivity. }
      split; [apply ends_in_failure_one; auto; right; repeat split; auto; lia |].
      repeat split; try assumption.
      intros H1 H2. rewrite wrdata_writes_app, (Hdata H1). cbn.
      apply Z.eqb_neq in H2. now rewrite H2.
Qed.

Lemma i2c_read_body_spec buf pos w :
  exists r w' L,
    runs (i2c_read_body buf pos) w r w' L /\
    match fst r with
    | Some e => ends_in_failure e L
    | None => all_waits_ok L
    end.
Proof.
  unfold runs, i2c_read_body, slave_reg_postinc. run.
  assert (Hseg : exists e3,
    is_wait e3 = false /\
    e3 = RegmapUpdateBits I2CM_INTERFACE_CONTROL0 (u32 I2CM_WR_MASK)
           (u32 (if is_segment (i2c (hdmi w))
                 then I2CM_EXT_READ else I2CM_FM_READ)))
    by (eexists; split; [| reflexivity]; reflexivity).
  destruct Hseg as (e3 & He3 & He3eq).
  destruct (is_segment (i2c (hdmi w))) eqn:Eseg; run;
  match goal with
  | |- context [wait_for_completion_timeout ?t ?w0] =>
      destruct (wait_for_completion_timeout_spec t w0)
        as (rem & w1 & L0 & [Hrun Hlog] & Hnw & Hrem & _);
      rewrite Hrun
  end;
  cbn [hdmi hw irqs sink_scdc sink_scrambling log loads
       i2c slave_reg is_regaddr is_segment] in *;
  rewrite <- He3eq in Hlog;
  match type of Hlog with
  | _ = ((_ ++ [?a]) ++ _) ++ _ => set (e2 := a) in *
  end.
  all: set (st := stat (i2c (hdmi w1))) in *.
  all: assert (Hlog' : log w1 = log w ++ ([e2; e3] ++ L0)
                                 ++ [WaitForCompletion (HZ / 10) rem st])
    by (rewrite Hlog; repeat rewrite <- app_assoc; reflexivity).
  all: assert (Hpre : no_wait ([e2; e3] ++ L0))
    by (apply no_wait_app; [| exact Hnw];
        constructor; [reflexivity |];
        constructor; [exact He3 | constructor]).
  all: change (u32 1) with 1; change (u32 0) with 0.
  all: destruct Hrem as [-> | ->]; cbn [Z.eqb]; cbv beta; fold st.
  all: destruct (Z.eqb_spec (Z.land st I2CM_NACK_RCVD_IRQ) 0) as [Hn | Hn];
    cbn [negb].
  all: first
    [ solve
        [ exists (Some (- EAGAIN), buf),
            (mk_world (hdmi w1) (hw w1) (irqs w1) (sink_scdc w1)
                      (sink_scrambling w1) (log w1 ++ [soft_reset])
                      (loads w1)),
            (([e2; e3] ++ L0) ++ [WaitForCompletion (HZ / 10) 0 st; soft_reset]);
          (split; [split; [reflexivity |] |]);
          [ cbn [log]; rewrite Hlog'; repeat rewrite <- app_assoc;
            reflexivity
          | apply ends_in_failure_one; auto ] ]
    | solve
        [ eexists (None, _), _,
            (([e2; e3] ++ L0) ++ WaitForCompletion (HZ / 10) 1 st ::
               [RegmapRead I2CM_INTERFACE_RDDATA_0_3
                           (u32 (hw w1 I2CM_INTERFACE_RDDATA_0_3));
                clear_strobe]);
          (split; [split; [reflexivity |] |]);
          [ cbn [log]; rewrite Hlog'; repeat rewrite <- app_assoc;
            reflexivity
          | apply all_waits_ok_one; auto; try lia;
            [ repeat constructor
            | exists []; right; eexists; reflexivity ] ] ]
    | solve
        [ exists (Some (- EIO), buf),
            (mk_world (hdmi w1) (hw w1) (irqs w1) (sink_scdc w1)
                      (sink_scrambling w1) (log w1 ++ [soft_reset])
                      (loads w1)),
            (([e2; e3] ++ L0) ++ [WaitForCompletion (HZ / 10) 1 st; soft_reset]);
          (split; [split; [reflexivity |] |]);
          [ cbn [log]; rewrite Hlog'; repeat rewrite <- app_assoc;
            reflexivity
          | apply ends_in_failure_one; auto; right; repeat split; auto;
            lia ] ] ].
Qed.

Lemma i2c_read_loop_spec n :
  forall buf pos w,
  exists r w' L,
    runs (i2c_read_loop n buf pos) w r w' L /\
    match fst r with
    | Some e => ends_in_failure e L
    | None => all_waits_ok L
    end.
Proof.
  induction n as [| n IH]; intros buf pos w.
  - exists (None, buf), w, []. split; [apply runs_ret |].
    apply no_wait_all_ok. constructor.
  - cbn [i2c_read_loop].
    destruct (i2c_read_body_spec buf pos w)
      as ([r buf'] & w1 & L1 & Hrun & Hshape).
    cbn [fst] in Hshape. destruct r as [e |].
    + exists (Some e, buf'), w1, (L1 ++ []). split.
      * eapply runs_bind; [exact Hrun | apply runs_ret].
      * rewrite app_nil_r. exact Hshape.
    + destruct (IH buf' (pos + 1) w1) as (r2 & w2 & L2 & Hrun2 & Hshape2).
      exists r2, w2, (L1 ++ L2). split.
      * eapply runs_bind; [exact Hrun | exact Hrun2].
      * destruct (fst r2).
        -- apply ends_in_failure_app; assumption.
        -- apply all_waits_ok_app; assumption.
Qed.

Lemma u8_add_idem a b : u8 (u8 a + b) = u8 (a + b).
Proof. unfold u8. apply Z.add_mod_idemp_l. discriminate. Qed.

Lemma u8_idem a : u8 (u8 a) = u8 a.
Proof. unfold u8. apply Z.mod_mod. discriminate. Qed.

Lemma u32_idem a : u32 (u32 a) = u32 a.
Proof. unfold u32. apply Z.mod_mod. discriminate. Qed.

Lemma i2c_write_loop_spec n :
  forall buf pos w,
  exists r w' L k,
    runs (i2c_write_loop n buf pos) w r w' L /\
    (k <= n)%nat /\
    ((r = 0 /\ all_waits_ok L /\ k = n) \/ ends_in_failure r L) /\
    u8 (slave_reg (i2c (hdmi w')))
    = u8 (slave_reg (i2c (hdmi w)) + Z.of_nat k) /\
    is_regaddr (i2c (hdmi w')) = is_regaddr (i2c (hdmi w)) /\
    is_segment (i2c (hdmi w')) = is_segment (i2c (hdmi w)) /\
    (MAINUNIT_1_INT_CLEAR <> I2CM_INTERFACE_WRDATA_0_3 ->
     I2CM_CONTROL0 <> I2CM_INTERFACE_WRDATA_0_3 ->
     wrdata_writes L
     = map (fun i => load buf (pos + Z.of_nat i)) (seq 0 k)).
Proof.
  induction n as [| n IH]; intros buf pos w.
  - exists 0, w, [], 0%nat. split; [apply runs_ret |].
    split; [lia |]. split.
    { left. split; [reflexivity | split; [| reflexivity]].
      apply no_wait_all_ok. constructor. }
    rewrite Z.add_0_r. repeat split; reflexivity.
  - cbn [i2c_write_loop].
    destruct (i2c_write_body_spec buf pos w)
      as (r & w1 & L1 & Hrun & Hshape & Hsr & Hra & Hsg & Hwr).
    destruct r as [e |].
    + exists e, w1, (L1 ++ []), 1%nat. split.
      { eapply runs_bind; [exact Hrun | apply runs_ret]. }
      rewrite app_nil_r. split; [lia |]. split; [right; exact Hshape |].
      split; [rewrite Hsr; apply u8_idem |].
      repeat split; try assumption.
      intros H1 H2. rewrite (Hwr H1 H2). cbn. now rewrite Z.add_0_r.
    + destruct (IH buf (pos + 1) w1)
        as (r2 & w2 & L2 & k & Hrun2 & Hk & Hshape2 & Hsr2 & Hra2 & Hsg2
            & Hwr2).
      exists r2, w2, (L1 ++ L2), (S k). split.
      { eapply runs_bind; [exact Hrun | exact Hrun2]. }
      split; [lia |]. split.
      { destruct Hshape2 as [(Hr & Hok & Hkn) | Hf].
        - left. split; [exact Hr | split; [| congruence]].
          apply all_waits_ok_app; assumption.
        - right. apply ends_in_failure_app; assumption. }
      split.
      { rewrite Hsr2, Hsr, u8_add_idem. f_equal. lia. }
      split; [congruence |]. split; [congruence |].
      intros H1 H2. rewrite wrdata_writes_app, (Hwr H1 H2), (Hwr2 H1 H2).
      cbn [seq map app]. rewrite Z.add_0_r. f_equal.
      rewrite <- seq_shift, map_map. apply map_ext. intros i. f_equal. lia.
Qed.

Lemma dw_hdmi_qp_i2c_write_spec buf length w :
  exists r w' L,
    runs (dw_hdmi_qp_i2c_write buf length) w r w' L /\
    ((r = 0 /\ all_waits_ok L) \/ ends_in_failure r L).
Proof.
  unfold dw_hdmi_qp_i2c_write.
  destruct (is_regaddr (i2c (hdmi w))) eqn:Hreg.
  - destruct (i2c_write_loop_spec (Z.to_nat length) buf 0 w)
      as (r & w' & L & k & [Hrun Hlog] & _ & Hshape & _).
    exists r, w', L. split.
    + split; [| exact Hlog]. unfold bind, gets. rewrite Hreg. exact Hrun.
    + destruct Hshape as [(Hr & Hok & _) | Hf]; [left | right]; auto.
  - match goal with
    | |- context [i2c_write_loop ?n ?b ?p] =>
        destruct (i2c_write_loop_spec n b p
                    (mk_world
                       (mk_hdmi (mk_i2c (cmp_done (i2c (hdmi w)))
                                        (stat (i2c (hdmi w)))
                                        (load buf 0) true
                                        (is_segment (i2c (hdmi w))))
                                (connector (hdmi w))
                                (scramb_work (hdmi w))
                                (scramb_enabled (hdmi w)))
                       (hw w) (irqs w) (sink_scdc w) (sink_scrambling w)
                       (log w) (loads w)))
          as (r & w' & L & k & [Hrun Hlog] & _ & Hshape & _)
    end.
    exists r, w', L. split.
    + split; [| exact Hlog]. run. rewrite Hreg. exact Hrun.
    + destruct Hshape as [(Hr & Hok & _) | Hf]; [left | right]; auto.
Qed.

Lemma dw_hdmi_qp_i2c_read_spec buf length w :
  exists rb w' L,
    runs (dw_hdmi_qp_i2c_read buf length) w rb w' L /\
    ((fst rb = 0 /\ all_waits_ok L) \/ ends_in_failure (fst rb) L).
Proof.
  unfold dw_hdmi_qp_i2c_read.
  assert (Hpre : exists w0,
    runs (when (negb (is_regaddr (i2c (hdmi w)))) then
            (set_i2c (with_slave_reg 0x00) ;;
             set_i2c (with_is_regaddr true))) w tt w0 []).
  { destruct (is_regaddr (i2c (hdmi w))); cbn [negb].
    - exists w. apply runs_ret.
    - eexists. split; [reflexivity |]. cbn. now rewrite app_nil_r. }
  destruct Hpre as (w0 & Hpre).
  destruct (i2c_read_loop_spec (Z.to_nat length) buf 0 w0)
    as ([r buf'] & w1 & L & Hrun & Hshape).
  cbn [fst] in Hshape. destruct r as [e |].
  - exists (e, buf'), w1, ([] ++ L ++ []). split.
    + unfold bind at 1, gets.
      eapply runs_bind; [exact Hpre |].
      eapply runs_bind; [exact Hrun | apply runs_ret].
    + right. cbn. rewrite app_nil_r. exact Hshape.
  - destruct (runs_set_hdmi
                (fun d => mk_hdmi (with_is_segment false (i2c d))
                                  (connector d) (scramb_work d)
                                  (scramb_enabled d)) w1)
      as (w2 & Hset & _).
    exists (0, buf'), w2, ([] ++ L ++ [] ++ []). split.
    + unfold bind at 1, gets.
      eapply runs_bind; [exact Hpre |].
      eapply runs_bind; [exact Hrun |].
      eapply runs_bind; [exact Hset | apply runs_ret].
    + left. cbn. rewrite app_nil_r. split; [reflexivity | exact Hshape].
Qed.

(** ** The transfer *)

Lemma xfer_msg_spec m w :
  exists rm w' L,
    runs (xfer_msg m 0) w rm w' L /\
    ((fst rm = 0 /\ all_waits_ok L) \/ ends_in_failure (fst rm) L).
Proof.
  unfold xfer_msg.
  destruct ((addr m =? DDC_SEGMENT_ADDR) && (len m =? 1)).
  - eexists (0, m), _, [_; _]. split.
    + split; [reflexivity |]. cbn. now rewrite <- app_assoc.
    + left. split; [reflexivity |]. apply no_wait_all_ok.
      repeat constructor.
  - destruct (negb (Z.land (flags m) I2C_M_RD =? 0)).
    + destruct (dw_hdmi_qp_i2c_read_spec (buf m) (len m) w)
        as (rb & w' & L & Hrun & Hshape).
      eexists (fst rb, _), w', (L ++ []). split.
      * eapply runs_bind; [exact Hrun | apply runs_ret].
      * rewrite app_nil_r. exact Hshape.
    + destruct (dw_hdmi_qp_i2c_write_spec (buf m) (len m) w)
        as (r & w' & L & Hrun & Hshape).
      exists (r, m), w', (L ++ []). split.
      * eapply runs_bind; [exact Hrun | apply runs_ret].
      * rewrite app_nil_r. exact Hshape.
Qed.

Lemma xfer_msgs_spec msgs :
  0 < EAGAIN -> 0 < EIO ->
  forall w,
  exists rr w' L,
    runs (xfer_msgs msgs 0) w rr w' L /\
    ((fst rr = 0 /\ all_waits_ok L) \/
     (fst rr < 0 /\ ends_in_failure (fst rr) L)).
Proof.
  intros Hagain Hio.
  induction msgs as [| m rest IH]; intros w.
  - exists (0, []), w, []. split; [apply runs_ret |].
    left. split; [reflexivity |]. apply no_wait_all_ok. constructor.
  - cbn [xfer_msgs].
    destruct (xfer_msg_spec m w) as (rm & w1 & L1 & Hrun & Hshape).
    destruct Hshape as [[Hr Hok] | Hf].
    + destruct (IH w1) as (rr & w2 & L2 & Hrun2 & Hshape2).
      exists (fst rr, snd rm :: snd rr), w2, (L1 ++ L2 ++ []). split.
      * eapply runs_bind; [exact Hrun |]. rewrite Hr. cbn [Z.ltb Z.compare].
        eapply runs_bind; [exact Hrun2 | apply runs_ret].
      * rewrite app_nil_r. cbn [fst].
        destruct Hshape2 as [[Hr2 Hok2] | [Hr2 Hf2]].
        -- left. split; [exact Hr2 |]. apply all_waits_ok_app; assumption.
        -- right. split; [exact Hr2 |].
           apply ends_in_failure_app; assumption.
    + pose proof (ends_in_failure_negative _ _ Hagain Hio Hf) as Hneg.
      exists (fst rm, snd rm :: rest), w1, (L1 ++ []). split.
      * eapply runs_bind; [exact Hrun |].
        apply Z.ltb_lt in Hneg. rewrite Hneg. apply runs_ret.
      * rewrite app_nil_r. right. split; assumption.
Qed.

Lemma split_at_wait A x B pre y post :
  A ++ x :: B = pre ++ y :: post ->
  no_wait B -> is_wait y = true ->
  (pre = A /\ y = x /\ post = B) \/
  (exists l, A = pre ++ y :: l /\ post = l ++ x :: B).
Proof.
  intros Heq HB Hy. apply app_eq_app in Heq.
  destruct Heq as [l [[HA Hl] | [Hpre Hl]]].
  - destruct l as [| z l'].
    + cbn in Hl. injection Hl as -> ->. left.
      rewrite app_nil_r in HA. auto.
    + cbn in Hl. injection Hl as <- ->. right. exists l'. auto.
  - destruct l as [| z l'].
    + cbn in Hl. injection Hl as -> ->. left.
      rewrite app_nil_r in Hpre. auto.
    + cbn in Hl. injection Hl as _ HB'. exfalso.
      unfold no_wait in HB. rewrite Forall_forall in HB.
      assert (Hin : In y B) by (rewrite HB'; apply in_elt).
      specialize (HB y Hin). congruence.
Qed.

(** In the trace of a transfer, every wait of a byte operation is
    given HZ / 10 jiffies, a tenth of a second.  A wait that timed out is
    followed by the soft reset (value 1 to the I2C master control
    register) and the transfer returns -EAGAIN; a wait that was signalled
    with the NACK bit latched is followed by the soft reset and the
    transfer returns -EIO; in both cases only the muting of the interrupts
    follows.  Every other wait is followed by the clearing of the strobe
    field (for a read, after the data register is fetched), before
    anything else happens. *)
Lemma xfer_waits_outcomes :
  forall (msgs : list i2c_msg) (w : world),
    0 < EAGAIN -> 0 < EIO -> msgs <> [] ->
    exists r msgs' w' L,
      dw_hdmi_qp_i2c_xfer msgs w = Some ((r, msgs'), w') /\
      log w' = log w ++ L /\
      forall pre timeout remaining latched post,
        L = pre ++ WaitForCompletion timeout remaining latched :: post ->
        timeout = HZ / 10 /\
        (remaining = 0 ->
         post = [soft_reset; mute_irqs] /\ r = - EAGAIN) /\
        (remaining <> 0 -> Z.land latched I2CM_NACK_RCVD_IRQ <> 0 ->
         post = [soft_reset; mute_irqs] /\ r = - EIO) /\
        (remaining <> 0 -> Z.land latched I2CM_NACK_RCVD_IRQ = 0 ->
         strobe_cleared_next post).
Proof.
  intros msgs w Hagain Hio Hne.
  destruct msgs as [| m0 rest]; [congruence |]. clear Hne.
  unfold dw_hdmi_qp_i2c_xfer.
  set (msgs := m0 :: rest).
  assert (Hrej : forall pre timeout remaining latched post,
             [] = pre ++ WaitForCompletion timeout remaining latched :: post ->
             False) by (intros [|] ? ? ? ? H; discriminate).
  destruct (u8 (addr m0) =? DDC_CI_ADDR).
  { exists (- EOPNOTSUPP), msgs, w, []. split; [reflexivity |].
    split; [now rewrite app_nil_r |]. intros ? ? ? ? ? H.
    destruct (Hrej _ _ _ _ _ H). }
  destruct (existsb (fun m => len m =? 0) msgs).
  { exists (- EOPNOTSUPP), msgs, w, []. split; [reflexivity |].
    split; [now rewrite app_nil_r |]. intros ? ? ? ? ? H.
    destruct (Hrej _ _ _ _ _ H). }
  run.
  match goal with
  | |- context [xfer_msgs msgs 0 ?w0] =>
      destruct (xfer_msgs_spec msgs Hagain Hio w0)
        as (rr & w1 & L & [Hrun Hlog] & Hshape);
      rewrite Hrun
  end.
  cbn [hdmi hw irqs sink_scdc sink_scrambling log loads] in Hlog.
  change (u32 0) with 0. fold mute_irqs.
  match type of Hlog with
  | _ = ((_ ++ [?a]) ++ [?b]) ++ _ => set (e1 := a) in *; set (e2 := b) in *
  end.
  eexists _, _, _, (([e1; e2] ++ L) ++ [mute_irqs]).
  split; [reflexivity |]. split.
  { cbn [log]. rewrite Hlog. repeat rewrite <- app_assoc. reflexivity. }
  assert (Hhead : all_waits_ok [e1; e2])
    by (apply no_wait_all_ok; repeat constructor).
  intros pre timeout remaining latched post Hsplit.
  destruct Hshape as [[Hr Hok] | [Hr (L0 & rem & st & HL & Hok & He)]].
  - assert (Hall : all_waits_ok (([e1; e2] ++ L) ++ [mute_irqs])).
    { apply all_waits_ok_app; [apply all_waits_ok_app; assumption |].
      apply no_wait_all_ok. repeat constructor. }
    destruct (Hall _ _ _ _ _ Hsplit) as (H0 & H1 & H2 & H3).
    split; [exact H0 |].
    split; [intros; congruence |]. split; [intros; congruence |].
    intros _ _. exact H3.
  - assert (Hr' : (if fst rr =? 0 then Z.of_nat (length msgs) else fst rr)
                  = fst rr).
    { destruct (Z.eqb_spec (fst rr) 0); [lia | reflexivity]. }
    rewrite Hr'. clear Hr'.
    assert (Hshape : ([e1; e2] ++ L) ++ [mute_irqs]
                     = ([e1; e2] ++ L0)
                         ++ WaitForCompletion (HZ / 10) rem st
                         :: [soft_reset; mute_irqs]).
    { rewrite HL. repeat rewrite <- app_assoc. reflexivity. }
    rewrite Hshape in Hsplit.
    apply split_at_wait in Hsplit;
      [| repeat constructor | reflexivity].
    destruct Hsplit as [(_ & Hw & Hpost) | (l & HA & Hpost)].
    + injection Hw as -> -> ->. subst post.
      split; [reflexivity |].
      destruct He as [[Hrem He] | (Hrem & Hnack & He)].
      * split; [auto |]. split; [intros; congruence |].
        intros; congruence.
      * split; [intros; congruence |]. split; [auto |].
        intros; congruence.
    + assert (Hall : all_waits_ok ([e1; e2] ++ L0))
        by (apply all_waits_ok_app; assumption).
      destruct (Hall _ _ _ _ _ HA) as (H0 & H1 & H2 & H3).
      split; [exact H0 |].
      split; [intros; congruence |]. split; [intros; congruence |].
      intros _ _. subst post. apply strobe_cleared_next_app. exact H3.
Qed.

(** C2: a batch whose first message is addressed to the DDC/CI address
    0x37, or that holds a message of length zero, is refused with
    -EOPNOTSUPP and leaves the world as it was: no register is written,
    read or updated. *)
Theorem xfer_rejects_unsupported :
  forall (msgs : list i2c_msg) (m0 : i2c_msg) (w : world),
    hd_error msgs = Some m0 ->
    addr m0 = DDC_CI_ADDR \/ Exists (fun m => len m = 0) msgs ->
    dw_hdmi_qp_i2c_xfer msgs w = Some ((- EOPNOTSUPP, msgs), w).
Proof.
  intros msgs m0 w Hhd Hbad.
  destruct msgs as [| m rest]; [discriminate |].
  injection Hhd as ->.
  unfold dw_hdmi_qp_i2c_xfer.
  destruct (u8 (addr m0) =? DDC_CI_ADDR) eqn:Haddr; [reflexivity |].
  destruct Hbad as [Hci | Hempty].
  - rewrite Hci in Haddr. discriminate.
  - assert (Hex : existsb (fun m => len m =? 0) (m0 :: rest) = true).
    { apply existsb_exists. apply Exists_exists in Hempty.
      destruct Hempty as (m & Hin & Hlen). exists m.
      split; [exact Hin | now apply Z.eqb_eq]. }
    rewrite Hex. reflexivity.
Qed.

(** C9 (as amended): a write message handed to the write routine while
    no register pointer is set, that is every write message but a
    one-byte message to the segment address 0x30, has its first byte
    taken as the slave register address; the bytes given to the
    write-data register are the bytes from index 1 on, all of them unless
    a byte operation fails.  A one-byte message of this kind sets the
    pointer and transmits nothing, and a batch made of it alone
    returns 1. *)
Theorem write_msg_first_byte_is_register_address :
  forall m : i2c_msg,
    Z.land (flags m) I2C_M_RD = 0 ->
    1 <= len m < 2 ^ 16 ->
    (addr m =? DDC_SEGMENT_ADDR) && (len m =? 1) = false ->
    MAINUNIT_1_INT_CLEAR <> I2CM_INTERFACE_WRDATA_0_3 ->
    I2CM_CONTROL0 <> I2CM_INTERFACE_WRDATA_0_3 ->
    (forall (r : Z) (w : world),
        is_regaddr (i2c (hdmi w)) = false ->
        exists r' w' L k,
          xfer_msg m r w = Some ((r', m), w') /\
          log w' = log w ++ L /\
          is_regaddr (i2c (hdmi w')) = true /\
          (k <= Z.to_nat (len m - 1))%nat /\
          wrdata_writes L
          = map (fun i => load (buf m) (1 + Z.of_nat i)) (seq 0 k) /\
          u8 (slave_reg (i2c (hdmi w')))
          = u8 (load (buf m) 0 + Z.of_nat k) /\
          ((r' = 0 /\ k = Z.to_nat (len m - 1)) \/ ends_in_failure r' L) /\
          (len m = 1 ->
           r' = 0 /\ L = [] /\
           slave_reg (i2c (hdmi w')) = load (buf m) 0)) /\
    (forall w0 : world,
        len m = 1 -> u8 (addr m) <> DDC_CI_ADDR ->
        exists w1 L,
          dw_hdmi_qp_i2c_xfer [m] w0 = Some ((1, [m]), w1) /\
          log w1 = log w0 ++ L /\
          wrdata_writes L = [] /\
          is_regaddr (i2c (hdmi w1)) = true /\
          slave_reg (i2c (hdmi w1)) = load (buf m) 0).
Proof.
  intros m Hwr Hlen Hseg Hclr Hctl.
  assert (Hrd : negb (Z.land (flags m) I2C_M_RD =? 0) = false)
    by (rewrite Hwr; reflexivity).
  assert (Hcnt : u32 (len m - 1) = len m - 1)
    by (apply u32_small; lia).
  split.
  - intros r w Hreg.
    unfold xfer_msg, dw_hdmi_qp_i2c_write. rewrite Hseg, Hrd. run.
    rewrite Hreg. cbn [negb]. run. rewrite Hcnt.
    match goal with
    | |- context [i2c_write_loop ?n ?b ?p ?w0] =>
        destruct (i2c_write_loop_spec n b p w0)
          as (r' & w' & L & k & [Hrun Hlog] & Hk & Hshape & Hsr & Hra & _
              & Hdata);
        rewrite Hrun
    end.
    cbn [hdmi log i2c slave_reg is_regaddr] in *.
    exists r', w', L, k.
    split; [reflexivity |]. split; [exact Hlog |].
    split; [exact Hra |]. split; [exact Hk |].
    split; [exact (Hdata Hclr Hctl) |]. split; [exact Hsr |].
    split.
    { destruct Hshape as [(Hr & _ & Hkn) | Hf]; [left | right]; auto. }
    intros Hone. rewrite Hone in *.
    change (Z.to_nat (1 - 1)) with 0%nat in *.
    cbn in Hrun. injection Hrun as <- <-.
    cbn [hdmi log i2c slave_reg] in *.
    split; [reflexivity |]. split; [| reflexivity].
    apply (app_inv_head (log w)). rewrite app_nil_r. symmetry. exact Hlog.
  - intros w0 Hone Hci.
    unfold dw_hdmi_qp_i2c_xfer, xfer_msgs, xfer_msg, dw_hdmi_qp_i2c_write.
    apply Z.eqb_neq in Hci. rewrite Hci, Hseg, Hrd, Hone.
    cbn [existsb Z.eqb orb]. rewrite Hone. cbn [Z.eqb orb].
    run. cbn [negb]. run.
    change (Z.to_nat (u32 (1 - 1))) with 0%nat. cbn [i2c_write_loop]. run.
    cbn [Z.ltb Z.compare Z.eqb length Z.of_nat].
    eexists _, [_; _; _]. split; [reflexivity |].
    cbn. repeat rewrite <- app_assoc. repeat split.
Qed.

(** ** Packing bytes into words *)

Lemma lor_shiftl_add x y n :
  0 <= n -> 0 <= x < 2 ^ n -> Z.lor x (Z.shiftl y n) = x + y * 2 ^ n.
Proof.
  intros Hn Hx.
  assert (Hdisj : Z.land x (Z.shiftl y n) = 0).
  { apply Z.bits_inj'. intros m Hm.
    rewrite Z.land_spec, Z.bits_0.
    destruct (Z.lt_ge_cases m n) as [Hlt | Hge].
    - rewrite Z.shiftl_spec_low by assumption. apply andb_false_r.
    - rewrite <- (Z.mod_small x (2 ^ n)) by assumption.
      rewrite Z.mod_pow2_bits_high by lia. reflexivity. }
  rewrite <- Z.lxor_lor by assumption.
  rewrite <- Z.add_nocarry_lxor by assumption.
  now rewrite Z.shiftl_mul_pow2.
Qed.

Lemma load_range buffer i : 0 <= load buffer i < 256.
Proof. apply u8_range. Qed.

Lemma pack_control b1 b2 :
  0 <= b1 < 256 -> 0 <= b2 < 256 ->
  u32 (Z.lor (Z.shiftl b1 8) (Z.shiftl b2 16)) = le_word [0; b1; b2].
Proof.
  intros H1 H2. rewrite Z.shiftl_mul_pow2 by lia.
  rewrite lor_shiftl_add by lia.
  cbn [le_word]. rewrite u32_small by lia. lia.
Qed.

Lemma pack_first b : 0 <= b < 256 -> u32 (Z.lor b (Z.shiftl b 0)) = b.
Proof.
  intros H. rewrite Z.shiftl_0_r, Z.lor_diag. apply u32_small. lia.
Qed.

Lemma pack_next acc b n :
  0 <= n -> 2 ^ n * 256 <= 2 ^ 32 -> 0 <= acc < 2 ^ n -> 0 <= b < 256 ->
  u32 (Z.lor acc (Z.shiftl b n)) = acc + b * 2 ^ n.
Proof.
  intros Hn Hfit Hacc Hb. rewrite lor_shiftl_add by assumption.
  apply u32_small. nia.
Qed.

Lemma pack_word2 b0 b1 :
  0 <= b0 < 256 -> 0 <= b1 < 256 ->
  u32 (Z.lor (u32 (Z.lor b0 (Z.shiftl b0 0))) (Z.shiftl b1 8))
  = le_word [b0; b1].
Proof.
  intros H0 H1. rewrite pack_first by assumption.
  rewrite pack_next by lia. cbn [le_word]. lia.
Qed.

Lemma pack_word4 b0 b1 b2 b3 :
  0 <= b0 < 256 -> 0 <= b1 < 256 -> 0 <= b2 < 256 -> 0 <= b3 < 256 ->
  u32 (Z.lor
         (u32 (Z.lor
                 (u32 (Z.lor (u32 (Z.lor b0 (Z.shiftl b0 0)))
                             (Z.shiftl b1 8)))
                 (Z.shiftl b2 16)))
         (Z.shiftl b3 24))
  = le_word [b0; b1; b2; b3].
Proof.
  intros H0 H1 H2 H3. rewrite pack_first by assumption.
  rewrite (pack_next b0 b1 8) by lia.
  rewrite (pack_next _ b2 16) by lia.
  rewrite (pack_next _ b3 24) by lia.
  cbn [le_word]. lia.
Qed.

Lemma all_bytes_spec p n :
  all_bytes p = true -> 0 <= n < 256 -> p n = true.
Proof.
  unfold all_bytes. intros Hall Hn.
  rewrite forallb_forall in Hall. apply Hall.
  rewrite <- (Z2Nat.id n) by lia. apply in_map. apply in_seq. lia.
Qed.

Lemma list_Z_eqb_eq a b : list_Z_eqb a b = true -> a = b.
Proof.
  unfold list_Z_eqb. destruct (list_eq_dec Z.eq_dec a b); congruence.
Qed.

Lemma drm_flush_ok_all : all_bytes drm_flush_ok = true.
Proof. vm_compute. reflexivity. Qed.

Lemma drm_flush_indices_bytes n :
  0 <= n < 256 ->
  drm_flush_indices 257 n 0 = map Z.of_nat (seq 0 (Z.to_nat (n / 4) + 1)).
Proof.
  intros Hn. apply list_Z_eqb_eq.
  exact (all_bytes_spec drm_flush_ok n drm_flush_ok_all Hn).
Qed.

Lemma drm_loads_within fuel :
  forall n i x,
    In x (drm_loads fuel n i) -> x = 2 \/ 3 + i <= x <= 3 + n.
Proof.
  induction fuel as [| fuel IH]; intros n i x Hin; [destruct Hin |].
  cbn [drm_loads] in Hin. destruct Hin as [<- | Hin]; [left; reflexivity |].
  destruct (Z.leb_spec i n) as [Hle | Hgt]; [| destruct Hin].
  repeat (apply in_app_or in Hin; destruct Hin as [Hin | Hin]).
  - destruct (i mod 4 =? 0); [| destruct Hin].
    destruct Hin as [<- | []]. right. lia.
  - destruct Hin as [<- | []]. right. lia.
  - destruct (i mod 4 =? 3); [destruct Hin |].
    destruct Hin as [<- | []]. left. reflexivity.
  - destruct (IH n (i + 1) x Hin) as [-> | Hx]; [left; reflexivity |].
    right. lia.
Qed.

Lemma drm_loads_covers fuel :
  forall n i x,
    3 + i <= x <= 3 + n -> (Z.to_nat (x - 3 - i) < fuel)%nat ->
    In x (drm_loads fuel n i).
Proof.
  induction fuel as [| fuel IH]; intros n i x Hx Hfuel; [lia |].
  cbn [drm_loads]. right.
  destruct (Z.leb_spec i n) as [Hle | Hgt]; [| lia].
  apply in_or_app. right. cbn [app].
  destruct (Z.eq_dec x (3 + i)) as [-> | Hne].
  - left. reflexivity.
  - right. apply in_or_app. right. apply IH; lia.
Qed.

Lemma drm_loads_bytes n x :
  0 <= n < 256 ->
  In x (drm_loads 257 n 0) <-> x = 2 \/ 3 <= x <= 3 + n.
Proof.
  intros Hn. split.
  - intros Hin. apply drm_loads_within in Hin. lia.
  - intros [-> | Hx].
    + left. reflexivity.
    + apply drm_loads_covers; lia.
Qed.

(** ** Infoframe encoder *)

Lemma drm_pack_spec buffer fuel :
  forall i val w,
  exists w' vals,
    drm_pack fuel buffer i val w = Some (tt, w') /\
    length vals = length (drm_flush_indices fuel (load buffer 2) i) /\
    log w'
    = log w ++ map (fun kv => RegmapWrite (PKT_DRMI_CONTENTS1 + fst kv * 4)
                                          (snd kv))
                   (combine (drm_flush_indices fuel (load buffer 2) i) vals) /\
    loads w' = loads w ++ drm_loads fuel (load buffer 2) i /\
    hdmi w' = hdmi w.
Proof.
  induction fuel as [| fuel IH]; intros i val w.
  - exists w, []. cbn. rewrite !app_nil_r. repeat split.
  - cbn [drm_pack drm_flush_indices drm_loads]. run.
    set (n := load buffer 2) in *.
    destruct (i <=? n).
    2: { eexists _, []. cbn. rewrite app_nil_r. repeat split. }
    destruct (i mod 4 =? 0); run;
      (destruct (i mod 4 =? 3); cbn [orb]; run;
       [| destruct (i =? n); run ]);
      match goal with
      | |- context [drm_pack fuel buffer ?i' ?v' ?w0] =>
          destruct (IH i' v' w0) as (w' & vals & Hrun & Hlen & Hlog & Hld & Hh);
          rewrite Hrun
      end;
      cbn [hdmi log loads] in Hlog, Hld, Hh;
      first
        [ match type of Hlog with
          | _ = (_ ++ [RegmapWrite _ ?v]) ++ _ =>
              exists w', (v :: vals)
          end
        | exists w', vals ];
      (split; [reflexivity |]);
      (split; [cbn; rewrite ?length_app; cbn; lia |]);
      (split; [rewrite Hlog; cbn; repeat rewrite <- app_assoc; reflexivity |]);
      (split; [rewrite Hld; cbn; repeat rewrite <- app_assoc; reflexivity
              | exact Hh]).
Qed.

Lemma combine_map_l {A B C} (f : A -> B) (l : list A) (l' : list C) :
  combine (map f l) l' = map (fun p => (f (fst p), snd p)) (combine l l').
Proof.
  revert l'. induction l as [| a l IH]; intros [| c l']; cbn;
    try reflexivity.
  now rewrite IH.
Qed.

Lemma dw_hdmi_qp_config_drm_infoframe_spec buffer w :
  exists w' vals,
    dw_hdmi_qp_config_drm_infoframe buffer HDMI_INFOFRAME_SIZE_DRM w
    = Some (0, w') /\
    length vals = (Z.to_nat (load buffer 2 / 4) + 1)%nat /\
    log w' = log w ++ drmi_trace (le_word [0; load buffer 1; load buffer 2])
                                 vals /\
    loads w' = loads w ++ 1 :: 2 :: drm_loads 257 (load buffer 2) 0 /\
    hdmi w' = hdmi w.
Proof.
  unfold dw_hdmi_qp_config_drm_infoframe.
  rewrite Z.eqb_refl. cbn [negb]. run.
  match goal with
  | |- context [drm_pack 257 buffer 0 ?v ?w0] =>
      destruct (drm_pack_spec buffer 257 0 v w0)
        as (w1 & vals & Hrun & Hlen & Hlog & Hld & Hh);
      rewrite Hrun
  end.
  cbn [hdmi log loads] in Hlog, Hld, Hh.
  pose proof (load_range buffer 1) as H1.
  pose proof (load_range buffer 2) as H2.
  rewrite drm_flush_indices_bytes in Hlen, Hlog by exact H2.
  rewrite length_map, length_seq in Hlen.
  rewrite pack_control in Hlog by assumption.
  rewrite combine_map_l, map_map in Hlog. cbn [fst snd] in Hlog.
  exists (mk_world (hdmi w1) (hw w1) (irqs w1) (sink_scdc w1)
                   (sink_scrambling w1)
                   ((log w1 ++ [drmi_fieldrate_clear]) ++ [drmi_tx_enable])
                   (loads w1)), vals.
  split; [reflexivity |]. split; [exact Hlen |].
  cbn [log loads hdmi]. split; [| split; [| exact Hh]].
  - rewrite Hlog. unfold drmi_trace, drmi_tx_disable. rewrite Hlen.
    rewrite (u32_small (le_word _)) by (cbn [le_word]; lia).
    change (u32 0) with 0.
    repeat rewrite <- app_assoc. reflexivity.
  - rewrite Hld. repeat rewrite <- app_assoc. reflexivity.
Qed.

(** C10: a DRM infoframe buffer of the validated length is accepted
    whatever its byte at index 2; the encoder loads offsets 1, 2 and 3 to
    3 + buffer[2], and these stay below the validated length exactly when
    buffer[2] is at most that length minus 4. *)
Theorem drm_body_loads_in_bounds_iff :
  forall (buffer : bytes) (len : Z) (w : world),
    len = HDMI_INFOFRAME_SIZE_DRM ->
    exists w' L,
      dw_hdmi_qp_config_drm_infoframe buffer len w = Some (0, w') /\
      loads w' = loads w ++ L /\
      (forall x, In x L <-> x = 1 \/ x = 2 \/ 3 <= x <= 3 + load buffer 2) /\
      ((forall x, In x L -> 3 <= x -> x < len) <->
       load buffer 2 <= len - 4) /\
      (Forall (fun x => 0 <= x < len) L <-> load buffer 2 <= len - 4).
Proof.
  intros buffer len w ->.
  destruct (dw_hdmi_qp_config_drm_infoframe_spec buffer w)
    as (w' & vals & Hrun & _ & _ & Hld & _).
  pose proof (load_range buffer 2) as H2.
  set (n := load buffer 2) in *.
  exists w', (1 :: 2 :: drm_loads 257 n 0).
  split; [exact Hrun |]. split; [exact Hld |].
  assert (Hmem : forall x, In x (1 :: 2 :: drm_loads 257 n 0) <->
                           x = 1 \/ x = 2 \/ 3 <= x <= 3 + n).
  { intros x. cbn [In]. rewrite drm_loads_bytes by exact H2.
    intuition congruence. }
  split; [exact Hmem |]. split; [split |].
  - intros Hall. specialize (Hall (3 + n)).
    rewrite Hmem in Hall. lia.
  - intros Hn x Hx Hge. rewrite Hmem in Hx. lia.
  - rewrite Forall_forall. split.
    + intros Hall. specialize (Hall (3 + n)). rewrite Hmem in Hall. lia.
    + intros Hn x Hx. rewrite Hmem in Hx. lia.
Qed.

Lemma regmap_replay_app file A B :
  regmap_replay file (A ++ B) = regmap_replay (regmap_replay file A) B.
Proof. unfold regmap_replay. apply fold_left_app. Qed.

Lemma in_firstn {A} (x : A) n l : In x (firstn n l) -> In x l.
Proof.
  revert l. induction n as [| n IH]; intros [| a l] Hin; cbn in *;
    try contradiction.
  destruct Hin as [-> | Hin]; auto.
Qed.

Lemma regmap_replay_content_writes kvs :
  forall file r,
    (forall kv, In kv kvs ->
                PKT_DRMI_CONTENTS1 + Z.of_nat (fst kv) * 4 <> r) ->
    regmap_replay file (map drmi_content_write kvs) r = file r.
Proof.
  induction kvs as [| kv kvs IH]; intros file r Hne; [reflexivity |].
  cbn [map]. change (regmap_replay file (?e :: ?l))
    with (regmap_replay (regmap_apply file e) l).
  rewrite IH by (intros kv' Hin; apply Hne; right; exact Hin).
  unfold drmi_content_write, regmap_apply.
  destruct (Z.eqb_spec r (PKT_DRMI_CONTENTS1 + Z.of_nat (fst kv) * 4))
    as [Heq | _]; [| reflexivity].
  exfalso. apply (Hne kv); [left; reflexivity | congruence].
Qed.

Lemma update_bits_clears old m :
  Z.land (Z.lor (Z.land old (Z.lnot m)) (Z.land 0 m)) m = 0.
Proof.
  apply Z.bits_inj'. intros n Hn.
  rewrite Z.land_0_l, Z.lor_0_r, !Z.land_spec, Z.lnot_spec, Z.bits_0
    by assumption.
  destruct (Z.testbit old n), (Z.testbit m n); reflexivity.
Qed.

Lemma update_bits_sets old m :
  Z.land (Z.lor (Z.land old (Z.lnot m)) (Z.land m m)) m = m.
Proof.
  apply Z.bits_inj'. intros n Hn.
  rewrite Z.land_diag, Z.land_spec, Z.lor_spec, Z.land_spec, Z.lnot_spec
    by assumption.
  destruct (Z.testbit old n), (Z.testbit m n); reflexivity.
Qed.

(** C4: the trace of a DRM infoframe encode of the valid length is the
    clearing of the DRM transmit-enable bit, the control word, the body
    words 0 to buffer[2]/4 in order, the field-rate update, and only then
    the setting of transmit-enable.  Replayed on any register file,
    transmit-enable is 0 after the first call and stays 0 until the last
    content word is written (the enable register being none of the content
    registers), and it is set at the end. *)
Theorem drm_infoframe_tx_disabled_while_written :
  forall (buffer : bytes) (len : Z) (w : world),
    len = HDMI_INFOFRAME_SIZE_DRM ->
    PKTSCHED_PKT_EN <> PKT_DRMI_CONTENTS0 ->
    (forall k, 0 <= k < 64 ->
               PKTSCHED_PKT_EN <> PKT_DRMI_CONTENTS1 + k * 4) ->
    exists w' vals,
      dw_hdmi_qp_config_drm_infoframe buffer len w = Some (0, w') /\
      length vals = (Z.to_nat (load buffer 2 / 4) + 1)%nat /\
      let L := drmi_trace (le_word [0; load buffer 1; load buffer 2]) vals in
      log w' = log w ++ L /\
      (forall (file : Z -> Z) (j : nat),
          (1 <= j <= 2 + length vals)%nat ->
          Z.land (regmap_replay file (firstn j L) PKTSCHED_PKT_EN)
                 (u32 PKTSCHED_DRMI_TX_EN) = 0) /\
      (forall file : Z -> Z,
          Z.land (regmap_replay file L PKTSCHED_PKT_EN)
                 (u32 PKTSCHED_DRMI_TX_EN) = u32 PKTSCHED_DRMI_TX_EN).
Proof.
  intros buffer len w -> Hc0 Hc1.
  destruct (dw_hdmi_qp_config_drm_infoframe_spec buffer w)
    as (w' & vals & Hrun & Hlen & Hlog & _ & _).
  pose proof (load_range buffer 2) as H2.
  exists w', vals. split; [exact Hrun |]. split; [exact Hlen |].
  cbv zeta. split; [exact Hlog |].
  set (ctrl := le_word _). set (m := u32 PKTSCHED_DRMI_TX_EN).
  set (kvs := combine (seq 0 (length vals)) vals).
  assert (Hwords : (length vals <= 64)%nat).
  { rewrite Hlen.
    assert (load buffer 2 / 4 < 64) by (apply Z.div_lt_upper_bound; lia).
    assert (0 <= load buffer 2 / 4) by (apply Z.div_pos; lia). lia. }
  assert (Hkvs : forall kv, In kv kvs ->
             PKT_DRMI_CONTENTS1 + Z.of_nat (fst kv) * 4 <> PKTSCHED_PKT_EN).
  { intros [k v] Hin Heq. apply in_combine_l in Hin. apply in_seq in Hin.
    cbn [fst] in Heq. apply (Hc1 (Z.of_nat k)); [lia | congruence]. }
  assert (Hafter : forall file,
             Z.land (regmap_apply file drmi_tx_disable PKTSCHED_PKT_EN) m
             = 0).
  { intros file. unfold regmap_apply, drmi_tx_disable.
    rewrite Z.eqb_refl. apply update_bits_clears. }
  split.
  - intros file j Hj. unfold drmi_trace. fold kvs.
    destruct j as [| [| j]]; [lia | apply Hafter |].
    rewrite !firstn_cons.
    rewrite firstn_app, length_map.
    replace (j - length kvs)%nat with 0%nat.
    2: { unfold kvs. rewrite length_combine, length_seq. lia. }
    rewrite firstn_O, app_nil_r, firstn_map.
    change (regmap_replay file (?a :: ?b :: ?l))
      with (regmap_replay (regmap_apply (regmap_apply file a) b) l).
    rewrite regmap_replay_content_writes
      by (intros kv Hin; apply Hkvs; eapply in_firstn; exact Hin).
    match goal with
    | |- Z.land (regmap_apply ?f (RegmapWrite ?r ?v) _) _ = _ =>
        change (regmap_apply f (RegmapWrite r v) PKTSCHED_PKT_EN)
          with (if PKTSCHED_PKT_EN =? r then v else f PKTSCHED_PKT_EN)
    end.
    destruct (Z.eqb_spec PKTSCHED_PKT_EN PKT_DRMI_CONTENTS0);
      [contradiction | apply Hafter].
  - intros file. unfold drmi_trace. fold kvs.
    rewrite !app_comm_cons.
    change [drmi_fieldrate_clear; drmi_tx_enable]
      with ([drmi_fieldrate_clear] ++ [drmi_tx_enable]).
    rewrite app_assoc, regmap_replay_app.
    cbn [regmap_replay fold_left]. unfold drmi_tx_enable at 1.
    cbn [regmap_apply]. rewrite Z.eqb_refl. apply update_bits_sets.
Qed.

(** C5: with the AVI wire length the encode succeeds; it writes bytes 1
    and 2 into the control word, bytes 3 to 16 little-endian, four at a
    time, into the four content registers that follow, clears the
    field-rate bit and sets the AVI and GCP transmit-enable bits.  With
    any other length it returns -EINVAL and the world is untouched. *)
Theorem avi_infoframe_encode :
  forall (buffer : bytes) (len : Z) (w : world),
    (len = HDMI_INFOFRAME_SIZE_AVI ->
     exists w',
       dw_hdmi_qp_config_avi_infoframe buffer len w = Some (0, w') /\
       log w' = log w ++ avi_trace (load buffer) /\
       forall file : Z -> Z,
         let tx_en := u32 (Z.lor PKTSCHED_AVI_TX_EN PKTSCHED_GCP_TX_EN) in
         Z.land (regmap_replay file (avi_trace (load buffer))
                               PKTSCHED_PKT_EN) tx_en = tx_en) /\
    (len <> HDMI_INFOFRAME_SIZE_AVI ->
     dw_hdmi_qp_config_avi_infoframe buffer len w = Some (- EINVAL, w)).
Proof.
  intros buffer len w. split.
  - intros ->. unfold dw_hdmi_qp_config_avi_infoframe.
    rewrite Z.eqb_refl. cbn [negb avi_pack avi_pack_word]. run.
    cbn -[u32 load Z.lor Z.shiftl le_word avi_trace regmap_replay].
    eexists. split; [reflexivity |]. cbn [log]. split.
    + rewrite !u32_idem.
      rewrite !pack_word4, pack_word2, pack_control by apply load_range.
      change (u32 0) with 0.
      repeat rewrite <- app_assoc. reflexivity.
    + intros file. unfold avi_trace.
      match goal with
      | |- context [regmap_replay file [?a; ?b; ?c; ?d; ?e; ?f; ?g]] =>
          change [a; b; c; d; e; f; g] with ([a; b; c; d; e; f] ++ [g])
      end.
      rewrite regmap_replay_app.
      match goal with
      | |- context [regmap_replay ?f0 [RegmapUpdateBits ?r ?m ?v]] =>
          change (regmap_replay f0 [RegmapUpdateBits r m v] r)
            with (if r =? r
                  then Z.lor (Z.land (f0 r) (Z.lnot m)) (Z.land v m)
                  else f0 r)
      end.
      rewrite Z.eqb_refl. apply update_bits_sets.
  - intros Hne. unfold dw_hdmi_qp_config_avi_infoframe.
    apply Z.eqb_neq in Hne. rewrite Hne. reflexivity.
Qed.

(** ** Link / scrambling state machine *)

(** C3 (as amended): when the connector is HDMI, the negotiated rate
    exceeds 340000000 and the sink reports SCDC and scrambling support,
    atomic enable reads the sink version, writes min(sink version, 1) as
    source version, raises the TMDS clock ratio and enables scrambling at
    the sink, arms the recheck with a 3000 ms delay, writes 1 to the
    scrambling config register and sets the scrambling-enabled flag,
    before it goes on with the PHY and the link configuration. *)
Theorem atomic_enable_scrambling_sequence :
  forall (w : world) (c : drm_connector) (cs : drm_connector_state),
    is_hdmi c = true ->
    HDMI14_MAX_TMDSCLK < tmds_char_rate cs ->
    scdc_supported c = true ->
    scrambling_supported c = true ->
    let ver := u8 (sink_scdc w SCDC_SINK_VERSION) in
    exists w',
      dw_hdmi_qp_bridge_atomic_enable (Some c) (Some cs) w = Some (tt, w') /\
      log w' = log w ++
        [ScdcReadb SCDC_SINK_VERSION ver;
         ScdcWriteb SCDC_SOURCE_VERSION (Z.min ver 1);
         ScdcSetHighTmdsClockRatio true;
         ScdcSetScrambling true;
         ScheduleDelayedWork 3000;
         RegmapWrite SCRAMB_CONFIG0 1;
         PhyInit;
         RegmapUpdateBits HDCP2LOGIC_CONFIG0 (u32 HDCP2_BYPASS)
                          (u32 HDCP2_BYPASS);
         RegmapUpdateBits LINK_CONFIG0 (u32 OPMODE_DVI) 0;
         UpdateInfoframes] /\
      scramb_enabled (hdmi w') = true /\
      work_pending (scramb_work (hdmi w')) = true /\
      connector (hdmi w') = Some c.
Proof.
  intros w c cs Hhdmi Hrate Hscdc Hscr ver.
  apply Z.ltb_lt in Hrate.
  run_link. rewrite Hhdmi, Hrate. run_link.
  rewrite Hhdmi, Hscdc, Hscr. cbn [negb orb]. run_link.
  rewrite u8_idem. fold ver.
  change (u8 SCDC_MIN_SOURCE_VERSION) with 1.
  change (u32 1) with 1. change (u32 0) with 0.
  change SCRAMB_POLL_DELAY_MS with 3000.
  eexists. split; [reflexivity |]. cbn.
  repeat rewrite <- app_assoc. repeat split.
Qed.

(** C8: when the scrambling-enabled flag is clear, disabling does
    nothing at all.  When it is set (a connector being bound), the flag
    is cleared and the recheck is cancelled with the synchronous cancel:
    an execution in flight runs to its end before the cancel returns, so
    its calls come first in the trace.  Then 0 is written to the
    scrambling config register, and the sink is told to drop scrambling
    and the high clock ratio exactly when the connector is not
    disconnected.  On return the recheck is neither queued nor running,
    so an expiry of its timer runs nothing.  Atomic disable adds the
    unbinding of the connector and the PHY disable. *)
Theorem disable_scramb_cancels_recheck :
  forall w : world,
    (scramb_enabled (hdmi w) = false ->
     dw_hdmi_qp_disable_scramb w = Some (tt, w)) /\
    (scramb_enabled (hdmi w) = true ->
     forall c : drm_connector,
       connector (hdmi w) = Some c ->
       exists w',
         dw_hdmi_qp_disable_scramb w = Some (tt, w') /\
         log w' = log w ++
           (if work_running (scramb_work (hdmi w))
            then recheck_trace (sink_scrambling w) else []) ++
           [CancelDelayedWorkSync; RegmapWrite SCRAMB_CONFIG0 0] ++
           (if drm_connector_status_eqb (status c)
                                        connector_status_disconnected
            then []
            else [ScdcSetScrambling false;
                  ScdcSetHighTmdsClockRatio false]) /\
         scramb_enabled (hdmi w') = false /\
         scramb_work (hdmi w') = mk_work false false /\
         scramb_work_timer_expires w' = Some (tt, w') /\
         exists w'',
           dw_hdmi_qp_bridge_atomic_disable w = Some (tt, w'') /\
           log w'' = log w' ++ [PhyDisable] /\
           connector (hdmi w'') = None /\
           scramb_enabled (hdmi w'') = false /\
           scramb_work_timer_expires w'' = Some (tt, w'')).
Proof.
  intros w. split.
  - intros Hoff. run_link. rewrite Hoff. reflexivity.
  - intros Hon c Hc. run_link. rewrite Hon. cbn [negb]. run_link.
    change (u32 0) with 0. unfold recheck_trace.
    destruct (work_running (scramb_work (hdmi w))); run_link;
      rewrite ?Hc; run_link;
      [destruct (sink_scrambling w); cbn [negb]; run_link;
       rewrite ?Hc; run_link |];
      (destruct (drm_connector_status_eqb (status c)
                                          connector_status_disconnected);
       cbn [negb]; run_link; rewrite ?Hc; run_link;
       eexists; (split; [reflexivity |]); cbn;
       repeat rewrite <- app_assoc; cbn;
       (repeat split); eexists; repeat split).
Qed.

(** ** Rate validity *)

(** C6: a TMDS character rate is accepted exactly when it does not exceed
    600000000; 600000000 itself is accepted, 600000001 is rejected as
    clock-too-high, and the driver state (scrambling included) plays no
    part in the answer. *)
Theorem tmds_char_rate_valid_threshold :
  forall (d : dw_hdmi_qp) (rate : Z),
    (rate <= 600000000 ->
     dw_hdmi_qp_bridge_tmds_char_rate_valid d rate = MODE_OK) /\
    (600000000 < rate ->
     dw_hdmi_qp_bridge_tmds_char_rate_valid d rate = MODE_CLOCK_HIGH) /\
    dw_hdmi_qp_bridge_tmds_char_rate_valid d 600000000 = MODE_OK /\
    dw_hdmi_qp_bridge_tmds_char_rate_valid d 600000001 = MODE_CLOCK_HIGH /\
    (forall d' : dw_hdmi_qp,
        dw_hdmi_qp_bridge_tmds_char_rate_valid d' rate =
        dw_hdmi_qp_bridge_tmds_char_rate_valid d rate).
Proof.
  intros d rate. unfold dw_hdmi_qp_bridge_tmds_char_rate_valid,
    HDMI20_MAX_TMDSRATE.
  repeat split; intros; try reflexivity.
  - destruct (Z.ltb_spec 600000000 rate); [lia | reflexivity].
  - destruct (Z.ltb_spec 600000000 rate); [reflexivity | lia].
Qed.

(** ** Interrupt dispatcher *)

(** C7: with [status] the value read from the status register and
    [masked] its restriction to the three I2C bits, a nonzero [masked] is
    written to the write-to-clear register and the completion is
    signalled once; the handler answers handled exactly when [status] is
    nonzero, and a zero [status] leads to no clear and no signal.  The
    latch [i2c->stat] is a byte, hence the assumption that the three bits
    of the header lie in the low byte. *)
Theorem hardirq_clears_and_signals :
  forall w : world,
    0 <= i2c_irq_mask < 256 ->
    let status := u32 (hw w MAINUNIT_1_INT_STATUS) in
    let masked := Z.land status i2c_irq_mask in
    exists r w',
      dw_hdmi_qp_main_hardirq w = Some (r, w') /\
      stat (i2c (hdmi w')) = masked /\
      (masked <> 0 ->
       log w' = log w ++ [RegmapRead MAINUNIT_1_INT_STATUS status;
                          RegmapWrite MAINUNIT_1_INT_CLEAR masked;
                          Complete] /\
       cmp_done (i2c (hdmi w')) = cmp_done (i2c (hdmi w)) + 1) /\
      (masked = 0 ->
       log w' = log w ++ [RegmapRead MAINUNIT_1_INT_STATUS status] /\
       cmp_done (i2c (hdmi w')) = cmp_done (i2c (hdmi w))) /\
      (r = IRQ_HANDLED <-> status <> 0) /\
      (status = 0 ->
       r = IRQ_NONE /\
       log w' = log w ++ [RegmapRead MAINUNIT_1_INT_STATUS status] /\
       cmp_done (i2c (hdmi w')) = cmp_done (i2c (hdmi w))).
Proof.
  intros w Hmask status masked.
  assert (Hlatch : u8 masked = masked) by (apply land_low_byte; assumption).
  assert (Hrange : 0 <= masked < 256)
    by (apply land_low_byte_range; assumption).
  assert (Hzero : status = 0 -> masked = 0)
    by (intros Hs; unfold masked; rewrite Hs; apply Z.land_0_l).
  unfold dw_hdmi_qp_main_hardirq. run.
  fold status. fold i2c_irq_mask. fold masked. rewrite Hlatch.
  destruct (Z.eqb_spec masked 0) as [Hz | Hnz]; cbn [negb]; run.
  - destruct (Z.eqb_spec status 0) as [Hs | Hs]; cbn [negb];
      eexists; eexists; (split; [reflexivity |]); cbn;
      repeat split; intros; congruence.
  - destruct (Z.eqb_spec status 0) as [Hs | Hs]; [tauto |]; cbn [negb].
    eexists; eexists; (split; [reflexivity |]); cbn.
    rewrite (u32_small masked) by lia.
    repeat split; intros; try congruence.
    repeat rewrite <- app_assoc. reflexivity.
Qed.

End Properties.

Lemma tmds_char_rate_valid_threshold_witness :
  dw_hdmi_qp_bridge_tmds_char_rate_valid unbound_hdmi 594000000 = MODE_OK /\
  dw_hdmi_qp_bridge_tmds_char_rate_valid unbound_hdmi 600000001
  = MODE_CLOCK_HIGH.
Proof.
  split.
  - exact (proj1 (tmds_char_rate_valid_threshold unbound_hdmi 594000000)
                 ltac:(lia)).
  - exact (proj1 (proj2 (tmds_char_rate_valid_threshold unbound_hdmi
                                                         600000001))
                 ltac:(lia)).
Defined.

Lemma hardirq_clears_and_signals_witness :
  0 <= @i2c_irq_mask sample_regs < 256 /\
  exists r w',
    @dw_hdmi_qp_main_hardirq sample_regs
      (mk_world unbound_hdmi (fun r => if r =? 0x3020 then 0x105 else 0)
                [] (fun _ => 0) false [] []) = Some (r, w') /\
    stat (i2c (hdmi w')) = 5.
Proof.
  assert (Hmask : 0 <= @i2c_irq_mask sample_regs < 256)
    by (vm_compute; split; [discriminate | reflexivity]).
  split; [exact Hmask |].
  destruct (@hardirq_clears_and_signals sample_regs
              (mk_world unbound_hdmi
                        (fun r => if r =? 0x3020 then 0x105 else 0)
                        [] (fun _ => 0) false [] []) Hmask)
    as (r & w' & Hrun & Hstat & _).
  exists r, w'. split; [exact Hrun | exact Hstat].
Defined.

Lemma xfer_rejects_unsupported_witness :
  @dw_hdmi_qp_i2c_xfer sample_regs sample_linux
    [ddc_ci_msg; one_byte_msg] (world_of unbound_hdmi [])
  = Some ((-95, [ddc_ci_msg; one_byte_msg]), world_of unbound_hdmi []).
Proof.
  exact (@xfer_rejects_unsupported sample_regs sample_linux
           [ddc_ci_msg; one_byte_msg] ddc_ci_msg (world_of unbound_hdmi [])
           eq_refl (or_introl eq_refl)).
Defined.

Lemma atomic_enable_scrambling_sequence_witness :
  exists w',
    @dw_hdmi_qp_bridge_atomic_enable sample_regs sample_linux
      (Some hdmi20_sink) (Some (mk_conn_state 594000000))
      (world_of unbound_hdmi [])
    = Some (tt, w') /\
    scramb_enabled (hdmi w') = true.
Proof.
  destruct (@atomic_enable_scrambling_sequence sample_regs sample_linux
              (world_of unbound_hdmi []) hdmi20_sink
              (mk_conn_state 594000000) eq_refl eq_refl eq_refl eq_refl)
    as (w' & Hrun & _ & Hflag & _).
  exists w'. split; [exact Hrun | exact Hflag].
Defined.

Lemma drm_infoframe_tx_disabled_while_written_witness :
  exists (w' : world) (vals : list Z),
    @dw_hdmi_qp_config_drm_infoframe sample_regs sample_linux drm_buffer 30
      (world_of unbound_hdmi [])
    = Some (0, w') /\
    length vals = 7%nat.
Proof.
  assert (Hdistinct : forall k, 0 <= k < 64 ->
             @PKTSCHED_PKT_EN sample_regs
             <> @PKT_DRMI_CONTENTS1 sample_regs + k * 4)
    by (intros k Hk; cbv [PKTSCHED_PKT_EN PKT_DRMI_CONTENTS1 sample_regs];
        lia).
  destruct (@drm_infoframe_tx_disabled_while_written sample_regs sample_linux
              drm_buffer 30 (world_of unbound_hdmi []) eq_refl
              ltac:(discriminate) Hdistinct)
    as (w' & vals & Hrun & Hlen & _).
  exists w', vals. split; [exact Hrun | exact Hlen].
Defined.

Lemma avi_infoframe_encode_witness :
  (exists w',
      @dw_hdmi_qp_config_avi_infoframe sample_regs sample_linux avi_buffer 17
        (world_of unbound_hdmi [])
      = Some (0, w')) /\
  @dw_hdmi_qp_config_avi_infoframe sample_regs sample_linux avi_buffer 16
    (world_of unbound_hdmi [])
  = Some (-22, world_of unbound_hdmi []).
Proof.
  split.
  - destruct (proj1 (@avi_infoframe_encode sample_regs sample_linux
                       avi_buffer 17 (world_of unbound_hdmi [])) eq_refl)
      as (w' & Hrun & _).
    exists w'. exact Hrun.
  - exact (proj2 (@avi_infoframe_encode sample_regs sample_linux
                    avi_buffer 16 (world_of unbound_hdmi []))
                 ltac:(discriminate)).
Defined.

Lemma disable_scramb_cancels_recheck_witness :
  exists w',
    @dw_hdmi_qp_disable_scramb sample_regs (world_of scrambling_hdmi [])
    = Some (tt, w') /\
    work_pending (scramb_work (hdmi w')) = false.
Proof.
  destruct (proj2 (@disable_scramb_cancels_recheck sample_regs
                     (world_of scrambling_hdmi []))
                  eq_refl hdmi20_sink eq_refl)
    as (w' & Hrun & _ & _ & Hwork & _).
  exists w'. split; [exact Hrun | now rewrite Hwork].
Defined.

Lemma write_msg_first_byte_is_register_address_witness :
  exists r' w' L k,
    @xfer_msg sample_regs sample_linux scdc_write_msg 0
      (world_of unbound_hdmi [HwIrq 1 0; HwIrq 1 0])
    = Some ((r', scdc_write_msg), w') /\
    log w' = L /\
    @wrdata_writes sample_regs L
    = map (fun i => load (buf scdc_write_msg) (1 + Z.of_nat i)) (seq 0 k).
Proof.
  destruct (proj1 (@write_msg_first_byte_is_register_address
                     sample_regs sample_linux scdc_write_msg
                     eq_refl ltac:(cbn; lia) eq_refl
                     ltac:(discriminate) ltac:(discriminate))
                  0 (world_of unbound_hdmi [HwIrq 1 0; HwIrq 1 0]) eq_refl)
    as (r' & w' & L & k & Hrun & Hlog & _ & _ & Hdata & _).
  exists r', w', L, k. split; [exact Hrun |].
  split; [exact Hlog | exact Hdata].
Defined.

Lemma drm_body_loads_in_bounds_iff_witness :
  exists w' L,
    @dw_hdmi_qp_config_drm_infoframe sample_regs sample_linux drm_buffer 30
      (world_of unbound_hdmi [])
    = Some (0, w') /\
    loads w' = L /\
    Forall (fun x => 0 <= x < 30) L.
Proof.
  destruct (@drm_body_loads_in_bounds_iff sample_regs sample_linux
              drm_buffer 30 (world_of unbound_hdmi []) eq_refl)
    as (w' & L & Hrun & Hld & _ & _ & Hbound).
  exists w', L. split; [exact Hrun |]. split; [exact Hld |].
  apply Hbound. vm_compute. discriminate.
Defined.

(** ** Where the code departs from the wording *)

(** An HDMI sink above 340 MHz that reports no SCDC support: atomic enable
    goes straight to the PHY and link configuration; nothing is sent to
    the sink, the scrambling register is not written, no recheck is armed
    and the flag stays clear. *)
Lemma atomic_enable_without_scdc_support :
  is_hdmi hdmi14_sink = true /\
  HDMI14_MAX_TMDSCLK < tmds_char_rate (mk_conn_state 594000000) /\
  observe (@dw_hdmi_qp_bridge_atomic_enable sample_regs sample_linux
             (Some hdmi14_sink) (Some (mk_conn_state 594000000))
             (world_of unbound_hdmi []))
  = Some (tt, [PhyInit;
               RegmapUpdateBits 0xe00 1 1;
               RegmapUpdateBits 0x968 1 0;
               UpdateInfoframes]) /\
  (forall w',
      @dw_hdmi_qp_bridge_atomic_enable sample_regs sample_linux
        (Some hdmi14_sink) (Some (mk_conn_state 594000000))
        (world_of unbound_hdmi []) = Some (tt, w') ->
      scramb_enabled (hdmi w') = false /\
      work_pending (scramb_work (hdmi w')) = false /\
      ~ In (RegmapWrite (@SCRAMB_CONFIG0 sample_regs) 1) (log w') /\
      ~ In (ScheduleDelayedWork 3000) (log w')).
Proof.
  split; [reflexivity |]. split; [reflexivity |].
  split; [vm_compute; reflexivity |].
  intros w' Hrun. vm_compute in Hrun. injection Hrun as <-.
  cbn [hdmi scramb_enabled scramb_work work_pending log].
  split; [reflexivity |]. split; [reflexivity |].
  split; intros Hin;
    repeat (destruct Hin as [Hin | Hin]; [discriminate |]); exact Hin.
Qed.

(** A one-byte write message to the segment address, first in its batch:
    its byte goes to the segment pointer field, no register pointer is
    established and the slave register is not the byte. *)
Lemma segment_msg_byte_is_not_register_address :
  Z.land (flags segment_msg) (@I2C_M_RD sample_linux) = 0 /\
  is_regaddr (i2c (hdmi (world_of unbound_hdmi []))) = false /\
  load (buf segment_msg) 0 = 1 /\
  observe (@xfer_msg sample_regs sample_linux segment_msg 0
             (world_of unbound_hdmi []))
  = Some ((0, segment_msg),
          [RegmapUpdateBits 0xf8 0x7f 0x30;
           RegmapUpdateBits 0xf8 0x7f80 0x80]) /\
  (forall rm w',
      @xfer_msg sample_regs sample_linux segment_msg 0
        (world_of unbound_hdmi []) = Some (rm, w') ->
      is_regaddr (i2c (hdmi w')) = false /\
      slave_reg (i2c (hdmi w')) = 0 /\
      is_segment (i2c (hdmi w')) = true).
Proof.
  split; [reflexivity |]. split; [reflexivity |]. split; [reflexivity |].
  split; [vm_compute; reflexivity |].
  intros rm w' Hrun. vm_compute in Hrun. injection Hrun as <- <-.
  repeat split.
Qed.

(** ** Runs on concrete inputs *)

(** The register address is written, the first read byte arrives, the
    second wait times out: soft reset, interrupts muted, -EAGAIN, and the
    byte already received stays in the caller's buffer. *)
Example xfer_timeout_run :
  observe_xfer (@dw_hdmi_qp_i2c_xfer sample_regs sample_linux edid_batch
                  (world_of unbound_hdmi [HwIrq 1 0xab; HwSilent]))
  = Some (-11, [[0x10; 0]; [0xab; 0]],
          [RegmapUpdateBits 0x3024 5 5;
           RegmapUpdateBits 0xf4 0xfe0 0xa00;
           RegmapUpdateBits 0xf4 0xff000 0x10000;
           RegmapUpdateBits 0xf4 0x1e 4;
           RegmapRead 0x3020 1; RegmapWrite 0x3028 1; Complete;
           WaitForCompletion 25 1 1;
           RegmapRead 0x10c 0xab;
           RegmapUpdateBits 0xf4 0x1e 0;
           RegmapUpdateBits 0xf4 0xff000 0x11000;
           RegmapUpdateBits 0xf4 0x1e 4;
           WaitForCompletion 25 0 1;
           RegmapWrite 0xec 1;
           RegmapUpdateBits 0x3024 5 0]).
Proof. vm_compute. reflexivity. Qed.

(** NACK on the first byte operation: soft reset and -EIO. *)
Example xfer_nack_run :
  observe_xfer (@dw_hdmi_qp_i2c_xfer sample_regs sample_linux edid_batch
                  (world_of unbound_hdmi [HwIrq 5 0]))
  = Some (-5, [[0x10; 0]; [0; 0]],
          [RegmapUpdateBits 0x3024 5 5;
           RegmapUpdateBits 0xf4 0xfe0 0xa00;
           RegmapUpdateBits 0xf4 0xff000 0x10000;
           RegmapUpdateBits 0xf4 0x1e 4;
           RegmapRead 0x3020 5; RegmapWrite 0x3028 5; Complete;
           WaitForCompletion 25 1 5;
           RegmapWrite 0xec 1;
           RegmapUpdateBits 0x3024 5 0]).
Proof. vm_compute. reflexivity. Qed.

(** Both bytes read: the transfer returns the number of messages. *)
Example xfer_read_run :
  observe_xfer (@dw_hdmi_qp_i2c_xfer sample_regs sample_linux edid_batch
                  (world_of unbound_hdmi [HwIrq 1 0xab; HwIrq 1 0xcd]))
  = Some (2, [[0x10; 0]; [0xab; 0xcd]],
          [RegmapUpdateBits 0x3024 5 5;
           RegmapUpdateBits 0xf4 0xfe0 0xa00;
           RegmapUpdateBits 0xf4 0xff000 0x10000;
           RegmapUpdateBits 0xf4 0x1e 4;
           RegmapRead 0x3020 1; RegmapWrite 0x3028 1; Complete;
           WaitForCompletion 25 1 1;
           RegmapRead 0x10c 0xab;
           RegmapUpdateBits 0xf4 0x1e 0;
           RegmapUpdateBits 0xf4 0xff000 0x11000;
           RegmapUpdateBits 0xf4 0x1e 4;
           RegmapRead 0x3020 1; RegmapWrite 0x3028 1; Complete;
           WaitForCompletion 25 1 1;
           RegmapRead 0x10c 0xcd;
           RegmapUpdateBits 0xf4 0x1e 0;
           RegmapUpdateBits 0x3024 5 0]).
Proof. vm_compute. reflexivity. Qed.

(** A three-byte write: register address 0x20, then data 0x03 and 0x07. *)
Example xfer_write_run :
  observe_xfer (@dw_hdmi_qp_i2c_xfer sample_regs sample_linux
                  [scdc_write_msg]
                  (world_of unbound_hdmi [HwIrq 1 0; HwIrq 1 0]))
  = Some (1, [[0x20; 0x03]],
          [RegmapUpdateBits 0x3024 5 5;
           RegmapUpdateBits 0xf4 0xfe0 0xa80;
           RegmapWrite 0xfc 0x03;
           RegmapUpdateBits 0xf4 0xff000 0x20000;
           RegmapUpdateBits 0xf4 0x1e 2;
           RegmapRead 0x3020 1; RegmapWrite 0x3028 1; Complete;
           WaitForCompletion 25 1 1;
           RegmapUpdateBits 0xf4 0x1e 0;
           RegmapWrite 0xfc 0x07;
           RegmapUpdateBits 0xf4 0xff000 0x21000;
           RegmapUpdateBits 0xf4 0x1e 2;
           RegmapRead 0x3020 1; RegmapWrite 0x3028 1; Complete;
           WaitForCompletion 25 1 1;
           RegmapUpdateBits 0xf4 0x1e 0;
           RegmapUpdateBits 0x3024 5 0]).
Proof. vm_compute. reflexivity. Qed.

(** A one-byte write sets the register pointer and transmits nothing. *)
Example xfer_one_byte_write_run :
  observe_xfer (@dw_hdmi_qp_i2c_xfer sample_regs sample_linux
                  [one_byte_msg] (world_of unbound_hdmi []))
  = Some (1, [[0x10; 0]],
          [RegmapUpdateBits 0x3024 5 5;
           RegmapUpdateBits 0xf4 0xfe0 0xa00;
           RegmapUpdateBits 0x3024 5 0]).
Proof. vm_compute. reflexivity. Qed.

Example avi_encode_run :
  observe (@dw_hdmi_qp_config_avi_infoframe sample_regs sample_linux
             avi_buffer 17 (world_of unbound_hdmi []))
  = Some (0, [RegmapWrite 0xb68 0x0d0200;
              RegmapWrite 0xb6c 0x04281248;
              RegmapWrite 0xb70 0x2211005f;
              RegmapWrite 0xb74 0x66554433;
              RegmapWrite 0xb78 0x8877;
              RegmapUpdateBits 0xa98 0x1000 0;
              RegmapUpdateBits 0xaa8 0x2008 0x2008]).
Proof. vm_compute. reflexivity. Qed.

Example drm_encode_run :
  observe (@dw_hdmi_qp_config_drm_infoframe sample_regs sample_linux
             drm_buffer 30 (world_of unbound_hdmi []))
  = Some (0, [RegmapUpdateBits 0xaa8 0x20000 0;
              RegmapWrite 0xbf0 0x1a0100;
              RegmapWrite 0xbf4 0x0100023b;
              RegmapWrite 0xbf8 0x05040302;
              RegmapWrite 0xbfc 0x09080706;
              RegmapWrite 0xc00 0x0d0c0b0a;
              RegmapWrite 0xc04 0x11100f0e;
              RegmapWrite 0xc08 0x15141312;
              RegmapWrite 0xc0c 0x181716;
              RegmapUpdateBits 0xa98 0x2000 0;
              RegmapUpdateBits 0xaa8 0x20000 0x20000]).
Proof. vm_compute. reflexivity. Qed.

(** With 255 in the length byte the buffer of length 30 is still
    accepted, and the encoder loads up to offset 258. *)
Example drm_encode_reads_past_the_buffer :
  match @dw_hdmi_qp_config_drm_infoframe sample_regs sample_linux
          drm_buffer_long 30 (world_of unbound_hdmi []) with
  | Some (r, w') =>
      Some (r, existsb (Z.eqb 258) (loads w'),
            existsb (Z.eqb 259) (loads w'))
  | None => None
  end = Some (0, true, false).
Proof. vm_compute. reflexivity. Qed.

Example enable_then_disable_run :
  observe (bind (@dw_hdmi_qp_bridge_atomic_enable sample_regs sample_linux
                   (Some hdmi20_sink) (Some (mk_conn_state 594000000)))
                (fun _ => @dw_hdmi_qp_bridge_atomic_disable sample_regs)
                (world_of unbound_hdmi []))
  = Some (tt, [ScdcReadb 1 0; ScdcWriteb 2 0;
               ScdcSetHighTmdsClockRatio true; ScdcSetScrambling true;
               ScheduleDelayedWork 3000; RegmapWrite 0x960 1;
               PhyInit;
               RegmapUpdateBits 0xe00 1 1; RegmapUpdateBits 0x968 1 0;
               UpdateInfoframes;
               CancelDelayedWorkSync; RegmapWrite 0x960 0;
               ScdcSetScrambling false; ScdcSetHighTmdsClockRatio false;
               PhyDisable]).
Proof. vm_compute. reflexivity. Qed.

(** Disabling while an execution of the recheck is in flight and the sink
    has dropped scrambling: the recheck finishes inside the cancel, and
    nothing is queued or running afterwards. *)
Example disable_with_recheck_in_flight_run :
  match @dw_hdmi_qp_disable_scramb sample_regs
          (world_of scrambling_hdmi []) with
  | Some (_, w') => Some (log w', scramb_work (hdmi w'))
  | None => None
  end
  = Some ([ScdcGetScramblingStatus false;
           ScdcSetHighTmdsClockRatio true; ScdcSetScrambling true;
           ScheduleDelayedWork 3000;
           CancelDelayedWorkSync; RegmapWrite 0x960 0;
           ScdcSetScrambling false; ScdcSetHighTmdsClockRatio false],
          mk_work false false).
Proof. vm_compute. reflexivity. Qed.
(** * More properties of the I2C adapter *)

Section TransferProperties.
Context {regs : dw_hdmi_qp_h} {linux : linux_h}.

Lemma latch_range s : 0 <= latch s < 256.
Proof. apply u8_range. Qed.

(** A wait that the controller answers with a raised status bit: the
    handler latches and acknowledges the status and the sleeper wakes. *)
Lemma wait_for_completion_timeout_done t w s d rest :
  irqs w = HwIrq s d :: rest ->
  latch s <> 0 ->
  MAINUNIT_1_INT_STATUS <> I2CM_INTERFACE_RDDATA_0_3 ->
  cmp_done (i2c (hdmi w)) = 0 ->
  wait_for_completion_timeout t w
  = Some (1,
          mk_world
            (mk_hdmi (mk_i2c 0 (latch s) (slave_reg (i2c (hdmi w)))
                             (is_regaddr (i2c (hdmi w)))
                             (is_segment (i2c (hdmi w))))
                     (connector (hdmi w)) (scramb_work (hdmi w))
                     (scramb_enabled (hdmi w)))
            (fun a => if a =? I2CM_INTERFACE_RDDATA_0_3 then d
                      else if a =? MAINUNIT_1_INT_STATUS then s
                      else hw w a)
            rest (sink_scdc w) (sink_scrambling w)
            (log w ++ [RegmapRead MAINUNIT_1_INT_STATUS (u32 s);
                       RegmapWrite MAINUNIT_1_INT_CLEAR (latch s);
                       Complete;
                       WaitForCompletion t 1 (latch s)])
            (loads w)).
Proof.
  intros Hirqs Hnz Hne Hdone.
  pose proof (latch_range s) as Hrange.
  unfold wait_for_completion_timeout, dw_hdmi_qp_main_hardirq.
  run. rewrite Hirqs. run.
  apply Z.eqb_neq in Hne. rewrite Hne, Z.eqb_refl.
  fold i2c_irq_mask. fold (latch s).
  apply Z.eqb_neq in Hnz. rewrite Hnz. cbn [negb]. run.
  rewrite Hdone.
  destruct (negb (u32 s =? 0)); cbn -[u32 latch];
    rewrite (u32_small (latch s)) by lia;
    repeat rewrite <- app_assoc; reflexivity.
Qed.

Lemma i2c_read_body_done buf pos w s d rest :
  irqs w = HwIrq s d :: rest ->
  irq_done (HwIrq s d) = true ->
  MAINUNIT_1_INT_STATUS <> I2CM_INTERFACE_RDDATA_0_3 ->
  exists w',
    i2c_read_body buf pos w
    = Some ((None, store buf pos (rx_byte (HwIrq s d))), w') /\
    log w' = log w ++ read_byte_trace (is_segment (i2c (hdmi w)))
                                      (slave_reg (i2c (hdmi w)))
                                      (HwIrq s d) /\
    irqs w' = rest /\
    slave_reg (i2c (hdmi w')) = u8 (slave_reg (i2c (hdmi w)) + 1) /\
    is_segment (i2c (hdmi w')) = is_segment (i2c (hdmi w)) /\
    is_regaddr (i2c (hdmi w')) = is_regaddr (i2c (hdmi w)).
Proof.
  intros Hirqs Hdone Hne.
  cbn [irq_done] in Hdone. apply andb_true_iff in Hdone.
  destruct Hdone as [Hnz Hnack].
  apply negb_true_iff, Z.eqb_neq in Hnz.
  unfold i2c_read_body, slave_reg_postinc. run.
  destruct (is_segment (i2c (hdmi w))) eqn:Eseg; run.
  all: rewrite (wait_for_completion_timeout_done _ _ s d rest)
         by (try assumption; reflexivity).
  all: cbn -[u32 latch Z.land Z.shiftl].
  all: rewrite Hnack; cbn -[u32 latch Z.land Z.shiftl]; rewrite Z.eqb_refl.
  all: eexists; split; [reflexivity |]; cbn -[u32 latch Z.land Z.shiftl].
  all: repeat rewrite <- app_assoc; repeat split; reflexivity.
Qed.

Lemma i2c_read_loop_done rs :
  MAINUNIT_1_INT_STATUS <> I2CM_INTERFACE_RDDATA_0_3 ->
  forallb irq_done rs = true ->
  forall buf pos w rest,
  irqs w = rs ++ rest ->
  exists w',
    i2c_read_loop (length rs) buf pos w
    = Some ((None, store_all buf pos (map rx_byte rs)), w') /\
    log w' = log w ++ read_trace (is_segment (i2c (hdmi w)))
                                 (slave_reg (i2c (hdmi w))) rs /\
    irqs w' = rest /\
    u8 (slave_reg (i2c (hdmi w')))
    = u8 (slave_reg (i2c (hdmi w)) + Z.of_nat (length rs)) /\
    is_segment (i2c (hdmi w')) = is_segment (i2c (hdmi w)) /\
    is_regaddr (i2c (hdmi w')) = is_regaddr (i2c (hdmi w)).
Proof.
  intros Hne.
  induction rs as [| r rs IH]; intros Hall buf pos w rest Hirqs.
  - exists w. cbn [length i2c_read_loop map store_all read_trace].
    rewrite app_nil_r, Z.add_0_r. repeat split; try reflexivity.
    exact Hirqs.
  - cbn [forallb] in Hall. apply andb_true_iff in Hall.
    destruct Hall as [Hr Hrs].
    destruct r as [| s d]; [discriminate |].
    destruct (i2c_read_body_done buf pos w s d (rs ++ rest) Hirqs Hr Hne)
      as (w1 & Hrun1 & Hlog1 & Hirqs1 & Hreg1 & Hseg1 & Hra1).
    destruct (IH Hrs (store buf pos (rx_byte (HwIrq s d))) (pos + 1) w1 rest
                 Hirqs1)
      as (w2 & Hrun2 & Hlog2 & Hirqs2 & Hreg2 & Hseg2 & Hra2).
    exists w2.
    cbn [length i2c_read_loop map store_all read_trace].
    unfold bind at 1. rewrite Hrun1. cbn [fst snd].
    split; [exact Hrun2 |].
    split; [rewrite Hlog2, Hlog1, Hseg1, Hreg1, <- app_assoc; reflexivity |].
    split; [exact Hirqs2 |].
    split; [| split; congruence].
    rewrite Hreg2, Hreg1, u8_add_idem. f_equal. lia.
Qed.

Lemma dw_hdmi_qp_i2c_read_done :
  forall (buf : bytes) (w : world) (rs rest : list hw_response),
    MAINUNIT_1_INT_STATUS <> I2CM_INTERFACE_RDDATA_0_3 ->
    irqs w = rs ++ rest ->
    forallb irq_done rs = true ->
    let start := if is_regaddr (i2c (hdmi w))
                 then slave_reg (i2c (hdmi w)) else 0 in
    exists w',
      dw_hdmi_qp_i2c_read buf (Z.of_nat (length rs)) w
      = Some ((0, store_all buf 0 (map rx_byte rs)), w') /\
      log w' = log w ++ read_trace (is_segment (i2c (hdmi w))) start rs /\
      irqs w' = rest /\
      u8 (slave_reg (i2c (hdmi w'))) = u8 (start + Z.of_nat (length rs)) /\
      is_regaddr (i2c (hdmi w')) = true /\
      is_segment (i2c (hdmi w')) = false.
Proof.
  intros buf w rs rest Hne Hirqs Hall start.
  unfold dw_hdmi_qp_i2c_read. rewrite Nat2Z.id. run.
  destruct (is_regaddr (i2c (hdmi w))) eqn:Era; cbn [negb]; run.
  all: match goal with
       | |- context [i2c_read_loop ?n ?b ?p ?w0] =>
           destruct (i2c_read_loop_done rs Hne Hall buf 0 w0 rest Hirqs)
             as (w1 & Hrun & Hlog & Hirqs1 & Hreg & Hseg & Hra)
       end.
  all: rewrite Hrun; cbn [fst snd]; run.
  all: eexists; split; [reflexivity |].
  all: cbn [hdmi hw irqs log i2c slave_reg is_regaddr is_segment] in *.
  all: repeat split; try assumption; try reflexivity; congruence.
Qed.

Lemma i2c_write_body_done buf pos w s d rest :
  irqs w = HwIrq s d :: rest ->
  irq_done (HwIrq s d) = true ->
  MAINUNIT_1_INT_STATUS <> I2CM_INTERFACE_RDDATA_0_3 ->
  exists w',
    i2c_write_body buf pos w = Some (None, w') /\
    log w' = log w ++ write_byte_trace (slave_reg (i2c (hdmi w)))
                                       (load buf pos) (HwIrq s d) /\
    irqs w' = rest /\
    slave_reg (i2c (hdmi w')) = u8 (slave_reg (i2c (hdmi w)) + 1) /\
    is_segment (i2c (hdmi w')) = is_segment (i2c (hdmi w)) /\
    is_regaddr (i2c (hdmi w')) = is_regaddr (i2c (hdmi w)).
Proof.
  intros Hirqs Hdone Hne.
  cbn [irq_done] in Hdone. apply andb_true_iff in Hdone.
  destruct Hdone as [Hnz Hnack].
  apply negb_true_iff, Z.eqb_neq in Hnz.
  unfold i2c_write_body, slave_reg_postinc. run.
  rewrite (wait_for_completion_timeout_done _ _ s d rest)
    by (try assumption; reflexivity).
  cbn -[u32 latch Z.land Z.shiftl load].
  rewrite Hnack; cbn -[u32 latch Z.land Z.shiftl load].
  eexists; split; [reflexivity |]; cbn -[u32 latch Z.land Z.shiftl load].
  repeat rewrite <- app_assoc; repeat split; reflexivity.
Qed.

Lemma i2c_write_loop_done rs :
  MAINUNIT_1_INT_STATUS <> I2CM_INTERFACE_RDDATA_0_3 ->
  forallb irq_done rs = true ->
  forall buf pos w rest,
  irqs w = rs ++ rest ->
  exists w',
    i2c_write_loop (length rs) buf pos w = Some (0, w') /\
    log w' = log w ++ write_trace buf pos (slave_reg (i2c (hdmi w))) rs /\
    irqs w' = rest /\
    u8 (slave_reg (i2c (hdmi w')))
    = u8 (slave_reg (i2c (hdmi w)) + Z.of_nat (length rs)) /\
    is_segment (i2c (hdmi w')) = is_segment (i2c (hdmi w)) /\
    is_regaddr (i2c (hdmi w')) = is_regaddr (i2c (hdmi w)).
Proof.
  intros Hne.
  induction rs as [| r rs IH]; intros Hall buf pos w rest Hirqs.
  - exists w. cbn [length i2c_write_loop write_trace].
    rewrite app_nil_r, Z.add_0_r. repeat split; try reflexivity.
    exact Hirqs.
  - cbn [forallb] in Hall. apply andb_true_iff in Hall.
    destruct Hall as [Hr Hrs].
    destruct r as [| s d]; [discriminate |].
    destruct (i2c_write_body_done buf pos w s d (rs ++ rest) Hirqs Hr Hne)
      as (w1 & Hrun1 & Hlog1 & Hirqs1 & Hreg1 & Hseg1 & Hra1).
    destruct (IH Hrs buf (pos + 1) w1 rest Hirqs1)
      as (w2 & Hrun2 & Hlog2 & Hirqs2 & Hreg2 & Hseg2 & Hra2).
    exists w2.
    cbn [length i2c_write_loop write_trace].
    unfold bind at 1. rewrite Hrun1.
    split; [exact Hrun2 |].
    split; [rewrite Hlog2, Hlog1, Hreg1, <- app_assoc; reflexivity |].
    split; [exact Hirqs2 |].
    split; [| split; congruence].
    rewrite Hreg2, Hreg1, u8_add_idem. f_equal. lia.
Qed.

(** A write whose data bytes the controller all completes without NACK
    returns 0.  When no register pointer is set the first byte of the
    buffer becomes the pointer and is not transmitted; the remaining
    bytes go to the write-data register in order, each before the slave
    register address, counting up modulo 256, and the write command.
    The register pointer is left set and, unlike after a read, the
    segment flag is left as it was. *)
Theorem i2c_write_all_bytes_done :
  forall (buf : bytes) (w : world) (rs rest : list hw_response),
    MAINUNIT_1_INT_STATUS <> I2CM_INTERFACE_RDDATA_0_3 ->
    irqs w = rs ++ rest ->
    forallb irq_done rs = true ->
    Z.of_nat (length rs) < 2 ^ 32 ->
    let skip := if is_regaddr (i2c (hdmi w)) then 0 else 1 in
    let start := if is_regaddr (i2c (hdmi w))
                 then slave_reg (i2c (hdmi w)) else load buf 0 in
    exists w',
      dw_hdmi_qp_i2c_write buf (Z.of_nat (length rs) + skip) w
      = Some (0, w') /\
      log w' = log w ++ write_trace buf skip start rs /\
      irqs w' = rest /\
      u8 (slave_reg (i2c (hdmi w'))) = u8 (start + Z.of_nat (length rs)) /\
      is_regaddr (i2c (hdmi w')) = true /\
      is_segment (i2c (hdmi w')) = is_segment (i2c (hdmi w)).
Proof.
  intros buf w rs rest Hne Hirqs Hall Hlen skip start.
  unfold dw_hdmi_qp_i2c_write. run.
  destruct (is_regaddr (i2c (hdmi w))) eqn:Era; cbn [negb]; run;
    subst skip start.
  - rewrite Z.add_0_r, Nat2Z.id.
    destruct (i2c_write_loop_done rs Hne Hall buf 0 w rest Hirqs)
      as (w1 & Hrun & Hlog & Hirqs1 & Hreg & Hseg & Hra).
    exists w1. repeat split; try assumption; congruence.
  - replace (Z.of_nat (length rs) + 1 - 1) with (Z.of_nat (length rs))
      by lia.
    rewrite u32_small by lia. rewrite Nat2Z.id.
    match goal with
    | |- context [i2c_write_loop ?n ?b ?p ?w0] =>
        destruct (i2c_write_loop_done rs Hne Hall buf 1 w0 rest Hirqs)
          as (w1 & Hrun & Hlog & Hirqs1 & Hreg & Hseg & Hra)
    end.
    cbn [hdmi hw irqs log i2c slave_reg is_regaddr is_segment] in *.
    exists w1. repeat split; try assumption; congruence.
Qed.

Lemma rx_byte_range r : 0 <= rx_byte r < 256.
Proof.
  destruct r as [| s d]; cbn [rx_byte]; [lia |].
  apply land_low_byte_range. lia.
Qed.

Lemma store_all_load ds :
  forall buf pos i,
    load (store_all buf pos ds) i
    = if (pos <=? i) && (i <? pos + Z.of_nat (length ds))
      then u8 (nth (Z.to_nat (i - pos)) ds 0)
      else load buf i.
Proof.
  induction ds as [| d ds IH]; intros buf pos i.
  - cbn [store_all length nth].
    destruct (pos <=? i) eqn:E1; destruct (i <? pos + Z.of_nat 0) eqn:E2;
      try reflexivity.
    apply Z.leb_le in E1. apply Z.ltb_lt in E2. lia.
  - cbn [store_all length]. rewrite IH. unfold load, store. cbv beta.
    replace (pos + Z.of_nat (S (length ds)))
      with (pos + 1 + Z.of_nat (length ds)) by lia.
    destruct (Z.leb_spec (pos + 1) i); destruct (Z.leb_spec pos i);
      destruct (Z.ltb_spec i (pos + 1 + Z.of_nat (length ds)));
      destruct (Z.eqb_spec i pos); cbn [andb]; try lia; try reflexivity.
    + replace (Z.to_nat (i - pos)) with (S (Z.to_nat (i - (pos + 1))))
        by lia.
      reflexivity.
    + subst i. rewrite Z.sub_diag. cbn [Z.to_nat nth]. apply u8_idem.
Qed.

(** A read of as many bytes as the controller completes without
    NACK returns 0 and stores, at offsets 0, 1, ... of the buffer, the low
    byte of the data register after each completion, leaving the rest of
    the buffer alone.  Before each wait it programs the slave register
    address, counting up modulo 256 from the register pointer (from 0
    when no pointer was set), and issues the extended read command if the
    segment flag is set and the plain read command otherwise; after each
    wait it reads the data register once and clears the strobe field.
    It consumes exactly those completions, leaves the register pointer
    set and clears the segment flag. *)
Theorem i2c_read_all_bytes_done :
  forall (buf : bytes) (w : world) (rs rest : list hw_response),
    MAINUNIT_1_INT_STATUS <> I2CM_INTERFACE_RDDATA_0_3 ->
    irqs w = rs ++ rest ->
    forallb irq_done rs = true ->
    let n := Z.of_nat (length rs) in
    let start := if is_regaddr (i2c (hdmi w))
                 then slave_reg (i2c (hdmi w)) else 0 in
    exists buf' w',
      dw_hdmi_qp_i2c_read buf n w = Some ((0, buf'), w') /\
      (forall i, 0 <= i < n ->
                 load buf' i = rx_byte (nth (Z.to_nat i) rs HwSilent)) /\
      (forall i, i < 0 \/ n <= i -> load buf' i = load buf i) /\
      log w' = log w ++ read_trace (is_segment (i2c (hdmi w))) start rs /\
      irqs w' = rest /\
      u8 (slave_reg (i2c (hdmi w'))) = u8 (start + n) /\
      is_regaddr (i2c (hdmi w')) = true /\
      is_segment (i2c (hdmi w')) = false.
Proof.
  intros buf w rs rest Hne Hirqs Hall n start.
  destruct (dw_hdmi_qp_i2c_read_done buf w rs rest Hne Hirqs Hall)
    as (w' & Hrun & Hrest).
  exists (store_all buf 0 (map rx_byte rs)), w'.
  split; [exact Hrun |].
  split; [| split; [| exact Hrest]].
  - intros i Hi. rewrite store_all_load, length_map.
    fold n. rewrite Z.sub_0_r.
    destruct (Z.leb_spec 0 i); [| lia].
    destruct (Z.ltb_spec i (0 + n)); [| lia]. cbn [andb].
    change 0 with (rx_byte HwSilent) at 1. rewrite map_nth.
    unfold u8. apply Z.mod_small. apply rx_byte_range.
  - intros i Hi. rewrite store_all_load, length_map. fold n.
    destruct (Z.leb_spec 0 i); destruct (Z.ltb_spec i (0 + n));
      cbn [andb]; try reflexivity; lia.
Qed.

Lemma existsb_len_zero msgs :
  Forall (fun m => len m <> 0) msgs ->
  existsb (fun m => len m =? 0) msgs = false.
Proof.
  induction 1 as [| m l Hm _ IH]; [reflexivity |].
  cbn [existsb]. rewrite IH. apply Z.eqb_neq in Hm. rewrite Hm. reflexivity.
Qed.

(** Every accepted batch (first address not 0x37, no empty message)
    unmutes the DONE and NACK interrupts and programs the slave address
    of the first message before anything else, and mutes the two
    interrupts again as its last call, whether the messages went through
    or not.  It returns the number of messages when every wait was
    answered without NACK, and otherwise the negative error of the byte
    operation that failed, after which it made no further wait. *)
Theorem xfer_accepted_is_bracketed :
  forall (msgs : list i2c_msg) (m0 : i2c_msg) (w : world),
    0 < EAGAIN -> 0 < EIO ->
    hd_error msgs = Some m0 ->
    u8 (addr m0) <> DDC_CI_ADDR ->
    Forall (fun m => len m <> 0) msgs ->
    exists r msgs' w' L,
      dw_hdmi_qp_i2c_xfer msgs w = Some ((r, msgs'), w') /\
      log w' = log w ++ unmute_irqs :: slave_addr_update m0 :: L
                     ++ [mute_irqs] /\
      ((r = Z.of_nat (length msgs) /\ all_waits_ok L) \/
       (r < 0 /\ ends_in_failure r L)).
Proof.
  intros msgs m0 w Hagain Hio Hhd Hci Hlen.
  destruct msgs as [| m rest]; [discriminate |].
  injection Hhd as ->.
  unfold dw_hdmi_qp_i2c_xfer.
  apply Z.eqb_neq in Hci. rewrite Hci.
  rewrite (existsb_len_zero _ Hlen). run.
  match goal with
  | |- context [xfer_msgs ?ms 0 ?w0] =>
      destruct (xfer_msgs_spec ms Hagain Hio w0)
        as (rr & w1 & L & [Hrun Hlog] & Hshape)
  end.
  rewrite Hrun. cbn [log] in Hlog.
  destruct Hshape as [[Hr Hok] | [Hr Hf]].
  - rewrite Hr. cbn [Z.eqb].
    eexists _, _, _, L. split; [reflexivity |]. cbn [log].
    split; [| left; split; [reflexivity | exact Hok]].
    rewrite Hlog. repeat rewrite <- app_assoc. reflexivity.
  - assert (Hnz : (fst rr =? 0) = false) by (apply Z.eqb_neq; lia).
    rewrite Hnz.
    eexists _, _, _, L. split; [reflexivity |]. cbn [log].
    split; [| right; split; assumption].
    rewrite Hlog. repeat rewrite <- app_assoc. reflexivity.
Qed.

(** The pair of messages of an EDID read, a one-byte write of the start
    offset and a read, run from a state without register pointer. *)
Lemma offset_write_then_read_done a1 a2 wf rf wbuf rbuf rs rest w :
  MAINUNIT_1_INT_STATUS <> I2CM_INTERFACE_RDDATA_0_3 ->
  is_regaddr (i2c (hdmi w)) = false ->
  a1 <> DDC_SEGMENT_ADDR ->
  Z.land wf I2C_M_RD = 0 ->
  (a2 =? DDC_SEGMENT_ADDR) && (Z.of_nat (length rs) =? 1) = false ->
  Z.land rf I2C_M_RD <> 0 ->
  irqs w = rs ++ rest ->
  forallb irq_done rs = true ->
  exists w',
    xfer_msgs [mk_msg a1 wf 1 wbuf;
               mk_msg a2 rf (Z.of_nat (length rs)) rbuf] 0 w
    = Some ((0, [mk_msg a1 wf 1 wbuf;
                 mk_msg a2 rf (Z.of_nat (length rs))
                        (store_all rbuf 0 (map rx_byte rs))]), w') /\
    log w' = log w ++ read_trace (is_segment (i2c (hdmi w)))
                                 (load wbuf 0) rs /\
    irqs w' = rest /\
    is_segment (i2c (hdmi w')) = false.
Proof.
  intros Hne Hra Ha1 Hwf Ha2 Hrf Hirqs Hall.
  apply Z.eqb_neq in Ha1. apply Z.eqb_neq in Hrf.
  cbn [xfer_msgs]. unfold xfer_msg at 1.
  cbn [addr flags len buf]. rewrite Ha1, Hwf. cbn [andb Z.eqb negb].
  unfold dw_hdmi_qp_i2c_write. run. rewrite Hra. cbn [negb]. run.
  change (Z.to_nat (u32 (1 - 1))) with 0%nat. cbn [i2c_write_loop]. run.
  cbn [Z.ltb Z.compare].
  unfold xfer_msg. cbn [addr flags len buf]. rewrite Ha2, Hrf.
  cbn [negb]. run.
  match goal with
  | |- context [dw_hdmi_qp_i2c_read ?b ?n ?w0] =>
      destruct (dw_hdmi_qp_i2c_read_done b w0 rs rest Hne Hirqs Hall)
        as (w1 & Hrun & Hlog & Hirqs1 & _ & _ & Hseg)
  end.
  cbn [hdmi log i2c slave_reg is_regaddr is_segment] in Hrun, Hlog.
  rewrite Hrun. cbn [fst snd Z.ltb Z.compare].
  exists w1. repeat split; assumption.
Qed.

(** The two-message EDID read, a one-byte write of the start offset
    followed by a read of n > 0 bytes, on a sink that answers every byte:
    the call returns 2; the offset byte is never handed to the write-data
    register and no wait is made for it, it is the slave register address
    of the first byte read; the reads use the plain read command and fill
    the read buffer in order; the write message is returned untouched. *)
Theorem edid_read_transfer :
  forall (a1 a2 wf rf : Z) (wbuf rbuf : bytes)
         (rs rest : list hw_response) (w : world),
    MAINUNIT_1_INT_STATUS <> I2CM_INTERFACE_RDDATA_0_3 ->
    u8 a1 <> DDC_CI_ADDR ->
    a1 <> DDC_SEGMENT_ADDR ->
    Z.land wf I2C_M_RD = 0 ->
    (a2 =? DDC_SEGMENT_ADDR) && (Z.of_nat (length rs) =? 1) = false ->
    Z.land rf I2C_M_RD <> 0 ->
    rs <> [] ->
    irqs w = rs ++ rest ->
    forallb irq_done rs = true ->
    let m1 := mk_msg a1 wf 1 wbuf in
    let n := Z.of_nat (length rs) in
    exists w',
      dw_hdmi_qp_i2c_xfer [m1; mk_msg a2 rf n rbuf] w
      = Some ((2, [m1; mk_msg a2 rf n (store_all rbuf 0 (map rx_byte rs))]),
              w') /\
      log w' = log w ++ unmute_irqs :: slave_addr_update m1
                     :: read_trace false (load wbuf 0) rs ++ [mute_irqs] /\
      irqs w' = rest.
Proof.
  intros a1 a2 wf rf wbuf rbuf rs rest w Hne Hci Ha1 Hwf Ha2 Hrf Hnil
         Hirqs Hall m1 n.
  unfold dw_hdmi_qp_i2c_xfer. subst m1 n. cbn [addr len].
  apply Z.eqb_neq in Hci. rewrite Hci.
  assert (Hn : (Z.of_nat (length rs) =? 0) = false)
    by (apply Z.eqb_neq; destruct rs; [congruence | cbn [length]; lia]).
  cbn [existsb len Z.eqb orb]. rewrite Hn. cbn [orb]. run.
  match goal with
  | |- context [xfer_msgs ?ms 0 ?w0] =>
      destruct (offset_write_then_read_done a1 a2 wf rf wbuf rbuf rs rest w0
                  Hne eq_refl Ha1 Hwf Ha2 Hrf Hirqs Hall)
        as (w1 & Hrun & Hlog & Hirqs1 & _)
  end.
  cbn [hdmi log i2c is_segment] in Hrun, Hlog.
  rewrite Hrun. cbn [fst snd Z.eqb length Z.of_nat Pos.of_succ_nat
                     Pos.succ].
  eexists. split; [reflexivity |]. cbn [log irqs].
  split; [| exact Hirqs1].
  rewrite Hlog. unfold unmute_irqs, slave_addr_update. cbn [addr len].
  repeat rewrite <- app_assoc. reflexivity.
Qed.

(** A one-byte message to the segment address: no wait, two updates. *)
Lemma xfer_msg_segment sf sbuf r w :
  xfer_msg (mk_msg DDC_SEGMENT_ADDR sf 1 sbuf) r w
  = Some ((r, mk_msg DDC_SEGMENT_ADDR sf 1 sbuf),
          mk_world
            (mk_hdmi (with_is_segment true (i2c (hdmi w)))
                     (connector (hdmi w)) (scramb_work (hdmi w))
                     (scramb_enabled (hdmi w)))
            (hw w) (irqs w) (sink_scdc w) (sink_scrambling w)
            (log w ++
             [RegmapUpdateBits I2CM_INTERFACE_CONTROL1 (u32 I2CM_SEG_ADDR)
                               (u32 DDC_SEGMENT_ADDR);
              RegmapUpdateBits I2CM_INTERFACE_CONTROL1 (u32 I2CM_SEG_PTR)
                               (u32 (Z.shiftl (load sbuf 0) 7))])
            (loads w)).
Proof.
  unfold xfer_msg. cbn [addr len buf].
  change ((DDC_SEGMENT_ADDR =? DDC_SEGMENT_ADDR) && (1 =? 1)) with true.
  cbv iota. run. rewrite <- app_assoc. reflexivity.
Qed.

(** The three-message E-DDC read, a one-byte message to the segment
    address 0x30 in front of the offset write and the read: the call
    returns 3; the slave address programmed is the EDID address, not
    0x30; the segment message causes no wait, it programs the segment
    address and, shifted into the segment pointer field, its byte; and
    every byte of the read uses the extended read command. *)
Theorem edid_segment_read_transfer :
  forall (sf a1 a2 wf rf : Z) (sbuf wbuf rbuf : bytes)
         (rs rest : list hw_response) (w : world),
    MAINUNIT_1_INT_STATUS <> I2CM_INTERFACE_RDDATA_0_3 ->
    a1 <> DDC_SEGMENT_ADDR ->
    Z.land wf I2C_M_RD = 0 ->
    (a2 =? DDC_SEGMENT_ADDR) && (Z.of_nat (length rs) =? 1) = false ->
    Z.land rf I2C_M_RD <> 0 ->
    rs <> [] ->
    irqs w = rs ++ rest ->
    forallb irq_done rs = true ->
    let ms := mk_msg DDC_SEGMENT_ADDR sf 1 sbuf in
    let m1 := mk_msg a1 wf 1 wbuf in
    let n := Z.of_nat (length rs) in
    exists w',
      dw_hdmi_qp_i2c_xfer [ms; m1; mk_msg a2 rf n rbuf] w
      = Some ((3, [ms; m1;
                   mk_msg a2 rf n (store_all rbuf 0 (map rx_byte rs))]),
              w') /\
      log w' = log w ++
        [unmute_irqs;
         RegmapUpdateBits I2CM_INTERFACE_CONTROL0 (u32 I2CM_SLVADDR)
                          (u32 (Z.shiftl DDC_ADDR 5));
         RegmapUpdateBits I2CM_INTERFACE_CONTROL1 (u32 I2CM_SEG_ADDR)
                          (u32 DDC_SEGMENT_ADDR);
         RegmapUpdateBits I2CM_INTERFACE_CONTROL1 (u32 I2CM_SEG_PTR)
                          (u32 (Z.shiftl (load sbuf 0) 7))]
        ++ read_trace true (load wbuf 0) rs ++ [mute_irqs] /\
      irqs w' = rest /\
      is_segment (i2c (hdmi w')) = false.
Proof.
  intros sf a1 a2 wf rf sbuf wbuf rbuf rs rest w Hne Ha1 Hwf Ha2 Hrf Hnil
         Hirqs Hall ms m1 n.
  unfold dw_hdmi_qp_i2c_xfer. subst ms m1 n. cbn [addr len].
  change (u8 DDC_SEGMENT_ADDR =? DDC_CI_ADDR) with false.
  assert (Hn : (Z.of_nat (length rs) =? 0) = false)
    by (apply Z.eqb_neq; destruct rs; [congruence | cbn [length]; lia]).
  cbn [existsb len Z.eqb orb]. rewrite Hn. cbn [orb]. run.
  change (u8 DDC_SEGMENT_ADDR =? DDC_SEGMENT_ADDR) with true.
  cbn [andb Z.eqb].
  cbn [xfer_msgs]. unfold bind at 1. rewrite xfer_msg_segment.
  cbn [fst snd Z.ltb Z.compare]. unfold bind at 1.
  match goal with
  | |- context [bind (xfer_msg ?x1 0) ?k ?w0] =>
      change (bind (xfer_msg x1 0) k w0)
        with (xfer_msgs [mk_msg a1 wf 1 wbuf;
                         mk_msg a2 rf (Z.of_nat (length rs)) rbuf] 0 w0);
      set (W := w0);
      destruct (offset_write_then_read_done a1 a2 wf rf wbuf rbuf rs rest W
                  Hne eq_refl Ha1 Hwf Ha2 Hrf Hirqs Hall)
        as (w1 & Hrun & Hlog & Hirqs1 & Hseg)
  end.
  rewrite Hrun. cbn [fst snd Z.eqb length Z.of_nat Pos.of_succ_nat
                     Pos.succ]. run.
  eexists. split; [reflexivity |]. cbn [log irqs hdmi i2c is_segment].
  split; [| split; assumption].
  rewrite Hlog. subst W. cbn [log hdmi i2c is_segment with_is_segment].
  unfold unmute_irqs.
  repeat rewrite <- app_assoc. reflexivity.
Qed.

(** ** Byte operations that fail *)

(** A wait during which the controller stays silent. *)
Lemma wait_for_completion_timeout_silent t w :
  hd HwSilent (irqs w) = HwSilent ->
  cmp_done (i2c (hdmi w)) = 0 ->
  exists w',
    wait_for_completion_timeout t w = Some (0, w') /\
    log w' = log w ++ [WaitForCompletion t 0 (stat (i2c (hdmi w)))] /\
    irqs w' = tl (irqs w) /\
    hdmi w' = hdmi w.
Proof.
  intros Hhd Hdone.
  unfold wait_for_completion_timeout. run.
  destruct (irqs w) as [| r rest] eqn:Hirqs;
    [| cbn [hd] in Hhd; subst r]; run; rewrite Hdone; run;
    eexists; split; try reflexivity; cbn [log irqs hdmi tl];
    repeat split; try reflexivity; congruence.
Qed.

(** A wait during which the controller raises the interrupt with none
    of the three I2C bits. *)
Lemma wait_for_completion_timeout_spurious t w s d rest :
  irqs w = HwIrq s d :: rest ->
  latch s = 0 ->
  MAINUNIT_1_INT_STATUS <> I2CM_INTERFACE_RDDATA_0_3 ->
  cmp_done (i2c (hdmi w)) = 0 ->
  exists w',
    wait_for_completion_timeout t w = Some (0, w') /\
    log w' = log w ++ [RegmapRead MAINUNIT_1_INT_STATUS (u32 s);
                       WaitForCompletion t 0 0] /\
    irqs w' = rest /\
    slave_reg (i2c (hdmi w')) = slave_reg (i2c (hdmi w)) /\
    is_segment (i2c (hdmi w')) = is_segment (i2c (hdmi w)) /\
    is_regaddr (i2c (hdmi w')) = is_regaddr (i2c (hdmi w)).
Proof.
  intros Hirqs Hz Hne Hdone.
  unfold wait_for_completion_timeout, dw_hdmi_qp_main_hardirq.
  run. rewrite Hirqs. run.
  apply Z.eqb_neq in Hne. rewrite Hne, Z.eqb_refl.
  fold i2c_irq_mask. fold (latch s). rewrite Hz.
  cbn [Z.eqb negb]. run. rewrite Hdone.
  destruct (negb (u32 s =? 0)); cbn [Z.ltb Z.compare];
    eexists; (split; [reflexivity |]); cbn [log irqs hdmi i2c slave_reg
                                            is_segment is_regaddr];
    rewrite <- ?app_assoc; repeat split; reflexivity.
Qed.

Lemma irq_done_false_cases s d :
  irq_done (HwIrq s d) = false ->
  latch s = 0 \/
  (latch s <> 0 /\ Z.land (latch s) I2CM_NACK_RCVD_IRQ <> 0).
Proof.
  cbn [irq_done]. intros H.
  destruct (Z.eqb_spec (latch s) 0) as [Hz | Hz]; [left; exact Hz |].
  right. split; [exact Hz |].
  cbn [negb andb] in H. apply Z.eqb_neq in H. exact H.
Qed.

Lemma i2c_read_body_failed buf pos w :
  irq_done (hd HwSilent (irqs w)) = false ->
  MAINUNIT_1_INT_STATUS <> I2CM_INTERFACE_RDDATA_0_3 ->
  exists w' stale,
    i2c_read_body buf pos w
    = Some ((Some (byte_error (hd HwSilent (irqs w))), buf), w') /\
    log w' = log w ++ read_request (is_segment (i2c (hdmi w)))
                                   (slave_reg (i2c (hdmi w)))
                   ++ failed_wait stale (hd HwSilent (irqs w))
                   ++ [soft_reset] /\
    irqs w' = tl (irqs w).
Proof.
  intros Hfail Hne.
  unfold i2c_read_body, slave_reg_postinc, read_request. run.
  destruct (is_segment (i2c (hdmi w))) eqn:Eseg; run.
  all: destruct (irqs w) as [| [| s d] rest] eqn:Hirqs; cbn [hd tl] in *.
  all: try (destruct (irq_done_false_cases s d Hfail) as [Hz | [Hnz Hnack]]).
  (* silent *)
  all: try solve
    [ match goal with
      | |- context [wait_for_completion_timeout ?t ?w0] =>
          destruct (wait_for_completion_timeout_silent t w0
                      ltac:(reflexivity) ltac:(reflexivity))
            as (w1 & Hrun & Hlog & Hirqs1 & Hhdmi);
          rewrite Hrun
      end;
      cbn [log irqs hdmi i2c stat tl] in Hlog, Hirqs1;
      cbn [byte_error failed_wait Z.eqb]; change (u32 1) with 1;
      eexists _, _; (split; [reflexivity |]); cbn [log irqs];
      rewrite Hlog, Hirqs1, <- ?app_assoc; split; reflexivity ].
  (* the interrupt without an I2C bit *)
  all: try solve
    [ match goal with
      | |- context [wait_for_completion_timeout ?t ?w0] =>
          destruct (wait_for_completion_timeout_spurious t w0 s d rest
                      ltac:(reflexivity) Hz Hne ltac:(reflexivity))
            as (w1 & Hrun & Hlog & Hirqs1 & _);
          rewrite Hrun
      end;
      cbn [log irqs hdmi i2c stat tl] in Hlog, Hirqs1;
      cbn [byte_error failed_wait]; rewrite Hz;
      cbn [Z.eqb]; change (u32 1) with 1;
      eexists _, 0; (split; [reflexivity |]); cbn [log irqs];
      rewrite Hlog, Hirqs1, <- ?app_assoc; split; reflexivity ].
  (* the interrupt with NACK *)
  all: rewrite (wait_for_completion_timeout_done _ _ s d rest)
         by (try assumption; reflexivity).
  all: cbn -[u32 latch Z.land Z.shiftl].
  all: apply Z.eqb_neq in Hnack; rewrite Hnack; cbn [negb].
  all: apply Z.eqb_neq in Hnz; rewrite Hnz.
  all: change (u32 1) with 1.
  all: eexists _, 0; (split; [reflexivity |]); cbn [log irqs].
  all: rewrite <- ?app_assoc; split; reflexivity.
Qed.

Lemma i2c_write_body_failed buf pos w :
  irq_done (hd HwSilent (irqs w)) = false ->
  MAINUNIT_1_INT_STATUS <> I2CM_INTERFACE_RDDATA_0_3 ->
  exists w' stale,
    i2c_write_body buf pos w
    = Some (Some (byte_error (hd HwSilent (irqs w))), w') /\
    log w' = log w ++ write_request (slave_reg (i2c (hdmi w)))
                                    (load buf pos)
                   ++ failed_wait stale (hd HwSilent (irqs w))
                   ++ [soft_reset] /\
    irqs w' = tl (irqs w).
Proof.
  intros Hfail Hne.
  unfold i2c_write_body, slave_reg_postinc, write_request. run.
  destruct (irqs w) as [| [| s d] rest] eqn:Hirqs; cbn [hd tl] in *.
  all: try (destruct (irq_done_false_cases s d Hfail) as [Hz | [Hnz Hnack]]).
  all: try solve
    [ match goal with
      | |- context [wait_for_completion_timeout ?t ?w0] =>
          destruct (wait_for_completion_timeout_silent t w0
                      ltac:(reflexivity) ltac:(reflexivity))
            as (w1 & Hrun & Hlog & Hirqs1 & Hhdmi);
          rewrite Hrun
      end;
      cbn [log irqs hdmi i2c stat tl] in Hlog, Hirqs1;
      cbn [byte_error failed_wait Z.eqb]; change (u32 1) with 1;
      eexists _, _; (split; [reflexivity |]); cbn [log irqs];
      rewrite Hlog, Hirqs1, <- ?app_assoc; split; reflexivity ].
  all: try solve
    [ match goal with
      | |- context [wait_for_completion_timeout ?t ?w0] =>
          destruct (wait_for_completion_timeout_spurious t w0 s d rest
                      ltac:(reflexivity) Hz Hne ltac:(reflexivity))
            as (w1 & Hrun & Hlog & Hirqs1 & _);
          rewrite Hrun
      end;
      cbn [log irqs hdmi i2c stat tl] in Hlog, Hirqs1;
      cbn [byte_error failed_wait]; rewrite Hz;
      cbn [Z.eqb]; change (u32 1) with 1;
      eexists _, 0; (split; [reflexivity |]); cbn [log irqs];
      rewrite Hlog, Hirqs1, <- ?app_assoc; split; reflexivity ].
  all: rewrite (wait_for_completion_timeout_done _ _ s d rest)
         by (try assumption; reflexivity).
  all: cbn -[u32 latch Z.land Z.shiftl load].
  all: apply Z.eqb_neq in Hnack; rewrite Hnack; cbn [negb].
  all: apply Z.eqb_neq in Hnz; rewrite Hnz.
  all: change (u32 1) with 1.
  all: eexists _, 0; (split; [reflexivity |]); cbn [log irqs].
  all: rewrite <- ?app_assoc; split; reflexivity.
Qed.

Lemma i2c_read_loop_failed rs :
  MAINUNIT_1_INT_STATUS <> I2CM_INTERFACE_RDDATA_0_3 ->
  forallb irq_done rs = true ->
  forall n buf pos w rest,
    irqs w = rs ++ rest ->
    irq_done (hd HwSilent rest) = false ->
    exists w' stale,
      i2c_read_loop (length rs + S n) buf pos w
      = Some ((Some (byte_error (hd HwSilent rest)),
               store_all buf pos (map rx_byte rs)), w') /\
      log w' = log w ++ read_trace_failed (is_segment (i2c (hdmi w)))
                                          (slave_reg (i2c (hdmi w)))
                                          rs stale (hd HwSilent rest) /\
      irqs w' = tl rest.
Proof.
  intros Hne.
  induction rs as [| r rs IH]; intros Hall n buf pos w rest Hirqs Hfail.
  - cbn [app] in Hirqs. subst rest.
    cbn [length Nat.add i2c_read_loop map store_all read_trace_failed].
    destruct (i2c_read_body_failed buf pos w Hfail Hne)
      as (w1 & stale & Hrun & Hlog & Hirqs1).
    exists w1, stale. unfold bind at 1. rewrite Hrun. cbn [fst snd].
    repeat split; assumption.
  - cbn [forallb] in Hall. apply andb_true_iff in Hall.
    destruct Hall as [Hr Hrs].
    destruct r as [| s d]; [discriminate |].
    destruct (i2c_read_body_done buf pos w s d (rs ++ rest) Hirqs Hr Hne)
      as (w1 & Hrun1 & Hlog1 & Hirqs1 & Hreg1 & Hseg1 & Hra1).
    destruct (IH Hrs n (store buf pos (rx_byte (HwIrq s d))) (pos + 1) w1
                 rest Hirqs1 Hfail)
      as (w2 & stale & Hrun2 & Hlog2 & Hirqs2).
    exists w2, stale.
    cbn [length Nat.add i2c_read_loop map store_all read_trace_failed].
    unfold bind at 1. rewrite Hrun1. cbn [fst snd].
    split; [exact Hrun2 |].
    split; [| exact Hirqs2].
    rewrite Hlog2, Hlog1, Hseg1, Hreg1, <- app_assoc. reflexivity.
Qed.

Lemma i2c_write_loop_failed rs :
  MAINUNIT_1_INT_STATUS <> I2CM_INTERFACE_RDDATA_0_3 ->
  forallb irq_done rs = true ->
  forall n buf pos w rest,
    irqs w = rs ++ rest ->
    irq_done (hd HwSilent rest) = false ->
    exists w' stale,
      i2c_write_loop (length rs + S n) buf pos w
      = Some (byte_error (hd HwSilent rest), w') /\
      log w' = log w ++ write_trace_failed buf pos
                                           (slave_reg (i2c (hdmi w)))
                                           rs stale (hd HwSilent rest) /\
      irqs w' = tl rest.
Proof.
  intros Hne.
  induction rs as [| r rs IH]; intros Hall n buf pos w rest Hirqs Hfail.
  - cbn [app] in Hirqs. subst rest.
    cbn [length Nat.add i2c_write_loop write_trace_failed].
    destruct (i2c_write_body_failed buf pos w Hfail Hne)
      as (w1 & stale & Hrun & Hlog & Hirqs1).
    exists w1, stale. unfold bind at 1. rewrite Hrun.
    repeat split; assumption.
  - cbn [forallb] in Hall. apply andb_true_iff in Hall.
    destruct Hall as [Hr Hrs].
    destruct r as [| s d]; [discriminate |].
    destruct (i2c_write_body_done buf pos w s d (rs ++ rest) Hirqs Hr Hne)
      as (w1 & Hrun1 & Hlog1 & Hirqs1 & Hreg1 & Hseg1 & Hra1).
    destruct (IH Hrs n buf (pos + 1) w1 rest Hirqs1 Hfail)
      as (w2 & stale & Hrun2 & Hlog2 & Hirqs2).
    exists w2, stale.
    cbn [length Nat.add i2c_write_loop write_trace_failed].
    unfold bind at 1. rewrite Hrun1.
    split; [exact Hrun2 |].
    split; [| exact Hirqs2].
    rewrite Hlog2, Hlog1, Hreg1, <- app_assoc. reflexivity.
Qed.

Lemma dw_hdmi_qp_i2c_read_outcome buf count w rs rest :
  MAINUNIT_1_INT_STATUS <> I2CM_INTERFACE_RDDATA_0_3 ->
  irqs w = rs ++ rest ->
  forallb irq_done rs = true ->
  (length rs <= Z.to_nat count)%nat ->
  ((length rs < Z.to_nat count)%nat ->
   irq_done (hd HwSilent rest) = false) ->
  exists w' stale,
    dw_hdmi_qp_i2c_read buf count w
    = Some ((if (length rs <? Z.to_nat count)%nat
             then byte_error (hd HwSilent rest) else 0,
             store_all buf 0 (map rx_byte rs)), w') /\
    log w' = log w
             ++ (if (length rs <? Z.to_nat count)%nat
                 then read_trace_failed (is_segment (i2c (hdmi w)))
                                        (read_start w) rs stale
                                        (hd HwSilent rest)
                 else read_trace (is_segment (i2c (hdmi w)))
                                 (read_start w) rs) /\
    irqs w' = (if (length rs <? Z.to_nat count)%nat then tl rest else rest).
Proof.
  intros Hne Hirqs Hall Hle Hfail.
  unfold dw_hdmi_qp_i2c_read, read_start.
  destruct (Nat.ltb_spec (length rs) (Z.to_nat count)) as [Hlt | Hge].
  - specialize (Hfail Hlt).
    replace (Z.to_nat count)
      with (length rs + S (Z.to_nat count - length rs - 1))%nat by lia.
    run.
    destruct (is_regaddr (i2c (hdmi w))) eqn:Era; cbn [negb]; run.
    all: match goal with
         | |- context [i2c_read_loop ?n ?b ?p ?w0] =>
             destruct (i2c_read_loop_failed rs Hne Hall
                         (Z.to_nat count - length rs - 1)%nat buf 0 w0 rest
                         Hirqs Hfail)
               as (w1 & stale & Hrun & Hlog & Hirqs1)
         end.
    all: rewrite Hrun; cbn [fst snd]; run.
    all: exists w1, stale; split; [reflexivity |].
    all: cbn [hdmi hw irqs log i2c slave_reg is_regaddr is_segment] in *.
    all: split; assumption.
  - replace (Z.to_nat count) with (length rs) by lia.
    run.
    destruct (is_regaddr (i2c (hdmi w))) eqn:Era; cbn [negb]; run.
    all: match goal with
         | |- context [i2c_read_loop ?n ?b ?p ?w0] =>
             destruct (i2c_read_loop_done rs Hne Hall buf 0 w0 rest Hirqs)
               as (w1 & Hrun & Hlog & Hirqs1 & _)
         end.
    all: rewrite Hrun; cbn [fst snd]; run.
    all: eexists _, 0; split; [reflexivity |].
    all: cbn [hdmi hw irqs log i2c slave_reg is_regaddr is_segment] in *.
    all: split; assumption.
Qed.

Lemma dw_hdmi_qp_i2c_write_outcome buf count w rs rest :
  MAINUNIT_1_INT_STATUS <> I2CM_INTERFACE_RDDATA_0_3 ->
  irqs w = rs ++ rest ->
  forallb irq_done rs = true ->
  (length rs <= write_count count w)%nat ->
  ((length rs < write_count count w)%nat ->
   irq_done (hd HwSilent rest) = false) ->
  exists w' stale,
    dw_hdmi_qp_i2c_write buf count w
    = Some (if (length rs <? write_count count w)%nat
            then byte_error (hd HwSilent rest) else 0, w') /\
    log w' = log w
             ++ (if (length rs <? write_count count w)%nat
                 then write_trace_failed buf (write_skip w)
                                         (write_start buf w) rs stale
                                         (hd HwSilent rest)
                 else write_trace buf (write_skip w) (write_start buf w)
                                  rs) /\
    irqs w' = (if (length rs <? write_count count w)%nat
               then tl rest else rest).
Proof.
  intros Hne Hirqs Hall Hle Hfail.
  unfold dw_hdmi_qp_i2c_write, write_count, write_skip, write_start in *.
  run.
  destruct (is_regaddr (i2c (hdmi w))) eqn:Era; cbn [negb]; run.
  all: match goal with
       | |- context [i2c_write_loop ?n _ _ _] => set (todo := n) in *
       end.
  all: destruct (Nat.ltb_spec (length rs) todo) as [Hlt | Hge].
  all: try (specialize (Hfail Hlt);
            replace todo with (length rs + S (todo - length rs - 1))%nat
              by lia;
            match goal with
            | |- context [i2c_write_loop ?n ?b ?p ?w0] =>
                destruct (i2c_write_loop_failed rs Hne Hall
                            (todo - length rs - 1)%nat b p w0 rest
                            Hirqs Hfail)
                  as (w1 & stale & Hrun & Hlog & Hirqs1)
            end;
            exists w1, stale;
            cbn [hdmi hw irqs log i2c slave_reg is_regaddr is_segment]
              in *;
            repeat split; assumption).
  all: replace todo with (length rs) by lia.
  all: match goal with
       | |- context [i2c_write_loop ?n ?b ?p ?w0] =>
           destruct (i2c_write_loop_done rs Hne Hall b p w0 rest Hirqs)
             as (w1 & Hrun & Hlog & Hirqs1 & _)
       end.
  all: exists w1, 0.
  all: cbn [hdmi hw irqs log i2c slave_reg is_regaddr is_segment] in *.
  all: repeat split; assumption.
Qed.

Lemma xfer_one_read m w r0 b' w2 :
  u8 (addr m) <> DDC_CI_ADDR ->
  len m <> 0 ->
  (addr m =? DDC_SEGMENT_ADDR) && (len m =? 1) = false ->
  Z.land (flags m) I2C_M_RD <> 0 ->
  dw_hdmi_qp_i2c_read (buf m) (len m) (xfer_start m w)
  = Some ((r0, b'), w2) ->
  exists w',
    dw_hdmi_qp_i2c_xfer [m] w
    = Some ((if r0 =? 0 then 1 else r0,
             [mk_msg (addr m) (flags m) (len m) b']), w') /\
    log w' = log w2 ++ [mute_irqs] /\
    hdmi w' = hdmi w2 /\
    irqs w' = irqs w2.
Proof.
  intros Hci Hlen Hseg Hrd Hread.
  unfold dw_hdmi_qp_i2c_xfer.
  apply Z.eqb_neq in Hci, Hlen, Hrd. rewrite Hci.
  cbn [existsb orb]. rewrite Hlen. cbn [orb].
  run. cbn [xfer_msgs]. unfold xfer_msg. rewrite Hseg, Hrd. cbn [negb].
  fold unmute_irqs. fold (slave_addr_update m).
  rewrite <- app_assoc. cbn [app].
  unfold xfer_start in Hread.
  cbv [bind]. rewrite Hread. cbn [fst snd]. run.
  destruct (r0 <? 0); run; change (u32 0) with 0; fold mute_irqs;
    eexists; (split; [reflexivity |]); cbn [log hdmi irqs];
    repeat split; reflexivity.
Qed.

Lemma xfer_one_write m w r0 w2 :
  u8 (addr m) <> DDC_CI_ADDR ->
  len m <> 0 ->
  (addr m =? DDC_SEGMENT_ADDR) && (len m =? 1) = false ->
  Z.land (flags m) I2C_M_RD = 0 ->
  dw_hdmi_qp_i2c_write (buf m) (len m) (xfer_start m w) = Some (r0, w2) ->
  exists w',
    dw_hdmi_qp_i2c_xfer [m] w
    = Some ((if r0 =? 0 then 1 else r0, [m]), w') /\
    log w' = log w2 ++ [mute_irqs] /\
    hdmi w' = hdmi w2 /\
    irqs w' = irqs w2.
Proof.
  intros Hci Hlen Hseg Hrd Hwrite.
  unfold dw_hdmi_qp_i2c_xfer.
  apply Z.eqb_neq in Hci, Hlen. apply Z.eqb_eq in Hrd. rewrite Hci.
  cbn [existsb orb]. rewrite Hlen. cbn [orb].
  run. cbn [xfer_msgs]. unfold xfer_msg. rewrite Hseg, Hrd. cbn [negb].
  fold unmute_irqs. fold (slave_addr_update m).
  rewrite <- app_assoc. cbn [app].
  unfold xfer_start in Hwrite.
  cbv [bind]. rewrite Hwrite. cbn [fst snd]. run.
  destruct (r0 <? 0); run; change (u32 0) with 0; fold mute_irqs;
    eexists; (split; [reflexivity |]); cbn [log hdmi irqs];
    repeat split; reflexivity.
Qed.

(** The responses of the controller split, for any number of byte
    operations, into those that complete an operation each and, if
    operations are left, one that does not. *)
Lemma responses_split (n : nat) :
  forall l : list hw_response,
    exists rs rest,
      l = rs ++ rest /\
      forallb irq_done rs = true /\
      (length rs <= n)%nat /\
      ((length rs < n)%nat -> irq_done (hd HwSilent rest) = false).
Proof.
  induction n as [| n IH]; intros l.
  - exists [], l. cbn. repeat split; try reflexivity; lia.
  - destruct l as [| r l].
    + exists [], []. cbn. repeat split; try reflexivity; lia.
    + destruct (irq_done r) eqn:Hr.
      * destruct (IH l) as (rs & rest & -> & Hall & Hle & Hfail).
        exists (r :: rs), rest. cbn [app forallb length].
        rewrite Hr, Hall. repeat split; try reflexivity; try lia.
        intros Hlt. apply Hfail. lia.
      * exists [], (r :: l). cbn. repeat split; try reflexivity; try lia.
        intros _. exact Hr.
Qed.

(** C1: every byte operation of a read or of a write waits a tenth of a
    second (HZ / 10 jiffies) for the controller, once, and ends in one
    of three ways.  Stated for [dw_hdmi_qp_i2c_read] and
    [dw_hdmi_qp_i2c_write] started in any world, in terms of what the
    controller does during the successive waits: as long as it raises
    the interrupt with one of the I2C bits and without NACK, the byte is
    transferred (a read stores the low byte of the data register at the
    next offset of the buffer, a write has handed the next byte of the
    buffer to the write-data register) and the strobe field is cleared
    before the next byte is started; with all bytes transferred the
    routine returns 0.  (The responses of the controller always split
    into those that complete an operation and the first that does not.)
    The first wait that is not completed so ends the
    routine: if it times out, the soft reset (1 to the I2C master control
    register) is written and -EAGAIN returned; if it is signalled with
    NACK latched, the soft reset is written and -EIO returned; the bytes
    transferred before stay, no further byte is started and no further
    response of the controller is consumed.  In a batch of one message
    the transfer returns 1 or that error, after muting the interrupts,
    with the buffer as the read left it; and in the trace of any batch
    every wait has HZ / 10 jiffies, a wait that failed is followed by
    the soft reset and the muting only and decides what the transfer
    returns, and any other wait is followed by the clearing of the
    strobe field. *)
Theorem i2c_byte_operation_outcomes :
  0 < EAGAIN -> 0 < EIO ->
  MAINUNIT_1_INT_STATUS <> I2CM_INTERFACE_RDDATA_0_3 ->
  (forall (n : nat) (w : world),
      exists rs rest,
        irqs w = rs ++ rest /\
        forallb irq_done rs = true /\
        (length rs <= n)%nat /\
        ((length rs < n)%nat -> irq_done (hd HwSilent rest) = false)) /\
  (forall (buf : bytes) (count : Z) (w : world)
          (rs rest : list hw_response),
      irqs w = rs ++ rest ->
      forallb irq_done rs = true ->
      (length rs <= Z.to_nat count)%nat ->
      ((length rs < Z.to_nat count)%nat ->
       irq_done (hd HwSilent rest) = false) ->
      exists w' stale,
        dw_hdmi_qp_i2c_read buf count w
        = Some ((if (length rs <? Z.to_nat count)%nat
                 then byte_error (hd HwSilent rest) else 0,
                 store_all buf 0 (map rx_byte rs)), w') /\
        log w' = log w
                 ++ (if (length rs <? Z.to_nat count)%nat
                     then read_trace_failed (is_segment (i2c (hdmi w)))
                                            (read_start w) rs stale
                                            (hd HwSilent rest)
                     else read_trace (is_segment (i2c (hdmi w)))
                                     (read_start w) rs) /\
        irqs w' = (if (length rs <? Z.to_nat count)%nat
                   then tl rest else rest)) /\
  (forall (buf : bytes) (count : Z) (w : world)
          (rs rest : list hw_response),
      irqs w = rs ++ rest ->
      forallb irq_done rs = true ->
      (length rs <= write_count count w)%nat ->
      ((length rs < write_count count w)%nat ->
       irq_done (hd HwSilent rest) = false) ->
      exists w' stale,
        dw_hdmi_qp_i2c_write buf count w
        = Some (if (length rs <? write_count count w)%nat
                then byte_error (hd HwSilent rest) else 0, w') /\
        log w' = log w
                 ++ (if (length rs <? write_count count w)%nat
                     then write_trace_failed buf (write_skip w)
                                             (write_start buf w) rs stale
                                             (hd HwSilent rest)
                     else write_trace buf (write_skip w)
                                      (write_start buf w) rs) /\
        irqs w' = (if (length rs <? write_count count w)%nat
                   then tl rest else rest)) /\
  (forall (m : i2c_msg) (w : world) (r0 : Z) (b' : bytes) (w2 : world),
      u8 (addr m) <> DDC_CI_ADDR ->
      len m <> 0 ->
      (addr m =? DDC_SEGMENT_ADDR) && (len m =? 1) = false ->
      Z.land (flags m) I2C_M_RD <> 0 ->
      dw_hdmi_qp_i2c_read (buf m) (len m) (xfer_start m w)
      = Some ((r0, b'), w2) ->
      exists w',
        dw_hdmi_qp_i2c_xfer [m] w
        = Some ((if r0 =? 0 then 1 else r0,
                 [mk_msg (addr m) (flags m) (len m) b']), w') /\
        log w' = log w2 ++ [mute_irqs] /\
        hdmi w' = hdmi w2 /\
        irqs w' = irqs w2) /\
  (forall (m : i2c_msg) (w : world) (r0 : Z) (w2 : world),
      u8 (addr m) <> DDC_CI_ADDR ->
      len m <> 0 ->
      (addr m =? DDC_SEGMENT_ADDR) && (len m =? 1) = false ->
      Z.land (flags m) I2C_M_RD = 0 ->
      dw_hdmi_qp_i2c_write (buf m) (len m) (xfer_start m w)
      = Some (r0, w2) ->
      exists w',
        dw_hdmi_qp_i2c_xfer [m] w
        = Some ((if r0 =? 0 then 1 else r0, [m]), w') /\
        log w' = log w2 ++ [mute_irqs] /\
        hdmi w' = hdmi w2 /\
        irqs w' = irqs w2) /\
  (forall (msgs : list i2c_msg) (w : world),
      msgs <> [] ->
      exists r msgs' w' L,
        dw_hdmi_qp_i2c_xfer msgs w = Some ((r, msgs'), w') /\
        log w' = log w ++ L /\
        forall pre timeout remaining latched post,
          L = pre ++ WaitForCompletion timeout remaining latched :: post ->
          timeout = HZ / 10 /\
          (remaining = 0 ->
           post = [soft_reset; mute_irqs] /\ r = - EAGAIN) /\
          (remaining <> 0 -> Z.land latched I2CM_NACK_RCVD_IRQ <> 0 ->
           post = [soft_reset; mute_irqs] /\ r = - EIO) /\
          (remaining <> 0 -> Z.land latched I2CM_NACK_RCVD_IRQ = 0 ->
           strobe_cleared_next post)).
Proof.
  intros Hagain Hio Hne.
  split; [| split; [| split; [| split; [| split]]]].
  - intros n w. exact (responses_split n (irqs w)).
  - intros buf count w rs rest.
    exact (dw_hdmi_qp_i2c_read_outcome buf count w rs rest Hne).
  - intros buf count w rs rest.
    exact (dw_hdmi_qp_i2c_write_outcome buf count w rs rest Hne).
  - intros m w r0 b' w2. exact (xfer_one_read m w r0 b' w2).
  - intros m w r0 w2. exact (xfer_one_write m w r0 w2).
  - intros msgs w. exact (xfer_waits_outcomes msgs w Hagain Hio).
Qed.

End TransferProperties.

(** ** A read that ends in a NACK, on a concrete input *)

Lemma i2c_byte_operation_outcomes_witness :
  exists w' stale,
    @dw_hdmi_qp_i2c_read sample_regs sample_linux (bytes_of []) 3
      (world_of unbound_hdmi [HwIrq 1 0x12; HwIrq 4 0; HwIrq 1 0x34])
    = Some ((-5, store_all (bytes_of []) 0 [0x12]), w') /\
    log w' = @read_trace_failed sample_regs sample_linux false 0
               [HwIrq 1 0x12] stale (HwIrq 4 0) /\
    irqs w' = [HwIrq 1 0x34].
Proof.
  destruct (@i2c_byte_operation_outcomes sample_regs sample_linux
              eq_refl eq_refl ltac:(discriminate))
    as (_ & Hread & _).
  destruct (Hread (bytes_of []) 3
              (world_of unbound_hdmi
                        [HwIrq 1 0x12; HwIrq 4 0; HwIrq 1 0x34])
              [HwIrq 1 0x12] [HwIrq 4 0; HwIrq 1 0x34]
              eq_refl eq_refl ltac:(cbn; lia) (fun _ => eq_refl))
    as (w' & stale & Hrun & Hlog & Hirqs).
  exists w', stale. split; [exact Hrun |]. split; [exact Hlog | exact Hirqs].
Defined.

(** ** The successful transfers on concrete inputs *)

Lemma i2c_read_all_bytes_done_witness :
  exists buf' w',
    @dw_hdmi_qp_i2c_read sample_regs sample_linux (bytes_of []) 2
      (world_of unbound_hdmi [HwIrq 1 0x12; HwIrq 3 0x1234; HwSilent])
    = Some ((0, buf'), w') /\
    load buf' 0 = 0x12 /\ load buf' 1 = 0x34 /\
    irqs w' = [HwSilent].
Proof.
  destruct (@i2c_read_all_bytes_done sample_regs sample_linux (bytes_of [])
              (world_of unbound_hdmi [HwIrq 1 0x12; HwIrq 3 0x1234; HwSilent])
              [HwIrq 1 0x12; HwIrq 3 0x1234] [HwSilent]
              ltac:(discriminate) eq_refl eq_refl)
    as (buf' & w' & Hrun & Hld & _ & _ & Hirqs & _).
  exists buf', w'. split; [exact Hrun |].
  split; [exact (Hld 0 ltac:(cbn; lia)) |].
  split; [exact (Hld 1 ltac:(cbn; lia)) | exact Hirqs].
Defined.

Lemma i2c_write_all_bytes_done_witness :
  exists w',
    @dw_hdmi_qp_i2c_write sample_regs sample_linux
      (bytes_of [0x20; 0x03; 0x07]) 3
      (world_of unbound_hdmi [HwIrq 1 0; HwIrq 1 0])
    = Some (0, w') /\
    irqs w' = [] /\
    is_regaddr (i2c (hdmi w')) = true.
Proof.
  destruct (@i2c_write_all_bytes_done sample_regs sample_linux
              (bytes_of [0x20; 0x03; 0x07])
              (world_of unbound_hdmi [HwIrq 1 0; HwIrq 1 0])
              [HwIrq 1 0; HwIrq 1 0] []
              ltac:(discriminate) eq_refl eq_refl ltac:(reflexivity))
    as (w' & Hrun & _ & Hirqs & _ & Hra & _).
  exists w'. split; [exact Hrun |]. split; [exact Hirqs | exact Hra].
Defined.

Lemma xfer_accepted_is_bracketed_witness :
  exists r msgs' w' L,
    @dw_hdmi_qp_i2c_xfer sample_regs sample_linux edid_batch
      (world_of unbound_hdmi [HwIrq 1 0xab; HwIrq 4 0])
    = Some ((r, msgs'), w') /\
    log w' = @unmute_irqs sample_regs
             :: @slave_addr_update sample_regs sample_linux one_byte_msg
             :: L ++ [@mute_irqs sample_regs].
Proof.
  destruct (@xfer_accepted_is_bracketed sample_regs sample_linux
              edid_batch one_byte_msg
              (world_of unbound_hdmi [HwIrq 1 0xab; HwIrq 4 0])
              ltac:(reflexivity) ltac:(reflexivity) eq_refl
              ltac:(discriminate)
              ltac:(repeat constructor; discriminate))
    as (r & msgs' & w' & L & Hrun & Hlog & _).
  exists r, msgs', w', L. split; [exact Hrun | exact Hlog].
Defined.

Lemma edid_read_transfer_witness :
  exists w',
    @dw_hdmi_qp_i2c_xfer sample_regs sample_linux edid_batch
      (world_of unbound_hdmi [HwIrq 1 0xab; HwIrq 1 0xcd])
    = Some ((2, [one_byte_msg;
                 mk_msg 0x50 1 2
                        (store_all (bytes_of []) 0 [0xab; 0xcd])]), w') /\
    irqs w' = [].
Proof.
  destruct (@edid_read_transfer sample_regs sample_linux
              0x50 0x50 0 1 (bytes_of [0x10]) (bytes_of [])
              [HwIrq 1 0xab; HwIrq 1 0xcd] []
              (world_of unbound_hdmi [HwIrq 1 0xab; HwIrq 1 0xcd])
              ltac:(discriminate) ltac:(discriminate) ltac:(discriminate)
              eq_refl eq_refl ltac:(discriminate) ltac:(discriminate)
              eq_refl eq_refl)
    as (w' & Hrun & _ & Hirqs).
  exists w'. split; [exact Hrun | exact Hirqs].
Defined.

Lemma edid_segment_read_transfer_witness :
  exists w',
    @dw_hdmi_qp_i2c_xfer sample_regs sample_linux
      (segment_msg :: edid_batch)
      (world_of unbound_hdmi [HwIrq 1 0xab; HwIrq 1 0xcd])
    = Some ((3, [segment_msg; one_byte_msg;
                 mk_msg 0x50 1 2
                        (store_all (bytes_of []) 0 [0xab; 0xcd])]), w') /\
    is_segment (i2c (hdmi w')) = false.
Proof.
  destruct (@edid_segment_read_transfer sample_regs sample_linux
              0 0x50 0x50 0 1 (bytes_of [0x01]) (bytes_of [0x10])
              (bytes_of [])
              [HwIrq 1 0xab; HwIrq 1 0xcd] []
              (world_of unbound_hdmi [HwIrq 1 0xab; HwIrq 1 0xcd])
              ltac:(discriminate) ltac:(discriminate)
              eq_refl eq_refl ltac:(discriminate) ltac:(discriminate)
              eq_refl eq_refl)
    as (w' & Hrun & _ & _ & Hseg).
  exists w'. split; [exact Hrun | exact Hseg].
Defined.
(** * More properties of the link and scrambling state machine *)

Section LinkProperties.
Context {regs : dw_hdmi_qp_h} {linux : linux_h}.

(** Enable never faults: the connector it dereferences is the one it has
    just stored. *)
Lemma dw_hdmi_qp_bridge_atomic_enable_total nc cs w :
  exists w',
    dw_hdmi_qp_bridge_atomic_enable nc cs w = Some (tt, w') /\
    log w' = log w
             ++ enable_trace nc cs (u8 (sink_scdc w SCDC_SINK_VERSION)) /\
    hdmi w'
    = (let d := with_connector nc (hdmi w) in
       match nc, cs with
       | Some c, Some s =>
           if wants_scrambling c s
           then with_scramb_enabled true
                  (with_scramb_work
                     (mk_work true (work_running (scramb_work d))) d)
           else d
       | _, _ => d
       end) /\
    sink_scrambling w' = sink_scrambling w.
Proof.
  destruct nc as [c |]; [destruct cs as [s |] |].
  - unfold enable_trace, wants_scrambling, scramb_setup, link_setup.
    run_link.
    destruct (is_hdmi c) eqn:Eh; cbn [andb]; run_link.
    + destruct (HDMI14_MAX_TMDSCLK <? tmds_char_rate s) eqn:Er;
        cbn [andb]; run_link.
      * rewrite Eh. cbn [negb].
        destruct (scdc_supported c); destruct (scrambling_supported c);
          cbn [negb orb andb]; run_link;
          rewrite ?u8_idem;
          change (u8 SCDC_MIN_SOURCE_VERSION) with 1;
          change (u32 1) with 1; change (u32 0) with 0;
          (eexists; split; [reflexivity |]); cbn;
          repeat rewrite <- app_assoc; repeat split.
      * eexists. split; [reflexivity |]. cbn.
        repeat rewrite <- app_assoc. repeat split.
    + eexists. split; [reflexivity |]. cbn.
      repeat rewrite <- app_assoc. repeat split.
  - run_link. eexists. split; [reflexivity |]. cbn.
    rewrite app_nil_r. repeat split.
  - run_link. eexists. split; [reflexivity |]. cbn.
    rewrite app_nil_r. repeat split.
Qed.

(** An enable that does not turn scrambling on: a DVI sink, a rate of at
    most 340 MHz, or a sink without SCDC or scrambling support.  The
    driver makes no SCDC call, does not touch the scrambling register or
    flag and does not arm the recheck; it initialises the PHY, bypasses
    HDCP2 and selects the operating mode, DVI exactly for a sink that is
    not HDMI, and has the infoframes updated. *)
Theorem atomic_enable_without_scrambling :
  forall (c : drm_connector) (cs : drm_connector_state) (w : world),
    wants_scrambling c cs = false ->
    exists w',
      dw_hdmi_qp_bridge_atomic_enable (Some c) (Some cs) w = Some (tt, w') /\
      log w' = log w ++ link_setup c /\
      hdmi w' = with_connector (Some c) (hdmi w).
Proof.
  intros c cs w Hno.
  destruct (dw_hdmi_qp_bridge_atomic_enable_total (Some c) (Some cs) w)
    as (w' & Hrun & Hlog & Hhdmi & _).
  exists w'. split; [exact Hrun |].
  unfold enable_trace in Hlog. cbv zeta in Hhdmi.
  rewrite Hno in Hlog, Hhdmi. split; assumption.
Qed.

(** An enable for which the commit holds no connector for the encoder,
    or no state for the connector, stores the connector pointer (NULL in
    the first case) and returns: no PHY initialisation, no register
    access, no infoframe update. *)
Theorem atomic_enable_without_connector_or_state :
  forall (nc : option drm_connector) (cs : option drm_connector_state)
         (w : world),
    nc = None \/ cs = None ->
    exists w',
      dw_hdmi_qp_bridge_atomic_enable nc cs w = Some (tt, w') /\
      log w' = log w /\
      hdmi w' = with_connector nc (hdmi w).
Proof.
  intros nc cs w Hnone.
  destruct (dw_hdmi_qp_bridge_atomic_enable_total nc cs w)
    as (w' & Hrun & Hlog & Hhdmi & _).
  exists w'. split; [exact Hrun |].
  assert (Ht : enable_trace nc cs (u8 (sink_scdc w SCDC_SINK_VERSION)) = [])
    by (destruct Hnone as [-> | ->]; [| destruct nc]; reflexivity).
  rewrite Ht, app_nil_r in Hlog. split; [exact Hlog |].
  rewrite Hhdmi. destruct Hnone as [-> | ->]; [| destruct nc]; reflexivity.
Qed.

(** One expiry of the recheck timer. *)
Lemma scramb_work_timer_expires_spec w :
  (work_pending (scramb_work (hdmi w)) = false ->
   scramb_work_timer_expires w = Some (tt, w)) /\
  (work_pending (scramb_work (hdmi w)) = true ->
   connector (hdmi w) <> None ->
   exists w',
     scramb_work_timer_expires w = Some (tt, w') /\
     log w' = log w ++ recheck_trace (sink_scrambling w) /\
     hdmi w' = with_scramb_work (mk_work (negb (sink_scrambling w)) false)
                                (hdmi w) /\
     sink_scrambling w' = sink_scrambling w).
Proof.
  split.
  - intros Hp. run_link. rewrite Hp. reflexivity.
  - intros Hp Hc. destruct (connector (hdmi w)) as [c |] eqn:Ec;
      [| congruence].
    run_link. rewrite Hp. run_link. rewrite Ec. run_link.
    unfold recheck_trace.
    destruct (sink_scrambling w); cbn [negb]; run_link; rewrite ?Ec;
      run_link; (eexists; split; [reflexivity |]); cbn;
      rewrite ?Ec; repeat rewrite <- app_assoc; repeat split.
Qed.

(** The recheck keeps itself going only as long as the sink reports that
    it is not scrambling.  An expiry with the recheck queued asks the
    sink once; if the answer is no, it raises the clock ratio, enables
    scrambling at the sink and queues itself again with the 3000 ms
    delay; if the answer is yes it does nothing more, the recheck is
    left unqueued and later expiries do nothing at all. *)
Theorem recheck_rearms_until_sink_scrambles :
  forall (w : world) (c : drm_connector),
    connector (hdmi w) = Some c ->
    work_pending (scramb_work (hdmi w)) = true ->
    exists w',
      scramb_work_timer_expires w = Some (tt, w') /\
      log w' = log w ++ recheck_trace (sink_scrambling w) /\
      scramb_work (hdmi w') = mk_work (negb (sink_scrambling w)) false /\
      (sink_scrambling w = true ->
       scramb_work_timer_expires w' = Some (tt, w')).
Proof.
  intros w c Hc Hp.
  destruct (proj2 (scramb_work_timer_expires_spec w) Hp
                  ltac:(congruence))
    as (w' & Hrun & Hlog & Hhdmi & _).
  exists w'. split; [exact Hrun |]. split; [exact Hlog |].
  split; [rewrite Hhdmi; reflexivity |].
  intros Hact. apply (proj1 (scramb_work_timer_expires_spec w')).
  rewrite Hhdmi, Hact. reflexivity.
Qed.

(** ** Cycles *)

Lemma link_off_on d : link_off d = true -> link_on d = true.
Proof.
  unfold link_off, link_on.
  destruct (scramb_enabled d), (work_pending (scramb_work d)),
    (work_running (scramb_work d)); cbn; congruence.
Qed.

Lemma enable_step f nc cs w :
  link_off (hdmi w) = true ->
  exists w',
    dw_hdmi_qp_bridge_atomic_enable nc cs w = Some (tt, w') /\
    link_on (hdmi w') = true /\
    i2c (hdmi w') = i2c (hdmi w) /\
    (SCRAMB_CONFIG0 <> HDCP2LOGIC_CONFIG0 ->
     SCRAMB_CONFIG0 <> LINK_CONFIG0 ->
     scrambler_mirrors f w = true -> scrambler_mirrors f w' = true).
Proof.
  intros Hoff.
  destruct (dw_hdmi_qp_bridge_atomic_enable_total nc cs w)
    as (w' & Hrun & Hlog & Hhdmi & _).
  exists w'. split; [exact Hrun |].
  unfold scrambler_mirrors. rewrite Hlog, Hhdmi, regmap_replay_app.
  unfold link_off, link_on in *.
  destruct (hdmi w) as [ic co [p r] en]. cbn in Hoff |- *.
  destruct en, p, r; try discriminate.
  destruct nc as [c |]; [destruct cs as [s |] |]; cbn;
    try (repeat split; intros _ _ Hmir; exact Hmir).
  destruct (wants_scrambling c s); cbn; repeat split;
    intros Hd1 Hd2 Hmir;
    apply Z.eqb_neq in Hd1; apply Z.eqb_neq in Hd2;
    rewrite ?Z.eqb_refl, ?Hd1, ?Hd2; [reflexivity | exact Hmir].
Qed.

Lemma recheck_step f b w :
  link_on (hdmi w) = true ->
  exists w',
    (sink_reports b ;; scramb_work_timer_expires)%drv w = Some (tt, w') /\
    link_on (hdmi w') = true /\
    i2c (hdmi w') = i2c (hdmi w) /\
    connector (hdmi w') = connector (hdmi w) /\
    scramb_enabled (hdmi w') = scramb_enabled (hdmi w) /\
    (scrambler_mirrors f w = true -> scrambler_mirrors f w' = true).
Proof.
  intros Hon.
  unfold bind at 1, sink_reports.
  match goal with
  | |- context [scramb_work_timer_expires ?w0] => set (W := w0)
  end.
  assert (HonW : link_on (hdmi W) = true) by exact Hon.
  change (scrambler_mirrors f w) with (scrambler_mirrors f W).
  change (hdmi w) with (hdmi W). clearbody W. clear Hon w.
  destruct (work_pending (scramb_work (hdmi W))) eqn:Ep.
  - assert (Hc : connector (hdmi W) <> None).
    { unfold link_on in HonW. rewrite Ep in HonW.
      destruct (work_running (scramb_work (hdmi W))),
        (scramb_enabled (hdmi W)), (connector (hdmi W));
        cbn in HonW; congruence. }
    destruct (proj2 (scramb_work_timer_expires_spec W) Ep Hc)
      as (w' & Hrun & Hlog & Hhdmi & _).
    exists w'. split; [exact Hrun |].
    unfold scrambler_mirrors. rewrite Hlog, Hhdmi, regmap_replay_app.
    unfold link_on in *.
    destruct (hdmi W) as [ic co [p r] en]. cbn in HonW, Ep |- *.
    subst p. destruct r, en; try discriminate.
    destruct co; try discriminate.
    unfold recheck_trace.
    destruct (sink_scrambling W); cbn; repeat split; intros Hmir;
      exact Hmir.
  - rewrite (proj1 (scramb_work_timer_expires_spec W) Ep).
    exists W. repeat split; try assumption. intros Hmir; exact Hmir.
Qed.

Lemma rechecks_steps f bs :
  forall w,
  link_on (hdmi w) = true ->
  exists w',
    rechecks bs w = Some (tt, w') /\
    link_on (hdmi w') = true /\
    i2c (hdmi w') = i2c (hdmi w) /\
    connector (hdmi w') = connector (hdmi w) /\
    scramb_enabled (hdmi w') = scramb_enabled (hdmi w) /\
    (scrambler_mirrors f w = true -> scrambler_mirrors f w' = true).
Proof.
  induction bs as [| b bs IH]; intros w Hon.
  - exists w. repeat split; try assumption. intros Hmir; exact Hmir.
  - destruct (recheck_step f b w Hon)
      as (w1 & Hrun1 & Hon1 & Hi1 & Hc1 & He1 & Hmir1).
    destruct (IH w1 Hon1)
      as (w2 & Hrun2 & Hon2 & Hi2 & Hc2 & He2 & Hmir2).
    exists w2. split.
    + cbn [rechecks]. unfold bind at 1 2. unfold bind in Hrun1.
      destruct (sink_reports b w) as [[[] w0] |]; [| discriminate].
      rewrite Hrun1. exact Hrun2.
    + repeat split; try congruence; auto.
Qed.

Lemma disable_step f w :
  link_on (hdmi w) = true ->
  exists w',
    dw_hdmi_qp_bridge_atomic_disable w = Some (tt, w') /\
    hdmi w' = mk_hdmi (i2c (hdmi w)) None (mk_work false false) false /\
    (scrambler_mirrors f w = true -> scrambler_mirrors f w' = true).
Proof.
  intros Hon.
  unfold link_on, scrambler_mirrors in *.
  destruct w as [[ic co [p r] en] h q sc ss lg ld].
  cbn in Hon |- *.
  destruct r; [discriminate |].
  destruct en.
  - destruct co as [c |]; [| discriminate].
    run_link. cbn -[regmap_replay u32].
    destruct (drm_connector_status_eqb (status c)
                                       connector_status_disconnected);
      cbn -[regmap_replay u32];
      (eexists; split; [reflexivity |]); cbn -[regmap_replay u32];
      (split; [reflexivity |]); intros _;
      rewrite !regmap_replay_app; cbn; rewrite Z.eqb_refl; reflexivity.
  - destruct p; [discriminate |].
    run_link. cbn -[regmap_replay u32].
    eexists. split; [reflexivity |]. cbn -[regmap_replay u32].
    split; [reflexivity |]. intros Hmir.
    rewrite regmap_replay_app. cbn. exact Hmir.
Qed.

Lemma run_cycle_step f c w :
  link_off (hdmi w) = true ->
  exists w',
    run_cycle c w = Some (tt, w') /\
    hdmi w' = mk_hdmi (i2c (hdmi w)) None (mk_work false false) false /\
    (SCRAMB_CONFIG0 <> HDCP2LOGIC_CONFIG0 ->
     SCRAMB_CONFIG0 <> LINK_CONFIG0 ->
     scrambler_mirrors f w = true -> scrambler_mirrors f w' = true).
Proof.
  intros Hoff.
  destruct (enable_step f (cyc_connector c) (cyc_conn_state c) w Hoff)
    as (w1 & Hrun1 & Hon1 & Hi1 & Hmir1).
  destruct (rechecks_steps f (cyc_rechecks c) w1 Hon1)
    as (w2 & Hrun2 & Hon2 & Hi2 & _ & _ & Hmir2).
  destruct (disable_step f w2 Hon2) as (w3 & Hrun3 & Hhdmi3 & Hmir3).
  exists w3. split.
  - unfold run_cycle, bind. rewrite Hrun1, Hrun2. exact Hrun3.
  - split; [rewrite Hhdmi3; congruence | auto].
Qed.

Lemma run_cycles_steps f cycles :
  forall w,
  link_off (hdmi w) = true ->
  exists w',
    run_cycles cycles w = Some (tt, w') /\
    hdmi w' = match cycles with
              | [] => hdmi w
              | _ :: _ =>
                  mk_hdmi (i2c (hdmi w)) None (mk_work false false) false
              end /\
    link_off (hdmi w') = true /\
    (SCRAMB_CONFIG0 <> HDCP2LOGIC_CONFIG0 ->
     SCRAMB_CONFIG0 <> LINK_CONFIG0 ->
     scrambler_mirrors f w = true -> scrambler_mirrors f w' = true).
Proof.
  induction cycles as [| c cycles IH]; intros w Hoff.
  - exists w. repeat split; auto.
  - destruct (run_cycle_step f c w Hoff) as (w1 & Hrun1 & Hhdmi1 & Hmir1).
    assert (Hoff1 : link_off (hdmi w1) = true)
      by (rewrite Hhdmi1; reflexivity).
    destruct (IH w1 Hoff1) as (w2 & Hrun2 & Hhdmi2 & Hoff2 & Hmir2).
    exists w2. split.
    + cbn [run_cycles]. unfold bind at 1. rewrite Hrun1. exact Hrun2.
    + split; [| split; [exact Hoff2 | auto]].
      rewrite Hhdmi2. destruct cycles; rewrite Hhdmi1; reflexivity.
Qed.

(** Driven as the atomic commit machinery drives a bridge, every enable
    followed by its disable and the recheck timer expiring any number of
    times in between, the driver never dereferences a NULL connector,
    whatever connector and state each commit holds and whatever the sink
    reports.  Every cycle ends with scrambling off, the recheck neither
    queued nor running and no connector bound.  The SCDC accesses on the
    way run over the I2C adapter of the driver; what they leave in the
    state of the adapter is no part of this. *)
Theorem link_cycles_never_fault :
  forall (cycles : list link_cycle) (w : world),
    link_off (hdmi w) = true ->
    exists w',
      run_cycles cycles w = Some (tt, w') /\
      link_off (hdmi w') = true /\
      connector (hdmi w') = match cycles with
                            | [] => connector (hdmi w)
                            | _ :: _ => None
                            end.
Proof.
  intros cycles w Hoff.
  destruct (run_cycles_steps (fun _ => 0) cycles w Hoff)
    as (w' & Hrun & Hhdmi & _).
  exists w'. split; [exact Hrun |].
  rewrite Hhdmi. destruct cycles; [| split; reflexivity].
  split; [exact Hoff | reflexivity].
Qed.

(** The scrambling register follows the scrambling-enabled flag.  On a
    register file whose scrambling register agrees with the flag when
    the link is off, it agrees with the flag after any number of cycles
    followed by an enable and any number of recheck expiries, that is at
    every point at which a callback can be entered; and the disable that
    follows leaves it 0. *)
Theorem scrambling_register_follows_flag :
  forall (file : Z -> Z) (cycles : list link_cycle)
         (nc : option drm_connector) (cs : option drm_connector_state)
         (bs : list bool) (w : world),
    SCRAMB_CONFIG0 <> HDCP2LOGIC_CONFIG0 ->
    SCRAMB_CONFIG0 <> LINK_CONFIG0 ->
    link_off (hdmi w) = true ->
    scrambler_mirrors file w = true ->
    exists w1 w2,
      (run_cycles cycles ;;
       dw_hdmi_qp_bridge_atomic_enable nc cs ;;
       rechecks bs)%drv w = Some (tt, w1) /\
      regmap_replay file (log w1) SCRAMB_CONFIG0
      = (if scramb_enabled (hdmi w1) then 1 else 0) /\
      dw_hdmi_qp_bridge_atomic_disable w1 = Some (tt, w2) /\
      scramb_enabled (hdmi w2) = false /\
      regmap_replay file (log w2) SCRAMB_CONFIG0 = 0.
Proof.
  intros file cycles nc cs bs w Hd1 Hd2 Hoff Hmir.
  destruct (run_cycles_steps file cycles w Hoff)
    as (w0 & Hrun0 & _ & Hoff0 & Hmir0).
  destruct (enable_step file nc cs w0 Hoff0)
    as (w1 & Hrun1 & Hon1 & _ & Hmir1).
  destruct (rechecks_steps file bs w1 Hon1)
    as (w2 & Hrun2 & Hon2 & _ & _ & _ & Hmir2).
  destruct (disable_step file w2 Hon2) as (w3 & Hrun3 & Hhdmi3 & Hmir3).
  assert (M2 : scrambler_mirrors file w2 = true) by auto.
  assert (M3 : scrambler_mirrors file w3 = true) by auto.
  exists w2, w3. split.
  - unfold bind. rewrite Hrun0, Hrun1. exact Hrun2.
  - split; [apply Z.eqb_eq; exact M2 |].
    split; [exact Hrun3 |].
    split; [rewrite Hhdmi3; reflexivity |].
    unfold scrambler_mirrors in M3. rewrite Hhdmi3 in M3.
    apply Z.eqb_eq in M3. exact M3.
Qed.

End LinkProperties.

(** ** The link properties on concrete inputs *)

Lemma atomic_enable_without_scrambling_witness :
  exists w',
    @dw_hdmi_qp_bridge_atomic_enable sample_regs sample_linux
      (Some hdmi14_sink) (Some (mk_conn_state 594000000))
      (world_of unbound_hdmi [])
    = Some (tt, w') /\
    log w' = @link_setup sample_regs hdmi14_sink /\
    scramb_enabled (hdmi w') = false.
Proof.
  destruct (@atomic_enable_without_scrambling sample_regs sample_linux
              hdmi14_sink (mk_conn_state 594000000)
              (world_of unbound_hdmi []) eq_refl)
    as (w' & Hrun & Hlog & Hhdmi).
  exists w'. split; [exact Hrun |]. split; [exact Hlog |].
  rewrite Hhdmi. reflexivity.
Defined.

Lemma atomic_enable_without_connector_or_state_witness :
  exists w',
    @dw_hdmi_qp_bridge_atomic_enable sample_regs sample_linux
      (Some hdmi20_sink) None (world_of unbound_hdmi [])
    = Some (tt, w') /\
    log w' = [] /\
    connector (hdmi w') = Some hdmi20_sink.
Proof.
  destruct (@atomic_enable_without_connector_or_state
              sample_regs sample_linux (Some hdmi20_sink) None
              (world_of unbound_hdmi []) (or_intror eq_refl))
    as (w' & Hrun & Hlog & Hhdmi).
  exists w'. split; [exact Hrun |]. split; [exact Hlog |].
  rewrite Hhdmi. reflexivity.
Defined.

Lemma recheck_rearms_until_sink_scrambles_witness :
  exists w',
    scramb_work_timer_expires
      (world_of (mk_hdmi idle_i2c (Some hdmi20_sink) (mk_work true false)
                         true) [])
    = Some (tt, w') /\
    log w' = [ScdcGetScramblingStatus false;
              ScdcSetHighTmdsClockRatio true;
              ScdcSetScrambling true;
              ScheduleDelayedWork 3000] /\
    scramb_work (hdmi w') = mk_work true false.
Proof.
  destruct (recheck_rearms_until_sink_scrambles
              (world_of (mk_hdmi idle_i2c (Some hdmi20_sink)
                                 (mk_work true false) true) [])
              hdmi20_sink eq_refl eq_refl)
    as (w' & Hrun & Hlog & Hwork & _).
  exists w'. split; [exact Hrun |]. split; [exact Hlog | exact Hwork].
Defined.

Lemma link_cycles_never_fault_witness :
  exists w',
    @run_cycles sample_regs sample_linux
      [mk_cycle (Some hdmi20_sink) (Some (mk_conn_state 594000000))
                [false; true; true];
       mk_cycle None None [true];
       mk_cycle (Some hdmi14_sink) (Some (mk_conn_state 148500000)) []]
      (world_of unbound_hdmi [])
    = Some (tt, w') /\
    link_off (hdmi w') = true /\
    connector (hdmi w') = None.
Proof.
  destruct (@link_cycles_never_fault sample_regs sample_linux
              [mk_cycle (Some hdmi20_sink) (Some (mk_conn_state 594000000))
                        [false; true; true];
               mk_cycle None None [true];
               mk_cycle (Some hdmi14_sink) (Some (mk_conn_state 148500000))
                        []]
              (world_of unbound_hdmi []) eq_refl)
    as (w' & Hrun & Hoff & Hconn).
  exists w'. split; [exact Hrun |]. split; [exact Hoff | exact Hconn].
Defined.

Lemma scrambling_register_follows_flag_witness :
  exists w1 w2,
    (@run_cycles sample_regs sample_linux
       [mk_cycle (Some hdmi14_sink) (Some (mk_conn_state 148500000)) []] ;;
     @dw_hdmi_qp_bridge_atomic_enable sample_regs sample_linux
       (Some hdmi20_sink) (Some (mk_conn_state 594000000)) ;;
     rechecks [false])%drv
      (world_of unbound_hdmi [])
    = Some (tt, w1) /\
    regmap_replay (fun _ => 0) (log w1) (@SCRAMB_CONFIG0 sample_regs) = 1 /\
    @dw_hdmi_qp_bridge_atomic_disable sample_regs w1
    = Some (tt, w2) /\
    regmap_replay (fun _ => 0) (log w2) (@SCRAMB_CONFIG0 sample_regs) = 0.
Proof.
  destruct (@scrambling_register_follows_flag sample_regs sample_linux
              (fun _ => 0)
              [mk_cycle (Some hdmi14_sink) (Some (mk_conn_state 148500000))
                        []]
              (Some hdmi20_sink) (Some (mk_conn_state 594000000)) [false]
              (world_of unbound_hdmi [])
              ltac:(discriminate) ltac:(discriminate) eq_refl eq_refl)
    as (w1 & w2 & Hrun1 & Hreg1 & Hrun2 & _ & Hreg2).
  exists w1, w2. split; [exact Hrun1 |].
  split; [| split; [exact Hrun2 | exact Hreg2]].
  rewrite Hreg1.
  assert (E : scramb_enabled (hdmi w1) = true)
    by (vm_compute in Hrun1; injection Hrun1 as <-; reflexivity).
  rewrite E. reflexivity.
Defined.
(** * More properties of the infoframe path *)

Section InfoframeProperties.
Context {regs : dw_hdmi_qp_h} {linux : linux_h} {hdmi_h : linux_hdmi_h}.

Lemma dw_hdmi_qp_config_avi_infoframe_spec buffer w :
  exists w',
    dw_hdmi_qp_config_avi_infoframe buffer HDMI_INFOFRAME_SIZE_AVI w
    = Some (0, w') /\
    log w' = log w ++ avi_trace (load buffer) /\
    loads w' = loads w ++ avi_loads /\
    hdmi w' = hdmi w.
Proof.
  unfold dw_hdmi_qp_config_avi_infoframe.
  rewrite Z.eqb_refl. cbn [negb avi_pack avi_pack_word]. run.
  cbn -[u32 load Z.lor Z.shiftl le_word avi_trace regmap_replay].
  eexists. split; [reflexivity |]. cbn [log loads hdmi]. split.
  - rewrite !u32_idem.
    rewrite !pack_word4, pack_word2, pack_control by apply load_range.
    change (u32 0) with 0.
    repeat rewrite <- app_assoc. reflexivity.
  - split; [| reflexivity].
    repeat rewrite <- app_assoc. reflexivity.
Qed.

Lemma land_lnot_0 x : Z.land x (Z.lnot 0) = x.
Proof. change (Z.lnot 0) with (-1). apply Z.land_m1_r. Qed.

Lemma update_bits_keeps old m :
  Z.land (Z.lor (Z.land old (Z.lnot m)) (Z.land 0 m)) (Z.lnot m)
  = Z.land old (Z.lnot m).
Proof.
  rewrite Z.land_0_l, Z.lor_0_r, <- Z.land_assoc, Z.land_diag. reflexivity.
Qed.

(** Clearing an infoframe always returns 0.  On the register file it
    clears the transmit-enable bits of the type in the packet-enable
    register, AVI and GCP for the AVI type, DRMI for the DRM type, keeps
    every other bit of that register and touches no other register; for
    any other type it makes no register access at all. *)
Theorem clear_infoframe_clears_only_its_bits :
  forall (type : Z) (w : world),
    exists w',
      dw_hdmi_qp_bridge_clear_infoframe type w = Some (0, w') /\
      log w' = log w ++ clear_trace type /\
      hdmi w' = hdmi w /\
      (type <> HDMI_INFOFRAME_TYPE_AVI ->
       type <> HDMI_INFOFRAME_TYPE_DRM -> w' = w) /\
      forall file : Z -> Z,
        let file' := regmap_replay file (clear_trace type) in
        Z.land (file' PKTSCHED_PKT_EN) (tx_en_bits type) = 0 /\
        Z.land (file' PKTSCHED_PKT_EN) (Z.lnot (tx_en_bits type))
        = Z.land (file PKTSCHED_PKT_EN) (Z.lnot (tx_en_bits type)) /\
        forall r, r <> PKTSCHED_PKT_EN -> file' r = file r.
Proof.
  intros type w.
  unfold dw_hdmi_qp_bridge_clear_infoframe, clear_trace, tx_en_bits.
  destruct (type =? HDMI_INFOFRAME_TYPE_AVI) eqn:Ea;
    [| destruct (type =? HDMI_INFOFRAME_TYPE_DRM) eqn:Ed];
    cbn [orb]; run; change (u32 0) with 0;
    (eexists; split; [reflexivity |]); cbn [log hdmi];
    (split; [rewrite ?app_nil_r; reflexivity |]);
    (split; [reflexivity |]).
  1, 2: split; [intros Hna Hnd; apply Z.eqb_eq in Ea || apply Z.eqb_eq in Ed;
                congruence |].
  1, 2: intros file; cbv zeta; cbn [regmap_replay fold_left regmap_apply];
        rewrite Z.eqb_refl;
        split; [apply update_bits_clears |];
        split; [apply update_bits_keeps |];
        intros r Hr; apply Z.eqb_neq in Hr; rewrite Hr; reflexivity.
  split; [intros _ _; destruct w; reflexivity |].
  intros file. cbv zeta. cbn [regmap_replay fold_left].
  rewrite Z.land_0_r, land_lnot_0. repeat split.
Qed.

(** Written through the bridge callback, an AVI infoframe is taken off
    the wire first: the callback clears the AVI and GCP transmit-enable
    bits before the encoder, which does not clear them itself, writes
    the control word and the four content words.  The bits stay 0 up to
    and including the field-rate update (the packet-enable register
    being none of the registers written in between) and are set by the
    last call. *)
Theorem write_avi_infoframe_tx_disabled_while_written :
  forall (buffer : bytes) (w : world),
    PKTSCHED_PKT_EN <> PKT_AVI_CONTENTS0 ->
    (forall k, 0 <= k < 4 -> PKTSCHED_PKT_EN <> PKT_AVI_CONTENTS1 + k * 4) ->
    PKTSCHED_PKT_EN <> PKTSCHED_PKT_CONFIG1 ->
    let tx_en := u32 (Z.lor PKTSCHED_AVI_TX_EN PKTSCHED_GCP_TX_EN) in
    let L := RegmapUpdateBits PKTSCHED_PKT_EN tx_en 0
             :: avi_trace (load buffer) in
    exists w',
      dw_hdmi_qp_bridge_write_infoframe HDMI_INFOFRAME_TYPE_AVI buffer
                                        HDMI_INFOFRAME_SIZE_AVI w
      = Some (0, w') /\
      log w' = log w ++ L /\
      (forall (file : Z -> Z) (j : nat),
          (1 <= j <= 7)%nat ->
          Z.land (regmap_replay file (firstn j L) PKTSCHED_PKT_EN) tx_en
          = 0) /\
      (forall file : Z -> Z,
          Z.land (regmap_replay file L PKTSCHED_PKT_EN) tx_en = tx_en).
Proof.
  intros buffer w Hc0 Hc1 Hcfg tx_en L.
  unfold dw_hdmi_qp_bridge_write_infoframe,
    dw_hdmi_qp_bridge_clear_infoframe.
  rewrite Z.eqb_refl. run.
  match goal with
  | |- context [dw_hdmi_qp_config_avi_infoframe _ _ ?w0] =>
      destruct (dw_hdmi_qp_config_avi_infoframe_spec buffer w0)
        as (w' & Hrun & Hlog & _ & _)
  end.
  cbn [log] in Hlog. exists w'. split; [exact Hrun |].
  split; [rewrite Hlog, <- app_assoc; reflexivity |].
  assert (H0 := Hc1 0 ltac:(lia)). assert (H1 := Hc1 1 ltac:(lia)).
  assert (H2 := Hc1 2 ltac:(lia)). assert (H3 := Hc1 3 ltac:(lia)).
  apply Z.eqb_neq in Hc0, H0, H1, H2, H3, Hcfg.
  split.
  - intros file j Hj. subst L. unfold avi_trace.
    destruct j as [| [| [| [| [| [| [| [| j]]]]]]]]; try lia;
      cbn [firstn regmap_replay fold_left regmap_apply];
      rewrite ?Hc0, ?H0, ?H1, ?H2, ?H3, ?Hcfg, ?Z.eqb_refl;
      apply update_bits_clears.
  - intros file. subst L. unfold avi_trace.
    cbn [regmap_replay fold_left regmap_apply].
    rewrite Z.eqb_refl. apply update_bits_sets.
Qed.

(** A write through the bridge callback with a length that is not the
    wire size of the type fails with -EINVAL, but not without effect:
    the transmit-enable bits of the type have been cleared by then, by
    the one register access made, so the infoframe stays off the wire.
    A write of a type the driver does not know returns 0 and does
    nothing, whatever the buffer and the length. *)
Theorem write_infoframe_bad_length_leaves_tx_disabled :
  forall (type : Z) (buffer : bytes) (len : Z) (w : world),
    HDMI_INFOFRAME_TYPE_AVI <> HDMI_INFOFRAME_TYPE_DRM ->
    (type = HDMI_INFOFRAME_TYPE_AVI -> len <> HDMI_INFOFRAME_SIZE_AVI) ->
    (type = HDMI_INFOFRAME_TYPE_DRM -> len <> HDMI_INFOFRAME_SIZE_DRM) ->
    exists w',
      dw_hdmi_qp_bridge_write_infoframe type buffer len w
      = Some ((if (type =? HDMI_INFOFRAME_TYPE_AVI)
                  || (type =? HDMI_INFOFRAME_TYPE_DRM)
               then - EINVAL else 0), w') /\
      log w' = log w ++ clear_trace type /\
      loads w' = loads w /\
      (type <> HDMI_INFOFRAME_TYPE_AVI ->
       type <> HDMI_INFOFRAME_TYPE_DRM -> w' = w) /\
      forall file : Z -> Z,
        Z.land (regmap_replay file (clear_trace type) PKTSCHED_PKT_EN)
               (tx_en_bits type) = 0.
Proof.
  intros type buffer len w Hdist Havi Hdrm.
  unfold dw_hdmi_qp_bridge_write_infoframe,
    dw_hdmi_qp_bridge_clear_infoframe, clear_trace, tx_en_bits,
    dw_hdmi_qp_config_avi_infoframe, dw_hdmi_qp_config_drm_infoframe.
  destruct (Z.eqb_spec type HDMI_INFOFRAME_TYPE_AVI) as [Ea | Ea];
    [| destruct (Z.eqb_spec type HDMI_INFOFRAME_TYPE_DRM) as [Ed | Ed]];
    cbn [orb].
  - specialize (Havi Ea). apply Z.eqb_neq in Havi. rewrite Havi.
    cbn [negb]. run. change (u32 0) with 0.
    eexists. split; [reflexivity |]. cbn [log loads].
    split; [reflexivity |]. split; [reflexivity |].
    split; [congruence |].
    intros file. cbn [regmap_replay fold_left regmap_apply].
    rewrite Z.eqb_refl. apply update_bits_clears.
  - specialize (Hdrm Ed). apply Z.eqb_neq in Hdrm. rewrite Hdrm.
    cbn [negb]. run. change (u32 0) with 0.
    eexists. split; [reflexivity |]. cbn [log loads].
    split; [reflexivity |]. split; [reflexivity |].
    split; [congruence |].
    intros file. cbn [regmap_replay fold_left regmap_apply].
    rewrite Z.eqb_refl. apply update_bits_clears.
  - run. exists w. split; [reflexivity |].
    split; [rewrite app_nil_r; reflexivity |]. split; [reflexivity |].
    split; [reflexivity |].
    intros file. apply Z.land_0_r.
Qed.

(** The AVI encoder reads the buffer at offsets 1 to 16 only, whatever
    the buffer holds: its loops are bounded by constants, and a buffer
    of the wire size it insists on covers every load. *)
Theorem avi_loads_within_wire_size :
  forall (buffer : bytes) (len : Z) (w : world),
    len = HDMI_INFOFRAME_SIZE_AVI ->
    exists w',
      dw_hdmi_qp_config_avi_infoframe buffer len w = Some (0, w') /\
      loads w' = loads w ++ avi_loads /\
      Forall (fun o => 1 <= o <= 16) avi_loads.
Proof.
  intros buffer len w ->.
  destruct (dw_hdmi_qp_config_avi_infoframe_spec buffer w)
    as (w' & Hrun & _ & Hld & _).
  exists w'. split; [exact Hrun |]. split; [exact Hld |].
  unfold avi_loads. repeat (apply Forall_cons; [lia |]). apply Forall_nil.
Qed.

Lemma pack_word3 b0 b1 b2 :
  0 <= b0 < 256 -> 0 <= b1 < 256 -> 0 <= b2 < 256 ->
  u32 (Z.lor (u32 (Z.lor (u32 (Z.lor b0 (Z.shiftl b0 0)))
                         (Z.shiftl b1 8)))
             (Z.shiftl b2 16))
  = le_word [b0; b1; b2].
Proof.
  intros H0 H1 H2. rewrite pack_first by assumption.
  rewrite (pack_next b0 b1 8) by lia.
  rewrite (pack_next _ b2 16) by lia.
  cbn [le_word]. lia.
Qed.

Lemma drm_pack_writes buffer fuel :
  forall i val w,
  exists w',
    drm_pack fuel buffer i val w = Some (tt, w') /\
    log w' = log w ++ drm_writes fuel (load buffer) (load buffer 2) i val.
Proof.
  induction fuel as [| fuel IH]; intros i val w.
  - exists w. cbn. rewrite app_nil_r. split; reflexivity.
  - cbn [drm_pack drm_writes]. run.
    set (n := load buffer 2) in *.
    destruct (i <=? n).
    2: { eexists. split; [reflexivity |]. now rewrite app_nil_r. }
    cbv zeta.
    destruct (i mod 4 =? 0); run;
      (destruct (i mod 4 =? 3); cbn [orb]; run;
       [| destruct (i =? n); run ]);
      match goal with
      | |- context [drm_pack fuel buffer ?i' ?v' ?w0] =>
          destruct (IH i' v' w0) as (w' & Hrun & Hlog);
          rewrite Hrun
      end;
      cbn [log] in Hlog; exists w'; (split; [reflexivity |]);
      rewrite Hlog, ?u32_idem; repeat rewrite <- app_assoc; reflexivity.
Qed.

(** A DRM infoframe of the wire format, body length 26, written through
    the bridge callback.  The transmit-enable bit is cleared twice, by
    the callback and again by the encoder; the control word holds bytes
    1 and 2; the checksum and the body, bytes 3 to 29, go little-endian
    into content words 0 to 6, four bytes a word and three in the last;
    then the field rate is cleared and transmit-enable set.  No byte at
    offset 30 or beyond enters a register. *)
Theorem write_drm_infoframe_words :
  forall (buffer : bytes) (w : world),
    HDMI_INFOFRAME_TYPE_AVI <> HDMI_INFOFRAME_TYPE_DRM ->
    load buffer 2 = 26 ->
    exists w',
      dw_hdmi_qp_bridge_write_infoframe HDMI_INFOFRAME_TYPE_DRM buffer
                                        HDMI_INFOFRAME_SIZE_DRM w
      = Some (0, w') /\
      log w' = log w ++
        drmi_tx_disable
        :: drmi_trace (le_word [0; load buffer 1; 26])
                      (drm_words (load buffer)).
Proof.
  intros buffer w Hdist Hn.
  unfold dw_hdmi_qp_bridge_write_infoframe,
    dw_hdmi_qp_bridge_clear_infoframe.
  assert (Ed : (HDMI_INFOFRAME_TYPE_DRM =? HDMI_INFOFRAME_TYPE_AVI) = false)
    by (apply Z.eqb_neq; congruence).
  rewrite Ed, Z.eqb_refl.
  unfold dw_hdmi_qp_config_drm_infoframe. rewrite Z.eqb_refl.
  cbn [negb]. run.
  match goal with
  | |- context [drm_pack 257 buffer 0 ?v ?w0] =>
      destruct (drm_pack_writes buffer 257 0 v w0) as (w1 & Hrun & Hlog);
      rewrite Hrun
  end.
  cbn [log] in Hlog. rewrite Hn in Hlog.
  eexists. split; [reflexivity |]. cbn [log]. rewrite Hlog.
  cbn -[u32 load Z.lor Z.shiftl le_word].
  rewrite !u32_idem.
  rewrite !pack_word4, pack_word3, pack_control
    by (first [apply load_range | lia]).
  change (u32 0) with 0.
  unfold drmi_tx_disable, drmi_trace, drm_words, drmi_fieldrate_clear,
    drmi_tx_enable.
  cbn [length seq combine map drmi_content_write fst snd app].
  repeat rewrite <- app_assoc. cbn [app].
  reflexivity.
Qed.

End InfoframeProperties.

(** ** The infoframe callbacks on concrete inputs *)

Lemma write_avi_infoframe_tx_disabled_while_written_witness :
  exists w',
    @dw_hdmi_qp_bridge_write_infoframe sample_regs sample_linux
      sample_hdmi_h 0x82 avi_buffer 17 (world_of unbound_hdmi [])
    = Some (0, w') /\
    Z.land (regmap_replay (fun _ => 0xffffffff) (firstn 7 (log w')) 0xaa8)
           0x2008 = 0 /\
    Z.land (regmap_replay (fun _ => 0) (log w') 0xaa8) 0x2008 = 0x2008.
Proof.
  destruct (@write_avi_infoframe_tx_disabled_while_written
              sample_regs sample_linux sample_hdmi_h avi_buffer
              (world_of unbound_hdmi [])
              ltac:(discriminate)
              ltac:(intros k Hk;
                    cbv [PKTSCHED_PKT_EN PKT_AVI_CONTENTS1 sample_regs]; lia)
              ltac:(discriminate))
    as (w' & Hrun & Hlog & Hoff & Hon).
  exists w'. split; [exact Hrun |].
  cbn [log world_of app] in Hlog. rewrite Hlog.
  split; [exact (Hoff (fun _ => 0xffffffff) 7%nat ltac:(lia)) |].
  exact (Hon (fun _ => 0)).
Defined.

Lemma write_infoframe_bad_length_leaves_tx_disabled_witness :
  exists w',
    @dw_hdmi_qp_bridge_write_infoframe sample_regs sample_linux
      sample_hdmi_h 0x87 drm_buffer 29 (world_of unbound_hdmi [])
    = Some (-22, w') /\
    log w' = [RegmapUpdateBits 0xaa8 0x20000 0].
Proof.
  destruct (@write_infoframe_bad_length_leaves_tx_disabled
              sample_regs sample_linux sample_hdmi_h 0x87 drm_buffer 29
              (world_of unbound_hdmi [])
              ltac:(discriminate) ltac:(discriminate) ltac:(discriminate))
    as (w' & Hrun & Hlog & _).
  exists w'. split; [exact Hrun | exact Hlog].
Defined.

Lemma avi_loads_within_wire_size_witness :
  exists w',
    @dw_hdmi_qp_config_avi_infoframe sample_regs sample_linux
      avi_buffer 17 (world_of unbound_hdmi [])
    = Some (0, w') /\
    loads w' = avi_loads.
Proof.
  destruct (@avi_loads_within_wire_size sample_regs sample_linux
              avi_buffer 17 (world_of unbound_hdmi []) eq_refl)
    as (w' & Hrun & Hld & _).
  exists w'. split; [exact Hrun | exact Hld].
Defined.

Lemma write_drm_infoframe_words_witness :
  exists w',
    @dw_hdmi_qp_bridge_write_infoframe sample_regs sample_linux
      sample_hdmi_h 0x87 drm_buffer 30 (world_of unbound_hdmi [])
    = Some (0, w') /\
    nth 9 (log w') Complete = RegmapWrite (0xbf4 + 6 * 4) 0x181716.
Proof.
  destruct (@write_drm_infoframe_words sample_regs sample_linux
              sample_hdmi_h drm_buffer (world_of unbound_hdmi [])
              ltac:(discriminate) eq_refl)
    as (w' & Hrun & Hlog).
  exists w'. split; [exact Hrun |].
  rewrite Hlog. reflexivity.
Defined.
(** * More properties of the I2C adapter: what a transfer touches *)

Section FootprintProperties.
Context {regs : dw_hdmi_qp_h} {linux : linux_h}.

Lemma stays_i2c_ret {A} (a : A) : stays_i2c (ret a).
Proof.
  intros w a' w' H. injection H as <- <-. exists [].
  now rewrite app_nil_r.
Qed.

Lemma stays_i2c_bind {A B} (m : M A) (k : A -> M B) :
  stays_i2c m -> (forall a, stays_i2c (k a)) -> stays_i2c (bind m k).
Proof.
  intros Hm Hk w b w' H. unfold bind in H.
  destruct (m w) as [[a w1] |] eqn:E; [| discriminate].
  destruct (Hm w a w1 E) as (L1 & Hl1 & Hf1).
  destruct (Hk a w1 b w' H) as (L2 & Hl2 & Hf2).
  exists (L1 ++ L2). split.
  - rewrite Hl2, Hl1. now rewrite app_assoc.
  - rewrite forallb_app, Hf1, Hf2. reflexivity.
Qed.

Lemma stays_i2c_if {A} (c : bool) (m1 m2 : M A) :
  stays_i2c m1 -> stays_i2c m2 -> stays_i2c (if c then m1 else m2).
Proof. destruct c; auto. Qed.

Lemma stays_i2c_gets {A} (f : world -> A) : stays_i2c (gets f).
Proof.
  intros w a w' H. injection H as <- <-. exists [].
  now rewrite app_nil_r.
Qed.

Lemma stays_i2c_set_i2c f : stays_i2c (set_i2c f).
Proof.
  intros w a w' H. injection H as <- <-. exists [].
  now rewrite app_nil_r.
Qed.

Lemma stays_i2c_emit e : i2c_event e = true -> stays_i2c (emit e).
Proof.
  intros He w a w' H. injection H as <- <-. exists [e]. split.
  - reflexivity.
  - cbn. now rewrite He.
Qed.

Lemma existsb_eqb_in r S : In r S -> existsb (Z.eqb r) S = true.
Proof.
  intros Hin. apply existsb_exists. exists r. split; [exact Hin |].
  apply Z.eqb_refl.
Qed.

Lemma stays_i2c_write v r :
  In r i2c_byte_regs -> stays_i2c (dw_hdmi_qp_write v r).
Proof.
  intros Hin. apply stays_i2c_emit. cbn [i2c_event].
  now apply existsb_eqb_in.
Qed.

Lemma stays_i2c_mod d m r :
  In r i2c_byte_regs -> stays_i2c (dw_hdmi_qp_mod d m r).
Proof.
  intros Hin. apply stays_i2c_emit. cbn [i2c_event].
  now apply existsb_eqb_in.
Qed.

Lemma stays_i2c_read r :
  r = MAINUNIT_1_INT_STATUS \/ r = I2CM_INTERFACE_RDDATA_0_3 ->
  stays_i2c (dw_hdmi_qp_read r).
Proof.
  intros Hr. unfold dw_hdmi_qp_read.
  apply stays_i2c_bind; [apply stays_i2c_gets |]. intros v.
  apply stays_i2c_bind; [| intros; apply stays_i2c_ret].
  apply stays_i2c_emit. cbn [i2c_event].
  destruct Hr as [-> | ->]; rewrite Z.eqb_refl; [reflexivity |].
  apply orb_true_r.
Qed.

Lemma stays_i2c_silent {A} (m : M A) :
  (forall w a w', m w = Some (a, w') -> log w' = log w) -> stays_i2c m.
Proof.
  intros H w a w' E. exists []. rewrite app_nil_r. split; [| reflexivity].
  exact (H w a w' E).
Qed.

Ltac i2c_regs :=
  unfold i2c_byte_regs; cbn [In]; solve [auto 10].

Ltac stays_with tac :=
  repeat first
    [ tac
    | apply stays_i2c_ret
    | apply stays_i2c_gets
    | apply stays_i2c_set_i2c
    | apply stays_i2c_write; i2c_regs
    | apply stays_i2c_mod; i2c_regs
    | apply stays_i2c_read; solve [auto]
    | apply stays_i2c_emit; reflexivity
    | apply stays_i2c_if
    | apply stays_i2c_bind; [| intros ?] ].

Ltac stays := stays_with fail.

Lemma stays_i2c_main_hardirq : stays_i2c dw_hdmi_qp_main_hardirq.
Proof.
  unfold dw_hdmi_qp_main_hardirq, complete.
  stays.
Qed.

Lemma stays_i2c_wait t : stays_i2c (wait_for_completion_timeout t).
Proof.
  unfold wait_for_completion_timeout.
  apply stays_i2c_bind.
  { apply stays_i2c_silent. intros w a w' H. unfold next_irq in H.
    destruct (irqs w); injection H as <- <-; reflexivity. }
  intros r. apply stays_i2c_bind.
  { destruct r as [| s d]; [apply stays_i2c_ret |].
    apply stays_i2c_bind.
    { apply stays_i2c_silent. intros w a w' H. injection H as <- <-.
      reflexivity. }
    intros _. apply stays_i2c_bind.
    { apply stays_i2c_silent. intros w a w' H. injection H as <- <-.
      reflexivity. }
    intros _. apply stays_i2c_bind; [apply stays_i2c_main_hardirq |].
    intros; apply stays_i2c_ret. }
  intros _. stays.
Qed.

Lemma stays_i2c_read_body buf pos : stays_i2c (i2c_read_body buf pos).
Proof.
  unfold i2c_read_body, reinit_completion, slave_reg_postinc.
  stays_with ltac:(apply stays_i2c_wait).
Qed.

Lemma stays_i2c_read_loop n :
  forall buf pos, stays_i2c (i2c_read_loop n buf pos).
Proof.
  induction n as [| n IH]; intros buf pos; cbn [i2c_read_loop].
  - apply stays_i2c_ret.
  - apply stays_i2c_bind; [apply stays_i2c_read_body |]. intros r.
    destruct (fst r); [apply stays_i2c_ret | apply IH].
Qed.

Lemma stays_i2c_i2c_read buf n : stays_i2c (dw_hdmi_qp_i2c_read buf n).
Proof.
  unfold dw_hdmi_qp_i2c_read.
  stays_with ltac:(apply stays_i2c_read_loop).
  match goal with
  | |- context [match fst ?x with _ => _ end] => destruct (fst x)
  end; stays.
Qed.

Lemma stays_i2c_write_body buf pos : stays_i2c (i2c_write_body buf pos).
Proof.
  unfold i2c_write_body, reinit_completion, slave_reg_postinc.
  stays_with ltac:(apply stays_i2c_wait).
Qed.

Lemma stays_i2c_write_loop n :
  forall buf pos, stays_i2c (i2c_write_loop n buf pos).
Proof.
  induction n as [| n IH]; intros buf pos; cbn [i2c_write_loop].
  - apply stays_i2c_ret.
  - apply stays_i2c_bind; [apply stays_i2c_write_body |]. intros r.
    destruct r; [apply stays_i2c_ret | apply IH].
Qed.

Lemma stays_i2c_i2c_write buf n : stays_i2c (dw_hdmi_qp_i2c_write buf n).
Proof.
  unfold dw_hdmi_qp_i2c_write.
  stays_with ltac:(apply stays_i2c_write_loop).
Qed.

Lemma stays_i2c_xfer_msg m r : stays_i2c (xfer_msg m r).
Proof.
  unfold xfer_msg.
  stays_with ltac:(first [apply stays_i2c_i2c_read
                         | apply stays_i2c_i2c_write]).
Qed.

Lemma stays_i2c_xfer_msgs msgs : forall r, stays_i2c (xfer_msgs msgs r).
Proof.
  induction msgs as [| m rest IH]; intros r; cbn [xfer_msgs].
  - apply stays_i2c_ret.
  - apply stays_i2c_bind; [apply stays_i2c_xfer_msg |]. intros rm.
    apply stays_i2c_if; [apply stays_i2c_ret |].
    apply stays_i2c_bind; [apply IH | intros; apply stays_i2c_ret].
Qed.

Lemma regmap_replay_outside L :
  forall file r,
    Forall (fun e => reg_of e <> Some r) L ->
    regmap_replay file L r = file r.
Proof.
  induction L as [| e L IH]; intros file r Hall; [reflexivity |].
  inversion Hall as [| ? ? He HL]; subst.
  change (regmap_replay file (e :: L))
    with (regmap_replay (regmap_apply file e) L).
  rewrite IH by exact HL.
  destruct e; cbn [regmap_apply reg_of] in *; try reflexivity;
    (destruct (Z.eqb_spec r reg); [congruence | reflexivity]).
Qed.

Lemma i2c_events_outside L r :
  forallb i2c_event L = true ->
  ~ In r i2c_byte_regs ->
  Forall (fun e => reg_of e <> Some r) L.
Proof.
  intros Hall Hout. rewrite forallb_forall in Hall.
  apply Forall_forall. intros e Hin Hreg.
  specialize (Hall e Hin).
  destruct e; cbn [reg_of i2c_event] in *; try discriminate;
    injection Hreg as ->; apply existsb_exists in Hall;
    destruct Hall as (x & Hx & Heq); apply Z.eqb_eq in Heq; subst x;
    contradiction.
Qed.

(** What an accepted transfer touches.  Between the unmuting and the
    muting of the interrupts it makes only calls of byte operations:
    writes and updates of the I2C control, interface, write-data and
    interrupt-clear registers, reads of the interrupt status and the data
    register, the completion.  On the register file, whether the
    transfer succeeded or not, the DONE and NACK bits of the interrupt
    mask are clear when it returns (the mask register being none of the
    registers above), and every register that is neither the mask nor
    one of those is as it was. *)
Theorem xfer_leaves_interrupts_muted :
  forall (msgs : list i2c_msg) (m0 : i2c_msg) (w : world),
    0 < EAGAIN -> 0 < EIO ->
    hd_error msgs = Some m0 ->
    u8 (addr m0) <> DDC_CI_ADDR ->
    Forall (fun m => len m <> 0) msgs ->
    exists r msgs' w' L,
      dw_hdmi_qp_i2c_xfer msgs w = Some ((r, msgs'), w') /\
      let T := unmute_irqs :: slave_addr_update m0 :: L ++ [mute_irqs] in
      log w' = log w ++ T /\
      forallb i2c_event L = true /\
      forall file : Z -> Z,
        (~ In MAINUNIT_1_INT_MASK_N i2c_byte_regs ->
         Z.land (regmap_replay file T MAINUNIT_1_INT_MASK_N)
                (u32 (Z.lor I2CM_OP_DONE_MASK_N I2CM_NACK_RCVD_MASK_N))
         = 0) /\
        (forall reg,
            ~ In reg (MAINUNIT_1_INT_MASK_N :: i2c_byte_regs) ->
            regmap_replay file T reg = file reg).
Proof.
  intros msgs m0 w Hagain Hio Hhd Hci Hlen.
  destruct msgs as [| m rest]; [discriminate |].
  injection Hhd as ->.
  unfold dw_hdmi_qp_i2c_xfer.
  apply Z.eqb_neq in Hci. rewrite Hci.
  rewrite (existsb_len_zero _ Hlen). run.
  match goal with
  | |- context [xfer_msgs ?ms 0 ?w0] =>
      destruct (xfer_msgs_spec ms Hagain Hio w0)
        as (rr & w1 & L & [Hrun Hlog] & _);
      destruct (stays_i2c_xfer_msgs ms 0 w0 rr w1 Hrun)
        as (L' & Hlog' & Hev)
  end.
  rewrite Hlog in Hlog'. apply app_inv_head in Hlog'. subst L'.
  rewrite Hrun. cbn [log] in Hlog.
  eexists _, _, _, L. split; [reflexivity |]. cbv zeta. cbn [log].
  split; [rewrite Hlog; repeat rewrite <- app_assoc; reflexivity |].
  split; [exact Hev |].
  intros file. split.
  - intros Hout.
    change (unmute_irqs :: slave_addr_update m0 :: L ++ [mute_irqs])
      with ((unmute_irqs :: slave_addr_update m0 :: L) ++ [mute_irqs]).
    rewrite regmap_replay_app.
    cbn [regmap_replay fold_left]. unfold mute_irqs. cbn [regmap_apply].
    rewrite Z.eqb_refl. apply update_bits_clears.
  - intros reg Hout.
    apply regmap_replay_outside.
    assert (Hmask : reg <> MAINUNIT_1_INT_MASK_N)
      by (intros ->; apply Hout; left; reflexivity).
    assert (Hregs : ~ In reg i2c_byte_regs)
      by (intros Hin; apply Hout; right; exact Hin).
    constructor; [cbn [unmute_irqs reg_of]; congruence |].
    constructor.
    { unfold slave_addr_update. cbn [reg_of]. intros Heq.
      injection Heq as Heq. apply Hregs. rewrite <- Heq.
      unfold i2c_byte_regs. cbn [In]. auto. }
    apply Forall_app. split; [apply i2c_events_outside; assumption |].
    constructor; [cbn [mute_irqs reg_of]; congruence | constructor].
Qed.

End FootprintProperties.

Lemma xfer_leaves_interrupts_muted_witness :
  exists r msgs' w',
    @dw_hdmi_qp_i2c_xfer sample_regs sample_linux edid_batch
      (world_of unbound_hdmi [HwIrq 1 0xab; HwIrq 4 0])
    = Some ((r, msgs'), w') /\
    Z.land (regmap_replay (fun _ => 0xffffffff) (log w') 0x3024) 5 = 0 /\
    regmap_replay (fun _ => 0xffffffff) (log w') 0x960 = 0xffffffff.
Proof.
  destruct (@xfer_leaves_interrupts_muted sample_regs sample_linux
              edid_batch one_byte_msg
              (world_of unbound_hdmi [HwIrq 1 0xab; HwIrq 4 0])
              ltac:(reflexivity) ltac:(reflexivity) eq_refl
              ltac:(discriminate)
              ltac:(repeat constructor; discriminate))
    as (r & msgs' & w' & L & Hrun & Hlog & _ & Hfile).
  exists r, msgs', w'. split; [exact Hrun |].
  cbn [log world_of app] in Hlog. rewrite Hlog.
  destruct (Hfile (fun _ => 0xffffffff)) as [Hmask Hrest].
  split.
  - apply Hmask. cbv. intuition discriminate.
  - apply (Hrest 0x960). cbv. intuition discriminate.
Defined.

(** * Properties of hardware initialisation and binding *)

(** Runs the second monad and the computations of the core model that
    are called from it. *)
Ltac krun :=
  cbn [kbind kret kgets klog koops set_phy_ops set_i2c_ptr next_answer
       core_call
       bind ret gets emit set_hdmi set_i2c
       dw_hdmi_qp_write dw_hdmi_qp_read dw_hdmi_qp_mod
       core phy_ops i2c_ptr hpd sink_edid conn_crtc conn_commit answers
       calls hdmi hw irqs sink_scdc sink_scrambling log loads fst snd
       map app succeeded int_of negb].

Section PlatformProperties.
Context {regs : dw_hdmi_qp_h} {linux : linux_h}
        {init_h : dw_hdmi_qp_init_h} {errno : linux_errno_h}.

Lemma dw_hdmi_qp_init_hw_spec p ops :
  phy_ops p = Some ops ->
  exists p',
    dw_hdmi_qp_init_hw p = Some (tt, p') /\
    calls p' = calls p ++ map Core init_hw_writes
               ++ (if setup_hpd ops then [PhySetupHpd] else []) /\
    log (core p') = log (core p) ++ init_hw_writes /\
    hdmi (core p') = hdmi (core p) /\
    phy_ops p' = phy_ops p /\
    i2c_ptr p' = i2c_ptr p /\
    answers p' = answers p.
Proof.
  intros Hops. unfold dw_hdmi_qp_init_hw. krun.
  unfold the_phy_ops. krun. rewrite Hops. krun.
  change (u32 0) with 0. change (u32 1) with 1.
  change (u32 428571429) with 428571429.
  change (u32 140249180) with 140249180.
  destruct (setup_hpd ops); krun;
    (eexists; split; [reflexivity |]); krun;
    unfold init_hw_writes; cbn [map app];
    repeat rewrite <- app_assoc; cbn [app]; repeat split;
    rewrite ?app_nil_r; reflexivity.
Qed.

(** Turns [NoDup] of a list of registers into its inequalities and
    decides with them the comparisons of registers in the goal. *)
Ltac distinct_regs Hnd :=
  repeat (apply NoDup_cons_iff in Hnd;
          let Hn := fresh "Hn" in destruct Hnd as [Hn Hnd];
          cbn [In] in Hn);
  repeat match goal with
         | |- context [?a =? ?a] => rewrite (Z.eqb_refl a)
         | |- context [?a =? ?b] =>
             rewrite (proj2 (Z.eqb_neq a b)) by intuition congruence
         end.

Lemma init_hw_writes_replay file :
  NoDup init_hw_regs ->
  let file' := regmap_replay file init_hw_writes in
  file' MAINUNIT_0_INT_MASK_N = 0 /\
  file' MAINUNIT_1_INT_MASK_N = 0 /\
  file' TIMER_BASE_CONFIG0 = 428571429 /\
  file' I2CM_CONTROL0 = 1 /\
  file' I2CM_FM_SCL_CONFIG0 = 0x085c085c /\
  file' I2CM_INTERFACE_CONTROL0
  = Z.land (file I2CM_INTERFACE_CONTROL0) (Z.lnot (u32 I2CM_FM_EN)) /\
  file' MAINUNIT_1_INT_CLEAR
  = u32 (Z.lor I2CM_OP_DONE_CLEAR I2CM_NACK_RCVD_CLEAR).
Proof.
  intros Hnd file'. subst file'. unfold init_hw_writes.
  cbn [regmap_replay fold_left regmap_apply].
  distinct_regs Hnd.
  rewrite Z.land_0_l, Z.lor_0_r. repeat split.
Qed.

Lemma init_hw_writes_outside r :
  ~ In r init_hw_regs ->
  Forall (fun e => reg_of e <> Some r) init_hw_writes.
Proof.
  intros Hout. unfold init_hw_writes, init_hw_regs in *. cbn [In] in Hout.
  repeat (apply Forall_cons;
          [cbn [reg_of]; intros Heq; injection Heq as Heq; intuition |]).
  apply Forall_nil.
Qed.

(** Hardware initialisation, at binding and at every resume.  It writes
    seven registers and, last, has the PHY set up hot-plug detection if
    the platform provides that operation; the private data is not
    touched.  Whatever the registers held, the registers being distinct,
    afterwards both interrupt mask registers are 0, the timer base is
    428571429, the I2C master has been reset, the SCL timing is
    0x085c085c, the FM_EN bit of the interface control register is clear
    with its other bits kept, and the DONE and NACK clear bits have been
    written; no other register changes.  Running it again changes
    nothing. *)
Theorem init_hw_programs_the_controller :
  forall (p : platform) (ops : dw_hdmi_qp_phy_ops),
    phy_ops p = Some ops ->
    NoDup init_hw_regs ->
    exists p',
      dw_hdmi_qp_resume p = Some (tt, p') /\
      dw_hdmi_qp_init_hw p = Some (tt, p') /\
      calls p' = calls p ++ map Core init_hw_writes
                 ++ (if setup_hpd ops then [PhySetupHpd] else []) /\
      hdmi (core p') = hdmi (core p) /\
      forall file : Z -> Z,
        let file' := regmap_replay file init_hw_writes in
        file' MAINUNIT_0_INT_MASK_N = 0 /\
        file' MAINUNIT_1_INT_MASK_N = 0 /\
        file' TIMER_BASE_CONFIG0 = 428571429 /\
        file' I2CM_CONTROL0 = 1 /\
        file' I2CM_FM_SCL_CONFIG0 = 0x085c085c /\
        file' I2CM_INTERFACE_CONTROL0
        = Z.land (file I2CM_INTERFACE_CONTROL0) (Z.lnot (u32 I2CM_FM_EN)) /\
        file' MAINUNIT_1_INT_CLEAR
        = u32 (Z.lor I2CM_OP_DONE_CLEAR I2CM_NACK_RCVD_CLEAR) /\
        (forall r, ~ In r init_hw_regs -> file' r = file r) /\
        (forall r, regmap_replay file' init_hw_writes r = file' r).
Proof.
  intros p ops Hops Hnd.
  destruct (dw_hdmi_qp_init_hw_spec p ops Hops)
    as (p' & Hrun & Hcalls & _ & Hhdmi & _).
  exists p'. split; [exact Hrun |]. split; [exact Hrun |].
  split; [exact Hcalls |]. split; [exact Hhdmi |].
  intros file file'.
  destruct (init_hw_writes_replay file Hnd)
    as (V0 & V1 & V2 & V3 & V4 & V5 & V6).
  destruct (init_hw_writes_replay file' Hnd)
    as (W0 & W1 & W2 & W3 & W4 & W5 & W6).
  fold file' in V0, V1, V2, V3, V4, V5, V6.
  repeat (split; [assumption |]).
  split.
  - intros r Hout. apply regmap_replay_outside.
    apply init_hw_writes_outside. exact Hout.
  - intros r. destruct (in_dec Z.eq_dec r init_hw_regs) as [Hin | Hout].
    + unfold init_hw_regs in Hin. cbn [In] in Hin.
      destruct Hin as [<- | [<- | [<- | [<- | [<- | [<- | [<- | []]]]]]]];
        try congruence.
      rewrite W5, V5, <- Z.land_assoc, Z.land_diag. reflexivity.
    + apply regmap_replay_outside. apply init_hw_writes_outside.
      exact Hout.
Qed.

(** ** Binding *)

(** Runs a path through binding once the answers are known. *)
Ltac krun_bind :=
  cbn [kbind kret kgets klog koops set_phy_ops set_i2c_ptr next_answer
       core_call bind ret gets emit set_hdmi set_i2c
       dw_hdmi_qp_write dw_hdmi_qp_read dw_hdmi_qp_mod
       init disable read_hpd setup_hpd
       core phy_ops i2c_ptr hpd sink_edid conn_crtc conn_commit answers
       calls hdmi hw irqs sink_scdc sink_scrambling log loads fst snd
       map app succeeded int_of negb orb Z.eqb].

Lemma bind_to_irq_spec plat_ops p :
  exists r p',
    bind_to_irq plat_ops p = Some (r, p') /\
    (r = None ->
     i2c_ptr p' = false /\
     phy_ops p' = plat_ops /\
     hdmi (core p') = zeroed_hdmi /\
     exists ops, plat_ops = Some ops).
Proof.
  destruct p as [w o i h e c cm ans cs].
  unfold bind_to_irq, dw_hdmi_qp_init_hw, the_phy_ops.
  destruct plat_ops as [[oi od orh os] |];
    [| eexists _, _; split; [reflexivity | discriminate]].
  cbn [init disable read_hpd].
  destruct oi, od, orh; cbn [negb orb];
    try (eexists _, _; split; [reflexivity | discriminate]).
  destruct os;
    destruct ans as [| [| e0] [| [| e1] [| [| e2] [| [| e3] rest]]]];
    krun_bind;
    try (eexists _, _; split; [reflexivity | discriminate]);
    try (eexists _, _; split; [reflexivity |]; intros _; krun_bind;
         repeat split; eexists; reflexivity).
  all: match goal with
       | |- context [?x =? 0] => destruct (x =? 0)
       end; krun_bind;
    (eexists _, _; split; [reflexivity |]);
    first [discriminate
          | intros _; krun_bind; repeat split; eexists; reflexivity].
Qed.

Lemma core_call_total {A} (m : M A) p :
  (forall w, exists a w', m w = Some (a, w')) ->
  exists a p', core_call m p = Some (a, p').
Proof.
  intros Htotal. unfold core_call.
  match goal with
  | |- context [m ?w0] => destruct (Htotal w0) as (a & w' & Hrun)
  end.
  rewrite Hrun. eexists _, _. reflexivity.
Qed.

(** The interrupt handler is registered before the adapter context it
    works on exists.  At the point at which binding has registered the
    handler, [hdmi->i2c] is still NULL: an interrupt on the line, which
    is requested as shared, makes the handler read the status register
    and then store through the NULL pointer.  Only when binding has
    gone on to create the adapter does the handler run to its end. *)
Theorem bind_registers_handler_before_adapter :
  forall (plat_ops : option dw_hdmi_qp_phy_ops) (p p1 : platform),
    bind_to_irq plat_ops p = Some (None, p1) ->
    i2c_ptr p1 = false /\
    hardirq_entry p1 = None /\
    forall p2,
      bind_from_irq p1 = Some (Valid, p2) ->
      i2c_ptr p2 = true /\
      exists r p3, hardirq_entry p2 = Some (r, p3).
Proof.
  intros plat_ops p p1 Hrun.
  destruct (bind_to_irq_spec plat_ops p) as (r & p1' & Hrun' & Hnone).
  rewrite Hrun in Hrun'. injection Hrun' as <- <-.
  destruct (Hnone eq_refl) as (Hptr & _).
  split; [exact Hptr |]. split.
  - unfold hardirq_entry. krun. rewrite Hptr. krun. reflexivity.
  - intros p2 Hfrom.
    assert (Hptr2 : i2c_ptr p2 = true).
    { destruct p1 as [w o i h e c cm ans cs].
      revert Hfrom. unfold bind_from_irq, dw_hdmi_qp_i2c_adapter.
      destruct ans as [| [| e0] [| [| e1] [| [| e2] [| [| e3] rest]]]];
        krun_bind;
        repeat match goal with
               | |- context [?x =? 0] => destruct (x =? 0); krun_bind
               end;
        intros Hfrom; cbv [kret] in Hfrom; try discriminate;
        inversion Hfrom; reflexivity. }
    split; [exact Hptr2 |].
    unfold hardirq_entry. krun. rewrite Hptr2.
    apply core_call_total. intros w.
    destruct (dw_hdmi_qp_main_hardirq_spec w) as (r & w' & L & [Hr _] & _).
    eauto.
Qed.

(** A binding to which every call succeeds.  It returns the private
    data, zeroed but for the PHY operations and the adapter context:
    scrambling off, no connector, the recheck idle.  The hardware has
    been initialised after the register map was created and before the
    interrupt handler was registered, and nothing else has touched a
    register. *)
Theorem bind_succeeds :
  forall (ops : dw_hdmi_qp_phy_ops) (p : platform),
    required_ops ops = true ->
    forallb succeeded (firstn 8 (answers p)) = true ->
    exists p',
      dw_hdmi_qp_bind (Some ops) p = Some (Valid, p') /\
      hdmi (core p') = zeroed_hdmi /\
      link_off (hdmi (core p')) = true /\
      phy_ops p' = Some ops /\
      i2c_ptr p' = true /\
      answers p' = skipn 8 (answers p) /\
      log (core p') = log (core p) ++ init_hw_writes /\
      calls p' = calls p ++ bind_calls_before_init
                 ++ map Core init_hw_writes
                 ++ (if setup_hpd ops then [PhySetupHpd] else [])
                 ++ bind_calls_after_init.
Proof.
  intros [oi od orh os] p Hreq Hans.
  unfold required_ops in Hreq. cbn [init disable read_hpd] in Hreq.
  destruct oi, od, orh; try discriminate. clear Hreq.
  destruct p as [w o i h e c cm ans cs].
  cbn [answers] in Hans.
  unfold dw_hdmi_qp_bind, bind_to_irq, bind_from_irq,
    dw_hdmi_qp_i2c_adapter, dw_hdmi_qp_init_hw, the_phy_ops.
  cbn [init disable read_hpd negb orb].
  do 8 (try (destruct ans as [| [| ?] ans];
             cbn [firstn forallb succeeded andb] in Hans;
             try discriminate)).
  all: destruct os; krun_bind;
    change (u32 0) with 0; change (u32 1) with 1;
    change (u32 428571429) with 428571429;
    change (u32 140249180) with 140249180;
    (eexists; split; [reflexivity |]); krun_bind;
    unfold init_hw_writes, bind_calls_before_init, bind_calls_after_init;
    cbn [map app skipn];
    repeat rewrite <- app_assoc; cbn [app]; rewrite ?app_nil_r;
    repeat split; reflexivity.
Qed.

(** Binding gives up at the first call that fails.  Without the PHY
    operations table, or without one of init, disable and read_hpd, it
    returns -ENODEV and has done nothing at all.  Otherwise, when the
    first [k] of its calls that can fail succeed and the next one fails
    with [err], it returns that error (-ENOMEM for an allocation) and
    asks nothing more of the environment; the controller has been
    initialised if and only if the register map had been created, that
    is from the registration of the interrupt handler on. *)
Theorem bind_returns_first_failure :
  (forall (plat_ops : option dw_hdmi_qp_phy_ops) (p : platform),
      match plat_ops with
      | None => True
      | Some o => required_ops o = false
      end ->
      dw_hdmi_qp_bind plat_ops p = Some (ErrPtr (- ENODEV), p)) /\
  (forall (ops : dw_hdmi_qp_phy_ops) (p : platform) (k : nat) (err : Z)
          (rest : list answer),
      required_ops ops = true ->
      (k < 8)%nat ->
      answers p = repeat Success k ++ Failure err :: rest ->
      err <> 0 ->
      exists p',
        dw_hdmi_qp_bind (Some ops) p = Some (ErrPtr (bind_error k err), p') /\
        answers p' = rest /\
        log (core p') = log (core p)
                        ++ (if (3 <=? k)%nat then init_hw_writes else [])).
Proof.
  split.
  - intros [[oi od orh os] |] p Hmiss; [| reflexivity].
    unfold required_ops in Hmiss. cbn [init disable read_hpd] in Hmiss.
    unfold dw_hdmi_qp_bind, bind_to_irq. cbn [init disable read_hpd].
    destruct oi, od, orh; try discriminate; reflexivity.
  - intros [oi od orh os] p k err rest Hreq Hk Hans Herr.
    unfold required_ops in Hreq. cbn [init disable read_hpd] in Hreq.
    destruct oi, od, orh; try discriminate. clear Hreq.
    apply Z.eqb_neq in Herr.
    destruct p as [w o i h e c cm ans cs].
    cbn [answers] in Hans. subst ans.
    unfold dw_hdmi_qp_bind, bind_to_irq, bind_from_irq,
      dw_hdmi_qp_i2c_adapter, dw_hdmi_qp_init_hw, the_phy_ops.
    cbn [init disable read_hpd negb orb].
    do 8 (destruct k as [| k];
          [cbn [repeat app]; destruct os; krun_bind; rewrite ?Herr;
           krun_bind;
           change (u32 0) with 0; change (u32 1) with 1;
           change (u32 428571429) with 428571429;
           change (u32 140249180) with 140249180;
           (eexists; split; [reflexivity |]); krun_bind;
           unfold init_hw_writes; cbn [Nat.leb];
           repeat rewrite <- app_assoc; cbn [app]; rewrite ?app_nil_r;
           split; reflexivity |]).
    lia.
Qed.

End PlatformProperties.

(** ** Initialisation and binding on concrete inputs *)

Lemma init_hw_programs_the_controller_witness :
  exists p',
    @dw_hdmi_qp_resume sample_regs sample_init_h
      (platform_of (world_of unbound_hdmi []) (Some full_phy_ops) true [])
    = Some (tt, p') /\
    regmap_replay (fun _ => 0xffffffff) (log (core p')) 0xf4 = 0xffffffef /\
    regmap_replay (fun _ => 0xffffffff) (log (core p')) 0x3024 = 0.
Proof.
  destruct (@init_hw_programs_the_controller sample_regs sample_init_h
              (platform_of (world_of unbound_hdmi []) (Some full_phy_ops)
                           true [])
              full_phy_ops eq_refl
              ltac:(repeat constructor; cbn; intuition discriminate))
    as (p' & Hrun & Hrun' & _).
  exists p'. split; [exact Hrun |].
  vm_compute in Hrun'. injection Hrun' as <-. split; reflexivity.
Defined.

Lemma bind_registers_handler_before_adapter_witness :
  exists p1,
    @bind_to_irq sample_regs sample_init_h sample_errno (Some full_phy_ops)
      (platform_of (world_of unbound_hdmi []) None false [])
    = Some (None, p1) /\
    @hardirq_entry sample_regs p1 = None.
Proof.
  pose proof (@bind_registers_handler_before_adapter sample_regs
                sample_init_h sample_errno (Some full_phy_ops)
                (platform_of (world_of unbound_hdmi []) None false []))
    as Hthm.
  destruct (@bind_to_irq sample_regs sample_init_h sample_errno
              (Some full_phy_ops)
              (platform_of (world_of unbound_hdmi []) None false []))
    as [[[r |] p1] |] eqn:E;
    [exfalso; vm_compute in E; discriminate
    | | exfalso; vm_compute in E; discriminate].
  exists p1. split; [reflexivity |].
  exact (proj1 (proj2 (Hthm p1 eq_refl))).
Defined.

Lemma bind_succeeds_witness :
  exists p',
    @dw_hdmi_qp_bind sample_regs sample_init_h sample_errno
      (Some full_phy_ops)
      (platform_of (world_of scrambling_hdmi []) None false
                   [Success; Success])
    = Some (Valid, p') /\
    hdmi (core p') = unbound_hdmi /\
    i2c_ptr p' = true.
Proof.
  destruct (@bind_succeeds sample_regs sample_init_h sample_errno
              full_phy_ops
              (platform_of (world_of scrambling_hdmi []) None false
                           [Success; Success])
              eq_refl eq_refl)
    as (p' & Hrun & Hhdmi & _ & _ & Hptr & _).
  exists p'. split; [exact Hrun |]. split; [exact Hhdmi | exact Hptr].
Defined.

Lemma bind_returns_first_failure_witness :
  exists p',
    @dw_hdmi_qp_bind sample_regs sample_init_h sample_errno
      (Some full_phy_ops)
      (platform_of (world_of unbound_hdmi []) None false
                   [Success; Success; Success; Failure (-16); Success])
    = Some (ErrPtr (-16), p') /\
    answers p' = [Success] /\
    log (core p') = @init_hw_writes sample_regs sample_init_h.
Proof.
  destruct (proj2 (@bind_returns_first_failure sample_regs sample_init_h
                     sample_errno)
              full_phy_ops
              (platform_of (world_of unbound_hdmi []) None false
                           [Success; Success; Success; Failure (-16);
                            Success])
              3%nat (-16) [Success] eq_refl ltac:(lia) eq_refl
              ltac:(discriminate))
    as (p' & Hrun & Hans & Hlog).
  exists p'. split; [exact Hrun |]. split; [exact Hans | exact Hlog].
Defined.

(** * Properties of the link reset and of hot-plug detection *)

Ltac krun_detect :=
  cbn [kbind kret kgets klog koops set_phy_ops set_i2c_ptr next_answer
       core_call bind ret gets emit set_hdmi set_i2c
       core phy_ops i2c_ptr hpd sink_edid conn_crtc conn_commit answers
       calls hdmi hw irqs sink_scdc sink_scrambling log loads fst snd
       map app succeeded int_of negb orb length].

Section DetectProperties.
Context {regs : dw_hdmi_qp_h} {linux : linux_h}
        {init_h : dw_hdmi_qp_init_h} {errno : linux_errno_h}.

Lemma filter_snoc {A} (f : A -> bool) l x :
  filter f (l ++ [x]) = filter f l ++ (if f x then [x] else []).
Proof. rewrite filter_app. reflexivity. Qed.

Lemma last_cons_next {A} (x : A) l d :
  l <> [] -> last (x :: l) d = last l d.
Proof. destruct l; [congruence | reflexivity]. Qed.

Lemma reset_link_retry_spec fuel :
  0 < EDEADLK ->
  forall p,
    (length (answers p) < fuel)%nat ->
    exists r p' T,
      reset_link_retry fuel p = Some (Some r, p') /\
      calls p' = calls p ++ T /\
      r <> - EDEADLK /\
      filter is_state_alloc T = [] /\
      filter is_state_put T = [DrmAtomicStatePut] /\
      last T DrmAtomicStateClear = DrmAtomicStatePut /\
      length (filter is_attempt T) = S (length (filter is_backoff T)) /\
      (length (filter is_backoff T) <= length (answers p))%nat.
Proof.
  intros Hpos.
  induction fuel as [| fuel IH]; intros p Hlen; [lia |].
  destruct p as [w o i h e c cm ans cs]. cbn [answers] in Hlen.
  cbn [reset_link_retry].
  destruct ans as [| [| e0] [| c0 ans]]; krun_detect;
    match goal with
    | |- context [?r =? - EDEADLK] =>
        destruct (Z.eqb_spec r (- EDEADLK)) as [Heq | Hne]
    end; krun_detect; try lia.
  all: try solve
    [ eexists _, _, _; split; [reflexivity |]; cbn [calls core answers];
      split; [rewrite <- !app_assoc; cbn [app]; reflexivity |];
      split; [exact Hne |];
      cbn; repeat split; try reflexivity; lia ].
  all: try solve
    [ match goal with
      | |- context [reset_link_retry ?f ?p0] =>
          destruct (IH p0 ltac:(cbn [answers length] in *; lia))
            as (r & p' & T & Hrun & Hcalls & Hr & Ha & Hp
                & Hlast & Hcount & Hbound)
      end;
      cbn [calls core answers] in Hcalls, Hbound;
      assert (HT : T <> []) by (intros ->; discriminate Hp);
      eexists r, p', _; split; [exact Hrun |];
      split; [rewrite Hcalls, <- !app_assoc; cbn [app]; reflexivity |];
      split; [exact Hr |];
      cbn [filter is_state_alloc is_state_put is_attempt is_backoff length];
      rewrite ?Ha, ?Hp, ?Hcount;
      repeat (rewrite last_cons_next by (try discriminate; exact HT));
      rewrite Hlast; repeat split; try reflexivity;
      cbn [length] in *; lia ].
Qed.

Lemma dw_hdmi_qp_reset_link_spec :
  0 < EDEADLK ->
  forall p : platform,
    exists r p' T,
      dw_hdmi_qp_reset_link p = Some (Some r, p') /\
      calls p' = calls p ++ T /\
      existsb is_lock T = true /\
      (length (filter is_backoff T) <= length (answers p))%nat /\
      length (filter is_state_put T) = length (filter is_state_alloc T) /\
      (filter is_state_alloc T = [] -> filter is_attempt T = []) /\
      (filter is_state_alloc T <> [] ->
       conn_crtc p = Some true /\
       conn_commit p <> Some false /\
       r <> - EDEADLK /\
       last T DrmAtomicStateClear = DrmAtomicStatePut /\
       length (filter is_attempt T) = S (length (filter is_backoff T))).
Proof.
  intros Hpos p.
  destruct p as [w o i h e c cm ans cs].
  unfold dw_hdmi_qp_reset_link.
  assert (Hdone : forall r T p',
             filter is_state_alloc T = [] ->
             filter is_state_put T = [] ->
             filter is_attempt T = [] ->
             filter is_backoff T = [] ->
             existsb is_lock T = true ->
             calls p' = cs ++ T ->
             exists r0 p'0 T0,
               Some (Some r, p') = Some (Some r0, p'0) /\
               calls p'0 = cs ++ T0 /\
               existsb is_lock T0 = true /\
               (length (filter is_backoff T0) <= length ans)%nat /\
               length (filter is_state_put T0)
               = length (filter is_state_alloc T0) /\
               (filter is_state_alloc T0 = [] -> filter is_attempt T0 = []) /\
               (filter is_state_alloc T0 <> [] ->
                c = Some true /\
                cm <> Some false /\
                r0 <> - EDEADLK /\
                last T0 DrmAtomicStateClear = DrmAtomicStatePut /\
                length (filter is_attempt T0)
                = S (length (filter is_backoff T0)))).
  { intros r T p' Ha Hp Ht Hb Hl Hcalls. exists r, p', T.
    rewrite Ha, Hp, Hb. repeat split; try assumption; try reflexivity.
    all: try congruence. cbn [length]. lia. }
  cbn [calls core conn_crtc conn_commit answers].
  repeat (krun_detect;
          match goal with
          | |- context [0 =? 0] => change (0 =? 0) with true
          | |- context [match ?l with [] => _ | _ :: _ => _ end] =>
              is_var l; destruct l as [| [| ?] ?]
          | |- context [negb (?x =? 0)] =>
              destruct (Z.eqb_spec x 0) as [-> |]
          | |- context [match c with Some _ => _ | None => _ end] =>
              destruct c as [[|] |]
          | |- context [match cm with Some _ => _ | None => _ end] =>
              destruct cm as [[|] |]
          end).
  all: krun_detect.
  all: try solve
    [ eapply Hdone; cycle 5;
      [ krun_detect; rewrite <- ?app_assoc; cbn [app]; reflexivity
      | reflexivity | reflexivity | reflexivity | reflexivity
      | reflexivity ] ].
  all: try solve
    [ eapply (Hdone _ [_]); cycle 5;
      [ krun_detect; reflexivity
      | reflexivity | reflexivity | reflexivity | reflexivity
      | reflexivity ] ].
  all: match goal with
       | |- context [reset_link_retry ?f ?p0] =>
           destruct (reset_link_retry_spec f Hpos p0
                       ltac:(cbn [answers length]; lia))
             as (r & p' & T & Hrun & Hcalls & Hr & Ha & Hp
                 & Hlast & Hcount & Hbound)
       end;
    cbn [calls core answers] in Hcalls, Hbound;
    assert (HT : T <> []) by (intros ->; discriminate Hp);
    eexists r, p', _; (split; [exact Hrun |]);
    (split; [rewrite Hcalls, <- !app_assoc; cbn [app]; reflexivity |]);
    cbn [filter is_state_alloc is_state_put is_attempt is_backoff length
         existsb is_lock orb];
    rewrite ?Ha, ?Hp, ?Hcount;
    repeat (rewrite last_cons_next by (try discriminate; exact HT));
    rewrite Hlast;
    (split; [reflexivity |]);
    (split; [cbn [length] in *; lia |]);
    (split; [reflexivity |]);
    (split; [discriminate |]);
    intros _; repeat split; try reflexivity; try assumption;
    discriminate.
Qed.


(** Hot-plug detection reports what the PHY reads from the hot-plug
    line, whatever else happens on the way.  It reads the EDID exactly
    when the line is not disconnected and a connector is bound, and it
    goes as far as the link reset exactly when, besides, scrambling is
    on, an EDID was read that announces an HDMI sink with SCDC and
    scrambling, and the sink says that it is not scrambling; what the
    link reset returns is dropped.  When it does not go as far as the
    link reset, it leaves the scrambling flag as it was and, with
    scrambling on, the recheck cancelled: neither queued nor running,
    and not queued again.  After a link reset nothing is said of either:
    a commit that goes through calls back into the bridge. *)
Theorem detect_reports_the_phy_status :
  0 < EDEADLK ->
  forall (p : platform) (ops : dw_hdmi_qp_phy_ops),
    phy_ops p = Some ops ->
    read_hpd ops = true ->
    work_running (scramb_work (hdmi (core p))) = false ->
    exists p' T,
      dw_hdmi_qp_bridge_detect p = Some (hpd p, p') /\
      calls p' = calls p ++ T /\
      existsb is_edid_read T
      = negb (drm_connector_status_eqb (hpd p)
                                       connector_status_disconnected)
        && match connector (hdmi (core p)) with
           | Some _ => true
           | None => false
           end /\
      existsb is_lock T = reset_wanted p /\
      (reset_wanted p = false ->
       scramb_enabled (hdmi (core p')) = scramb_enabled (hdmi (core p)) /\
       scramb_work (hdmi (core p'))
       = (if scramb_enabled (hdmi (core p)) then mk_work false false
          else scramb_work (hdmi (core p)))).
Proof.
  intros Hpos p ops Hops Hhpd Hrun.
  destruct p as [w o i h e c cm ans cs].
  destruct w as [[ic co [pd rn] en] hwf iq sc ss lg ld].
  cbn in Hops, Hrun. subst o rn.
  unfold reset_wanted.
  unfold dw_hdmi_qp_bridge_detect, the_phy_ops, drm_edid_read_ddc,
    drm_edid_connector_update.
  krun_detect. rewrite Hhpd. krun_detect.
  unfold cancel_delayed_work_sync, dw_hdmi_qp_supports_scrambling,
    drm_scdc_get_scrambling_status, the_connector.
  destruct en; cbn -[dw_hdmi_qp_reset_link];
    destruct h; cbn -[dw_hdmi_qp_reset_link];
    destruct co as [[ih sd sr st] |]; cbn -[dw_hdmi_qp_reset_link];
    try (eexists _, _; split; [reflexivity |]; cbn;
         split; [rewrite <- ?app_assoc; cbn [app]; reflexivity |];
         split; [reflexivity |]; split; [reflexivity |];
         intros _; split; reflexivity).
  all: destruct e as [[eh es er est] |]; cbn -[dw_hdmi_qp_reset_link];
    try (eexists _, _; split; [reflexivity |]; cbn;
         split; [rewrite <- ?app_assoc; cbn [app]; reflexivity |];
         split; [reflexivity |]; split; [reflexivity |];
         intros _; split; reflexivity).
  all: destruct eh, es, er; cbn -[dw_hdmi_qp_reset_link];
    try (eexists _, _; split; [reflexivity |]; cbn;
         split; [rewrite <- ?app_assoc; cbn [app]; reflexivity |];
         split; [reflexivity |]; split; [reflexivity |];
         intros _; split; reflexivity).
  all: destruct ss; cbn -[dw_hdmi_qp_reset_link];
    try (eexists _, _; split; [reflexivity |]; cbn;
         split; [rewrite <- ?app_assoc; cbn [app]; reflexivity |];
         split; [reflexivity |]; split; [reflexivity |];
         intros _; split; reflexivity).
  all: match goal with
       | |- context [dw_hdmi_qp_reset_link ?p0] =>
           destruct (dw_hdmi_qp_reset_link_spec Hpos p0)
             as (r & p' & T & Hrl & Hcalls & Hlock & _);
           rewrite Hrl
       end;
    cbn [calls core] in Hcalls;
    eexists p', _; (split; [reflexivity |]);
    (split; [rewrite Hcalls, <- !app_assoc; cbn [app]; reflexivity |]);
    cbn;
    rewrite ?existsb_app; cbn; rewrite ?Hlock, ?orb_true_r;
    (split; [reflexivity |]); (split; [reflexivity |]);
    intro Hno; discriminate Hno.
Qed.

End DetectProperties.

(** ** The link reset and detection on concrete inputs *)


Lemma detect_reports_the_phy_status_witness :
  exists p' T,
    @dw_hdmi_qp_bridge_detect sample_errno
      (mk_platform (mk_world (mk_hdmi idle_i2c (Some hdmi14_sink)
                                      (mk_work true false) true)
                             (fun _ => 0) [] (fun _ => 0) true [] [])
                   (Some full_phy_ops) true
                   connector_status_connected (Some hdmi20_sink)
                   (Some true) None [] [])
    = Some (connector_status_connected, p') /\
    calls p' = T /\
    existsb is_edid_read T = true /\
    existsb is_lock T = false /\
    scramb_enabled (hdmi (core p')) = true /\
    scramb_work (hdmi (core p')) = mk_work false false.
Proof.
  destruct (@detect_reports_the_phy_status sample_errno
              ltac:(reflexivity)
              (mk_platform (mk_world (mk_hdmi idle_i2c (Some hdmi14_sink)
                                              (mk_work true false) true)
                                     (fun _ => 0) [] (fun _ => 0) true [] [])
                           (Some full_phy_ops) true
                           connector_status_connected (Some hdmi20_sink)
                           (Some true) None [] [])
              full_phy_ops eq_refl eq_refl eq_refl)
    as (p' & T & Hrun & Hcalls & Hedid & Hlock & Hpost).
  destruct (Hpost eq_refl) as [Hflag Hwork].
  exists p', T. split; [exact Hrun |]. split; [exact Hcalls |].
  split; [exact Hedid |]. split; [exact Hlock |].
  split; [exact Hflag | exact Hwork].
Defined.

(** * Properties of the power sequencer of the AP6275P module *)

Section PwrseqProperties.
Import Ap6275p.
Context {errno : linux_errno_h}.
Local Open Scope string_scope.
Local Open Scope list_scope.
Local Open Scope Z_scope.

Ltac prun :=
  cbn [pbind pret poops plog allocate the_ctx with_ctx mem trace for_loop
       set_supply set_clock store nth_error option_map repeat
       pwrseq dev supplies clocks bt_gpio wlan_gpio
       ap6275p_supplies ap6275p_clocks negb
       devm_kzalloc devm_regulator_bulk_get devm_clk_bulk_get
       devm_gpiod_get_optional devm_pwrseq_device_register
       regulator_bulk_enable regulator_bulk_disable clk_bulk_prepare_enable
       fwnode_property_get_reference_args fwnode_get_next_parent].

Ltac penv env :=
  destruct env as [kz rg ck gp rs re rd ce ra np];
  cbn [devm_kzalloc devm_regulator_bulk_get devm_clk_bulk_get
       devm_gpiod_get_optional devm_pwrseq_device_register
       regulator_bulk_enable regulator_bulk_disable clk_bulk_prepare_enable
       fwnode_property_get_reference_args fwnode_get_next_parent] in *.

(** Every way through [pwrseq_ap6275p_probe]. *)
Ltac probe_cases :=
  unfold pwrseq_ap6275p_probe, dev_err_probe, zeroed_ctx;
  change (Z.to_nat AP6275P_NUM_SUPPLIES) with 2%nat;
  change (Z.to_nat AP6275P_NUM_CLOCKS) with 2%nat;
  prun;
  repeat match goal with
         | |- context [negb ?b] =>
             is_var b; destruct b; prun
         | |- context [if (?x <? 0)%Z then _ else _] =>
             destruct (Z.ltb_spec x 0); prun
         | |- context [match ?g ?s with Null => _ | _ => _ end] =>
             destruct (g s) eqn:?; prun
         | |- context [match ?p with Null => _ | _ => _ end] =>
             is_var p; destruct p; prun
         end.

(** What [errors_are_negative] says of each pointer. *)
Ltac use_errors H :=
  unfold errors_are_negative in H;
  let Hbt := fresh "Hbt" in
  let Hwl := fresh "Hwl" in
  let Hrs := fresh "Hrs" in
  pose proof (Forall_inv H) as Hbt;
  pose proof (Forall_inv (Forall_inv_tail H)) as Hwl;
  pose proof (Forall_inv (Forall_inv_tail (Forall_inv_tail H))) as Hrs;
  cbn beta in Hbt, Hwl, Hrs; clear H.

Ltac error_facts :=
  repeat match goal with
         | H : IS_ERR (Err _) = true -> _ |- _ =>
             specialize (H eq_refl); cbn [error_of] in H
         end.

(** [pwrseq_ap6275p_probe] never goes through an invalid pointer,
    whatever the kernel answers.  Of its six steps (the allocation, the
    regulators, the clocks, the two lines, the registration) it makes
    those up to the first one that fails and no later one, and returns
    the error of that one, -ENOMEM for the allocation; it returns 0 when
    none fails, and never a positive number, also when the lookup of the
    regulators or of the clocks returns one.  Every failure but that of
    the allocation is reported once, with the error that is returned,
    after the last step; nothing else is called. *)
Theorem probe_returns_first_failure env pdev st
    (Hnomem : 0 < ENOMEM) (Herr : errors_are_negative env) :
  exists st' T,
    pwrseq_ap6275p_probe env pdev st
    = Some (first_negative (probe_steps env), st')
    /\ trace st' = trace st ++ T
    /\ first_negative (probe_steps env) <= 0
    /\ (first_negative (probe_steps env) = 0
        <-> leading_successes (probe_steps env) = 6%nat)
    /\ T = filter is_step T ++ filter is_report T
    /\ length (filter is_step T)
       = Nat.min 6 (S (leading_successes (probe_steps env)))
    /\ length (filter is_report T)
       = (if devm_kzalloc env && (first_negative (probe_steps env) <? 0)%Z
          then 1%nat else 0%nat)
    /\ (forall e msg, In (DevErrProbe e msg) T ->
        e = first_negative (probe_steps env)).
Proof.
  use_errors Herr.
  unfold probe_steps. cbn [first_negative leading_successes].
  penv env. probe_cases.
  all: error_facts; cbn [error_of] in *.
  all: try (exfalso; lia).
  all: repeat match goal with
         | |- context [if (?x <? 0)%Z then _ else _] =>
             destruct (Z.ltb_spec x 0); try (exfalso; lia)
         end.
  all: try (exfalso; lia).
  all: eexists; eexists; (split; [reflexivity |]); cbn [trace];
    rewrite <- ?app_assoc; cbn [app]; (split; [reflexivity |]).
  all: cbn [filter is_step is_report length app Nat.min andb].
  all: repeat split; try lia; try reflexivity.
  all: try (destruct (Z.ltb_spec rg 0); lia).
  all: try (destruct (Z.ltb_spec ck 0); lia).
  all: try match goal with
           | |- _ = (if (?x <? 0)%Z then _ else _) =>
               destruct (Z.ltb_spec x 0); lia
           end.
  all: try (intros e' msg Hin; cbn [In] in Hin;
            repeat (destruct Hin as [Hin | Hin]; try discriminate Hin);
            [inversion Hin; reflexivity | contradiction]).
  all: try (intros e' msg Hin; cbn [In] in Hin;
            repeat (destruct Hin as [Hin | Hin]; try discriminate Hin);
            contradiction).
Qed.

Lemma probe_success env pdev st st' :
  0 < ENOMEM -> errors_are_negative env ->
  pwrseq_ap6275p_probe env pdev st = Some (0, st') ->
  IS_ERR (devm_pwrseq_device_register env) = false
  /\ st' = mk_state (Some (probed_ctx env pdev))
                    (trace st ++ probed_calls env pdev).
Proof.
  intros Hnomem Herr. use_errors Herr.
  unfold probed_calls, probed_config, probed_ctx.
  cbn [supplies clocks bt_gpio wlan_gpio map ap6275p_supplies ap6275p_clocks].
  penv env. probe_cases.
  all: error_facts.
  all: intro Hrun; inversion Hrun; subst; clear Hrun.
  all: try (exfalso; lia).
  all: rewrite <- ?app_assoc; cbn [app IS_ERR]; split; reflexivity.
Qed.



(** A callback run on a state that holds a context. *)
Ltac callback_run :=
  cbn [run_callback];
  unfold pwrseq_ap6275p_pwup_delay, pwrseq_ap6275p_vregs_enable,
    pwrseq_ap6275p_vregs_disable, pwrseq_ap6275p_clk_enable,
    pwrseq_ap6275p_clk_disable, pwrseq_ap6275p_bt_enable,
    pwrseq_ap6275p_bt_disable, pwrseq_ap6275p_wlan_enable,
    pwrseq_ap6275p_wlan_disable, pwrseq_device_get_drvdata;
  prun.

Lemma run_callback_total env f c tr :
  exists r T,
    run_callback env f (mk_state (Some c) tr)
    = Some (r, mk_state (Some c) (tr ++ T)).
Proof.
  destruct f; callback_run; rewrite <- ?app_assoc; cbn [app];
    eexists; eexists; reflexivity.
Qed.

Lemma fwnode_eqb_eq a b : fwnode_eqb a b = true <-> a = b.
Proof.
  destruct a as [x |], b as [y |]; cbn [fwnode_eqb];
    try (split; congruence).
  rewrite Nat.eqb_eq. split; congruence.
Qed.

(** A probe that returns 0 has made six calls and none that reports an
    error; the last one registers the sequencer, with a configuration
    whose context has received the device, the names of the supplies
    and of the clocks and the two lines, all that the callbacks read.
    From the state that the probe leaves, no callback and no matching
    goes through an invalid pointer, and none changes the context. *)
Theorem probe_registers_a_complete_context env pdev st st'
    (Hnomem : 0 < ENOMEM) (Herr : errors_are_negative env)
    (Hrun : pwrseq_ap6275p_probe env pdev st = Some (0, st')) :
  mem st' = Some (probed_ctx env pdev)
  /\ trace st' = trace st ++ probed_calls env pdev
  /\ last (trace st') (DevmKzalloc false)
     = DevmPwrseqDeviceRegister (probed_config env pdev)
                                (devm_pwrseq_device_register env)
  /\ IS_ERR (devm_pwrseq_device_register env) = false
  /\ (forall f, exists r st'',
        run_callback env f st' = Some (r, st'') /\ mem st'' = mem st')
  /\ (forall consumer, exists r st'',
        pwrseq_ap6275p_match env consumer st' = Some (r, st'')
        /\ mem st'' = mem st').
Proof.
  destruct (probe_success _ _ _ _ Hnomem Herr Hrun) as [Hreg ->].
  cbn [mem trace].
  split; [reflexivity |]. split; [reflexivity |].
  split.
  { unfold probed_calls.
    change (?a :: ?b :: ?c :: ?d :: ?e :: [?f])
      with ([a; b; c; d; e] ++ [f]).
    rewrite app_assoc. apply last_last. }
  split; [exact Hreg |].
  split.
  - intro f.
    destruct (run_callback_total env f (probed_ctx env pdev)
                (trace st ++ probed_calls env pdev)) as (r & T & ->).
    eexists; eexists; split; reflexivity.
  - intro consumer.
    unfold pwrseq_ap6275p_match, pwrseq_device_get_drvdata. prun.
    destruct (fwnode_property_get_reference_args env (fwnode consumer) _)
      as [r ref].
    prun.
    destruct (r =? 0)%Z; prun; cbn [probed_ctx dev];
      eexists; eexists; split; reflexivity.
Qed.

(** After a probe that returned 0, for each of the two targets and each
    unit that the target stands on (the clocks, the regulators, the unit
    of the target itself): the disable callback of the unit acts on the
    very resource that its enable callback acted on, one set of
    regulators, one set of clocks or one line; neither goes through an
    invalid pointer nor changes the context.  The unit of the target
    itself switches a line and cannot fail, be the line there or not;
    for the target "bluetooth" it is the line that the probe obtained as
    "bt-enable", for "wlan" the one obtained as "wlan-enable".  What the
    target runs after its units are enabled acts on no resource and
    returns 0. *)
Theorem units_disable_what_they_enable env pdev st st' t u en dis
    (Hnomem : 0 < ENOMEM) (Herr : errors_are_negative env)
    (Hrun : pwrseq_ap6275p_probe env pdev st = Some (0, st'))
    (Ht : In t pwrseq_ap6275p_targets) (Hu : In u (units_of t))
    (Hen : enable u = Some en) (Hdis : disable u = Some dis) :
  exists r1 st1 T1 r2 st2 T2,
    run_callback env en st' = Some (r1, st1)
    /\ trace st1 = trace st' ++ T1
    /\ run_callback env dis st1 = Some (r2, st2)
    /\ trace st2 = trace st1 ++ T2
    /\ mem st2 = mem st'
    /\ resources T1 = resources T2
    /\ length (resources T1) = 1%nat
    /\ (u = target_unit t ->
        r1 = 0 /\ r2 = 0
        /\ exists line, T1 = [GpiodSetValueCansleep line 1]
                        /\ T2 = [GpiodSetValueCansleep line 0]
                        /\ (t = pwrseq_ap6275p_bt_target_data ->
                            line = bt_gpio (probed_ctx env pdev))
                        /\ (t = pwrseq_ap6275p_wlan_target_data ->
                            line = wlan_gpio (probed_ctx env pdev)))
    /\ (forall f, post_enable t = Some f ->
        exists st3 T3,
          run_callback env f st2 = Some (0, st3)
          /\ trace st3 = trace st2 ++ T3
          /\ mem st3 = mem st2
          /\ resources T3 = []).
Proof.
  destruct (probe_success _ _ _ _ Hnomem Herr Hrun) as [_ ->].
  set (tr := trace st ++ probed_calls env pdev). clearbody tr.
  cbn [In pwrseq_ap6275p_targets] in Ht.
  destruct Ht as [<- | [<- | []]];
    cbn [units_of target_unit pwrseq_ap6275p_bt_target_data
         pwrseq_ap6275p_wlan_target_data pwrseq_ap6275p_bt_unit_data
         pwrseq_ap6275p_wlan_unit_data pwrseq_ap6275p_unit_deps
         deps app In] in Hu;
    destruct Hu as [<- | [<- | [<- | []]]];
    cbn [enable disable pwrseq_ap6275p_clk_unit_data
         pwrseq_ap6275p_vregs_unit_data] in Hen, Hdis;
    inversion Hen; inversion Hdis; subst en dis; clear Hen Hdis.
  all: do 6 eexists.
  all: (split; [callback_run; reflexivity |]).
  all: (split; [cbn [trace]; rewrite <- ?app_assoc; cbn [app];
                reflexivity |]).
  all: (split; [callback_run; reflexivity |]).
  all: (split; [cbn [trace]; reflexivity |]).
  all: (split; [reflexivity |]).
  all: cbn [resources resource_of length].
  all: (split; [reflexivity |]).
  all: (split; [reflexivity |]).
  all: split.
  all: try (intro Hu; discriminate Hu).
  all: try (intros _; split; [reflexivity |]; split; [reflexivity |];
            eexists; split; [reflexivity |]; split; [reflexivity |];
            cbn [probed_ctx bt_gpio wlan_gpio];
            split; intro Heq; try reflexivity; discriminate Heq).
  all: intros f Hf; cbn [post_enable pwrseq_ap6275p_bt_target_data
                         pwrseq_ap6275p_wlan_target_data] in Hf;
    inversion Hf; subst f; callback_run;
    eexists; eexists; (split; [reflexivity |]);
    cbn [trace mem resources resource_of]; repeat split.
Qed.

(** After a probe that returned 0, matching a consumer never returns an
    error: it returns 1 when the lookup of the [vdd-supply] of the
    consumer succeeds and the node two levels above the supply is the
    node of the probed device, and 0 otherwise, a failed lookup
    included.  It puts one handle, that of the node it compared, when
    the lookup succeeded, and none otherwise; the context is left as it
    is. *)
Theorem match_compares_the_grandparent env pdev st st' consumer
    (Hnomem : 0 < ENOMEM) (Herr : errors_are_negative env)
    (Hrun : pwrseq_ap6275p_probe env pdev st = Some (0, st')) :
  exists r st'' T,
    pwrseq_ap6275p_match env consumer st' = Some (r, st'')
    /\ trace st'' = trace st' ++ T
    /\ mem st'' = mem st'
    /\ (r = 0 \/ r = 1)
    /\ (r = 1 <->
        fst (vdd_supply env consumer) = 0
        /\ grandparent env (snd (vdd_supply env consumer)) = fwnode pdev)
    /\ filter is_handle_put T
       = (if (fst (vdd_supply env consumer) =? 0)%Z
          then [FwnodeHandlePut
                  (grandparent env (snd (vdd_supply env consumer)))]
          else []).
Proof.
  destruct (probe_success _ _ _ _ Hnomem Herr Hrun) as [_ ->].
  set (tr := trace st ++ probed_calls env pdev). clearbody tr.
  unfold pwrseq_ap6275p_match, pwrseq_device_get_drvdata, vdd_supply,
    grandparent.
  prun.
  destruct (fwnode_property_get_reference_args env (fwnode consumer) _)
    as [r ref].
  cbn [fst snd]. prun.
  destruct (Z.eqb_spec r 0) as [-> | Hr]; prun; cbn [probed_ctx dev fwnode].
  - destruct (fwnode_eqb _ (fwnode pdev)) eqn:Heq;
      prun; rewrite <- !app_assoc; cbn [app].
    + apply fwnode_eqb_eq in Heq.
      do 3 eexists. split; [reflexivity |]. cbn [trace mem].
      split; [reflexivity |]. split; [reflexivity |].
      split; [right; reflexivity |].
      split; [split; [intros _; split; [reflexivity | exact Heq]
                     | reflexivity] |].
      reflexivity.
    + do 3 eexists. split; [reflexivity |]. cbn [trace mem].
      split; [reflexivity |]. split; [reflexivity |].
      split; [left; reflexivity |].
      split; [| reflexivity].
      split; [discriminate |].
      intros [_ Hg]. apply fwnode_eqb_eq in Hg. congruence.
  - do 3 eexists. split; [reflexivity |]. cbn [trace mem].
    split; [reflexivity |]. split; [reflexivity |].
    split; [left; reflexivity |].
    split; [| reflexivity].
    split; [discriminate |]. intros [H0 _]. contradiction.
Qed.
End PwrseqProperties.

Lemma sample_errors_are_negative :
  Ap6275p.errors_are_negative Ap6275p.sample_env.
Proof.
  repeat (apply Forall_cons; [intro H; discriminate H |]). apply Forall_nil.
Qed.

Lemma probe_returns_first_failure_witness :
  exists st',
    Ap6275p.pwrseq_ap6275p_probe (errno := sample_errno) Ap6275p.sample_env
      Ap6275p.sample_pmu (Ap6275p.mk_state None [])
    = Some (0, st').
Proof.
  destruct (@probe_returns_first_failure sample_errno Ap6275p.sample_env
              Ap6275p.sample_pmu (Ap6275p.mk_state None [])
              eq_refl sample_errors_are_negative)
    as (st' & T & Hrun & _).
  exists st'. exact Hrun.
Defined.

Lemma probe_registers_a_complete_context_witness :
  exists st',
    Ap6275p.pwrseq_ap6275p_probe (errno := sample_errno) Ap6275p.sample_env
      Ap6275p.sample_pmu (Ap6275p.mk_state None [])
    = Some (0, st')
    /\ Ap6275p.mem st'
       = Some (Ap6275p.probed_ctx Ap6275p.sample_env Ap6275p.sample_pmu).
Proof.
  destruct (Ap6275p.pwrseq_ap6275p_probe (errno := sample_errno)
              Ap6275p.sample_env Ap6275p.sample_pmu
              (Ap6275p.mk_state None [])) as [[r st'] |] eqn:E;
    [| exfalso; vm_compute in E; discriminate E].
  pose proof E as E'. vm_compute in E'. injection E' as <- <-.
  eexists. split; [reflexivity |].
  exact (proj1 (@probe_registers_a_complete_context sample_errno
                  Ap6275p.sample_env Ap6275p.sample_pmu
                  (Ap6275p.mk_state None []) _
                  eq_refl sample_errors_are_negative E)).
Defined.

Lemma units_disable_what_they_enable_witness :
  exists st' st1 st2,
    Ap6275p.pwrseq_ap6275p_probe (errno := sample_errno) Ap6275p.sample_env
      Ap6275p.sample_pmu (Ap6275p.mk_state None [])
    = Some (0, st')
    /\ Ap6275p.run_callback Ap6275p.sample_env Ap6275p.Bt_enable st'
       = Some (0, st1)
    /\ Ap6275p.run_callback Ap6275p.sample_env Ap6275p.Bt_disable st1
       = Some (0, st2)
    /\ Ap6275p.mem st2 = Ap6275p.mem st'.
Proof.
  destruct (Ap6275p.pwrseq_ap6275p_probe (errno := sample_errno)
              Ap6275p.sample_env Ap6275p.sample_pmu
              (Ap6275p.mk_state None [])) as [[r st'] |] eqn:E;
    [| exfalso; vm_compute in E; discriminate E].
  pose proof E as E'. vm_compute in E'. injection E' as <- <-.
  destruct (@units_disable_what_they_enable sample_errno
              Ap6275p.sample_env Ap6275p.sample_pmu
              (Ap6275p.mk_state None []) _
              Ap6275p.pwrseq_ap6275p_bt_target_data
              Ap6275p.pwrseq_ap6275p_bt_unit_data
              Ap6275p.Bt_enable Ap6275p.Bt_disable
              eq_refl sample_errors_are_negative E
              (or_introl eq_refl)
              (or_intror (or_intror (or_introl eq_refl)))
              eq_refl eq_refl)
    as (r1 & st1 & T1 & r2 & st2 & T2 & H1 & _ & H2 & _ & Hmem & _ & _
        & Hown & _).
  destruct (Hown eq_refl) as (-> & -> & _).
  eexists. exists st1, st2.
  split; [reflexivity |].
  split; [exact H1 |]. split; [exact H2 | exact Hmem].
Defined.

Lemma match_compares_the_grandparent_witness :
  exists st' st'',
    Ap6275p.pwrseq_ap6275p_probe (errno := sample_errno) Ap6275p.sample_env
      Ap6275p.sample_pmu (Ap6275p.mk_state None [])
    = Some (0, st')
    /\ Ap6275p.pwrseq_ap6275p_match Ap6275p.sample_env
         (Ap6275p.mk_device (Some 10%nat)) st'
       = Some (1, st'').
Proof.
  destruct (Ap6275p.pwrseq_ap6275p_probe (errno := sample_errno)
              Ap6275p.sample_env Ap6275p.sample_pmu
              (Ap6275p.mk_state None [])) as [[r st'] |] eqn:E;
    [| exfalso; vm_compute in E; discriminate E].
  pose proof E as E'. vm_compute in E'. injection E' as <- <-.
  destruct (@match_compares_the_grandparent sample_errno
              Ap6275p.sample_env Ap6275p.sample_pmu
              (Ap6275p.mk_state None []) _
              (Ap6275p.mk_device (Some 10%nat))
              eq_refl sample_errors_are_negative E)
    as (r & st'' & T & Hrun & _ & _ & _ & Hiff & _).
  eexists. exists st''.
  split; [reflexivity |].
  rewrite (proj2 Hiff (conj eq_refl eq_refl)) in Hrun. exact Hrun.
Defined.
